(** * Forma: the per-frame exercise form analyzer (class [ExerciseAnalyzer])

    A shallow embedding of the TypeScript class [ExerciseAnalyzer]
    (the analyzer module bundled in
    [frontend/app/api/progress/patient/[patientId]/route.ts]) and the
    properties of its scoring policy, history buffer, phase detector and
    per-exercise rules.

    Modelling choices.
    - A JavaScript [number] is an IEEE 754 binary64 value: Rocq's primitive
      [float], whose operations are the processor's.  Decimal literals are
      rounded to the nearest binary64 value, as the JavaScript parser does.
    - The score is built from array lengths by integer arithmetic far inside
      the range in which binary64 is exact; it is carried as a [Z].
    - [a[i].f] on an index that is out of range raises a [TypeError]; a
      computation that can raise returns an [option] ([None] = raised).
    - The analyzer object is passed explicitly: [analyzeExercise] returns the
      updated object next to the (possibly raised) result. *)

From Stdlib Require Import Floats ZArith String List Bool Arith Lia.
From Stdlib Require Uint63 DecimalString.
Import ListNotations.

#[local] Set Warnings "-inexact-float".
#[local] Open Scope string_scope.
#[local] Open Scope list_scope.

(* ================================================================== *)
(** * The error monad of a computation that may raise                  *)
(* ================================================================== *)

Definition bind {A B : Type} (c : option A) (k : A -> option B) : option B :=
  match c with
  | Some a => k a
  | None => None
  end.

Notation "'let*' a ':=' c 'in' k" := (bind c (fun a => k))
  (at level 10, a name, c at level 100, k at level 200).

(** [array.map(f)] where [f] may raise: stops at the first element that does. *)
Fixpoint mapM {A B : Type} (f : A -> option B) (l : list A) : option (list B) :=
  match l with
  | [] => Some []
  | a :: r => let* b := f a in let* bs := mapM f r in Some (b :: bs)
  end.

(** [array.reduce(f, init)] where [f] may raise. *)
Fixpoint reduce {A B : Type} (f : B -> A -> option B) (init : B) (l : list A)
  : option B :=
  match l with
  | [] => Some init
  | a :: r => let* acc := f init a in reduce f acc r
  end.

(** [array.slice(-n)]: the last [n] elements (all of them when there are
    fewer). *)
Definition slice_last {A : Type} (n : nat) (l : list A) : list A :=
  skipn (length l - n) l.

(* ================================================================== *)
(** * ECMAScript numbers and the [Math] object                          *)
(* ================================================================== *)

Module JS.

#[local] Open Scope float_scope.

(** [Math.PI]. *)
Definition PI : float := 0x1.921fb54442d18p+1.

(** The values ECMA-262 leaves "implementation-approximated": the generic
    branch of [Math.acos], of [Math.atan2] and of [Math.pow].  Every
    theorem of this development holds for every choice. *)
Record MathImpl : Type := {
  acos_approx : float -> float;
  atan2_approx : float -> float -> float;
  pow_approx : float -> float -> float
}.

Definition is_pos_zero (f : float) : bool := is_zero f && negb (get_sign f).
Definition is_neg_zero (f : float) : bool := is_zero f && get_sign f.

(** [n] as a number, for array lengths. *)
Definition of_nat (n : nat) : float := of_uint63 (Uint63.of_Z (Z.of_nat n)).

(** [Math.max(...coerced)], ECMA-262 21.3.2.24: start from -Infinity; a NaN
    argument gives NaN; +0 is larger than -0. *)
Fixpoint max_loop (highest : float) (coerced : list float) : float :=
  match coerced with
  | [] => highest
  | number :: rest =>
      if is_nan number then nan
      else
        let highest :=
          if is_pos_zero number && is_neg_zero highest then number else highest in
        let highest := if highest <? number then number else highest in
        max_loop highest rest
  end.

Definition Math_max (coerced : list float) : float :=
  max_loop neg_infinity coerced.

(** [Math.min(...coerced)], ECMA-262 21.3.2.25. *)
Fixpoint min_loop (lowest : float) (coerced : list float) : float :=
  match coerced with
  | [] => lowest
  | number :: rest =>
      if is_nan number then nan
      else
        let lowest :=
          if is_neg_zero number && is_pos_zero lowest then number else lowest in
        let lowest := if number <? lowest then number else lowest in
        min_loop lowest rest
  end.

Definition Math_min (coerced : list float) : float :=
  min_loop infinity coerced.

(** [Math.abs]: clears the sign bit. *)
Definition Math_abs (v : float) : float := abs v.

(** [Math.sqrt]: the correctly rounded square root of IEEE 754, which is
    what the engines compute. *)
Definition Math_sqrt (v : float) : float := sqrt v.

Section Approximated.
Variable M : MathImpl.

(** [Math.acos(x)], ECMA-262 21.3.2.2: NaN outside [-1, 1], +0 at 1. *)
Definition Math_acos (v : float) : float :=
  if is_nan v || (1 <? v) || (v <? -1) then nan
  else if v =? 1 then 0
  else acos_approx M v.

(** [Math.atan2(y, x)], ECMA-262 21.3.2.8.  The multiples of pi/4 returned
    on the axes and at the infinities are the binary64 values nearest to
    them. *)
Definition Math_atan2 (ny nx : float) : float :=
  if is_nan ny || is_nan nx then nan
  else if ny =? infinity then
    if nx =? infinity then 0x1.921fb54442d18p-1
    else if nx =? neg_infinity then 0x1.2d97c7f3321d2p+1
    else 0x1.921fb54442d18p+0
  else if ny =? neg_infinity then
    if nx =? infinity then -0x1.921fb54442d18p-1
    else if nx =? neg_infinity then -0x1.2d97c7f3321d2p+1
    else -0x1.921fb54442d18p+0
  else if is_pos_zero ny then
    if (0 <? nx) || is_pos_zero nx then 0 else 0x1.921fb54442d18p+1
  else if is_neg_zero ny then
    if (0 <? nx) || is_pos_zero nx then -0 else -0x1.921fb54442d18p+1
  else if 0 <? ny then
    if nx =? infinity then 0
    else if nx =? neg_infinity then 0x1.921fb54442d18p+1
    else if is_zero nx then 0x1.921fb54442d18p+0
    else atan2_approx M ny nx
  else
    if nx =? infinity then -0
    else if nx =? neg_infinity then -0x1.921fb54442d18p+1
    else if is_zero nx then -0x1.921fb54442d18p+0
    else atan2_approx M ny nx.

(** [Math.pow(base, exponent)], ECMA-262 6.1.6.1.3: the first three steps;
    the remaining cases are left to the implementation record. *)
Definition Math_pow (base exponent : float) : float :=
  if is_nan exponent then nan
  else if is_zero exponent then 1
  else if is_nan base then nan
  else pow_approx M base exponent.
End Approximated.

End JS.

Import JS.

(* ================================================================== *)
(** * Data model                                                        *)
(* ================================================================== *)

(** [interface PoseLandmark] (components/pt-analysis-app.tsx). *)
Record PoseLandmark : Type := {
  x : float;
  y : float;
  z : float;
  visibility : float
}.

(** [interface BiomechanicalAnalysis]; [jointAngles] is a
    [Record<string, number>], kept in insertion order. *)
Record BiomechanicalAnalysis : Type := {
  jointAngles : list (string * float);
  symmetry : float;
  stability : float;
  range : float;
  timing : float
}.

(** [interface FormAssessment]. *)
Record FormAssessment : Type := {
  score : Z;
  criticalErrors : list string;
  minorIssues : list string;
  strengths : list string;
  phase : string;
  biomechanics : BiomechanicalAnalysis
}.

(** The private fields of [class ExerciseAnalyzer]. *)
Record ExerciseAnalyzer : Type := {
  frameHistory : list (list PoseLandmark);
  phaseHistory : list string
}.

(** [private readonly maxHistoryFrames = 30]. *)
Definition maxHistoryFrames : nat := 30.

(** [new ExerciseAnalyzer()]. *)
Definition newExerciseAnalyzer : ExerciseAnalyzer :=
  {| frameHistory := []; phaseHistory := [] |}.

(** [landmarks[i]] when a property of it is read next: [None] is the
    [TypeError] of reading a property of [undefined]. *)
Definition at_index (landmarks : list PoseLandmark) (i : nat)
  : option PoseLandmark :=
  nth_error landmarks i.

(** [numbers[i]] used as a number: [undefined] coerces to NaN. *)
Definition num_at (numbers : list float) (i : nat) : float :=
  nth i numbers nan.

(** The three finding lists a routine fills with [push]. *)
Definition findings : Type := (list string * list string * list string)%type.

Definition pushCritical (f : findings) (msg : string) : findings :=
  let '(c, m, s) := f in (c ++ [msg], m, s).
Definition pushMinor (f : findings) (msg : string) : findings :=
  let '(c, m, s) := f in (c, m ++ [msg], s).
Definition pushStrength (f : findings) (msg : string) : findings :=
  let '(c, m, s) := f in (c, m, s ++ [msg]).

(* ================================================================== *)
(** * The methods of [ExerciseAnalyzer]                                 *)
(* ================================================================== *)

Notation "a >? b" := (PrimFloat.ltb b a)
  (at level 70, no associativity) : float_scope.

(** [calculateFormScore]: 100, minus 25 per critical error, minus 10 per
    minor issue, plus 5 per strength, clamped to 0..100. *)
Definition calculateFormScore
  (criticalErrors minorIssues strengths : list string) : Z :=
  let score := 100%Z in
  let score := (score - Z.of_nat (length criticalErrors) * 25)%Z in
  let score := (score - Z.of_nat (length minorIssues) * 10)%Z in
  let score := (score + Z.of_nat (length strengths) * 5)%Z in
  Z.max 0 (Z.min 100 score).

(** [getDefaultAssessment]. *)
Definition getDefaultAssessment : FormAssessment :=
  {| score := 75;
     criticalErrors := [];
     minorIssues := [];
     strengths := ["Exercise detected"];
     phase := "unknown";
     biomechanics :=
       {| jointAngles := [];
          symmetry := 0.8;
          stability := 0.7;
          range := 0.8;
          timing := 1.0 |} |}.

Definition calculateMovementTiming : float := 1.0.
Definition calculateHoldTime : float := 1.0.

Section Methods.
Variable M : MathImpl.
#[local] Open Scope float_scope.

(** [calculateAngle(p1, p2, p3)]: the angle at [p2], in degrees. *)
Definition calculateAngle (p1 p2 p3 : PoseLandmark) : float :=
  let v1x := x p1 - x p2 in
  let v1y := y p1 - y p2 in
  let v2x := x p3 - x p2 in
  let v2y := y p3 - y p2 in
  let dot := v1x * v2x + v1y * v2y in
  let mag1 := Math_sqrt (v1x * v1x + v1y * v1y) in
  let mag2 := Math_sqrt (v2x * v2x + v2y * v2y) in
  let cos := dot / (mag1 * mag2) in
  Math_acos M (Math_max [-1; Math_min [1; cos]]) * (180 / PI).

Definition calculateDistance (p1 p2 : PoseLandmark) : float :=
  Math_sqrt (Math_pow M (x p1 - x p2) 2 + Math_pow M (y p1 - y p2) 2).

(** [calculateAngle(landmarks[i], landmarks[j], landmarks[k])]. *)
Definition angleAt (landmarks : list PoseLandmark) (i j k : nat)
  : option float :=
  let* p1 := at_index landmarks i in
  let* p2 := at_index landmarks j in
  let* p3 := at_index landmarks k in
  Some (calculateAngle p1 p2 p3).

Definition calculateHipAngle (landmarks : list PoseLandmark) :=
  angleAt landmarks 11 23 25.
Definition calculateKneeAngle (landmarks : list PoseLandmark) :=
  angleAt landmarks 23 25 27.
Definition calculateAnkleAngle (landmarks : list PoseLandmark) :=
  angleAt landmarks 25 27 31.
Definition calculateShoulderAngle (landmarks : list PoseLandmark) :=
  angleAt landmarks 13 11 23.
Definition calculateElbowAngle (landmarks : list PoseLandmark) :=
  angleAt landmarks 11 13 15.
Definition calculateWristAngle (landmarks : list PoseLandmark) :=
  angleAt landmarks 13 15 19.
Definition calculateSpinalAngle (landmarks : list PoseLandmark) :=
  angleAt landmarks 11 23 25.

(** [analyzeKneeAlignment(landmarks).valgus]. *)
Definition analyzeKneeAlignment (landmarks : list PoseLandmark)
  : option float :=
  let* leftKnee := at_index landmarks 25 in
  let* rightKnee := at_index landmarks 26 in
  let* leftAnkle := at_index landmarks 27 in
  let* rightAnkle := at_index landmarks 28 in
  let leftValgus := Math_abs (x leftKnee - x leftAnkle) * 100 in
  let rightValgus := Math_abs (x rightKnee - x rightAnkle) * 100 in
  Some (Math_max [leftValgus; rightValgus]).

Definition calculateBackAngle (landmarks : list PoseLandmark)
  : option float :=
  let* shoulder := at_index landmarks 11 in
  let* hip := at_index landmarks 23 in
  let angle :=
    Math_atan2 M (y shoulder - y hip) (x shoulder - x hip) * (180 / PI) in
  Some (Math_abs angle).

Definition calculateSquatDepth (landmarks : list PoseLandmark)
  : option float :=
  let* hip := at_index landmarks 23 in
  let* knee := at_index landmarks 25 in
  let depth := Math_abs (y hip - y knee) * 100 in
  Some (Math_min [100; depth]).

Definition calculateBilateralSymmetry (landmarks : list PoseLandmark)
  : option float :=
  let leftSide := map (at_index landmarks) [11; 13; 15; 23; 25; 27]%nat in
  let rightSide := map (at_index landmarks) [12; 14; 16; 24; 26; 28]%nat in
  let* symmetryScore :=
    reduce
      (fun symmetryScore pair =>
         let* left := fst pair in
         let leftY := y left in
         let* right := snd pair in
         let rightY := y right in
         let diff := Math_abs (leftY - rightY) in
         Some (symmetryScore + Math_max [0; 1 - diff * 10]))
      0 (combine leftSide rightSide) in
  Some (symmetryScore / of_nat (length leftSide)).

(** [calculateStability]: variance of every landmark over the last five
    frames of the history. *)
Definition calculateStability (self : ExerciseAnalyzer)
  (landmarks : list PoseLandmark) : option float :=
  if (length (frameHistory self) <? 5)%nat then Some 0.5
  else
    let recentFrames := slice_last 5 (frameHistory self) in
    let* totalVariance :=
      reduce
        (fun totalVariance i =>
           let positions := map (fun frame => at_index frame i) recentFrames in
           let count := of_nat (length positions) in
           let* sumX :=
             reduce (fun sum p => let* p := p in Some (sum + x p)) 0 positions in
           let avgX := sumX / count in
           let* sumY :=
             reduce (fun sum p => let* p := p in Some (sum + y p)) 0 positions in
           let avgY := sumY / count in
           let* sq :=
             reduce
               (fun sum p =>
                  let* p := p in
                  Some (sum + Math_pow M (x p - avgX) 2
                            + Math_pow M (y p - avgY) 2))
               0 positions in
           let variance := sq / count in
           Some (totalVariance + variance))
        0 (seq 0 (length landmarks)) in
    Some (Math_max [0; 1 - totalVariance * 100]).

(** The body shared by [detectSquatPhase] (index 23), [detectPushupPhase]
    (index 11) and [detectLungePhase] (index 23); the three methods of the
    source differ in the index only. *)
Definition detectPhaseAt (tracked : nat) (self : ExerciseAnalyzer)
  (landmarks : list PoseLandmark) : option string :=
  let* current := at_index landmarks tracked in
  let height := y current in
  if (length (frameHistory self) <? 3)%nat then Some "starting"
  else
    let* recentHeights :=
      mapM (fun frame => let* p := at_index frame tracked in Some (y p))
           (slice_last 3 (frameHistory self)) in
    let trend := num_at recentHeights 2 - num_at recentHeights 0 in
    if trend >? 0.01 then Some "descending"
    else if trend <? -0.01 then Some "ascending"
    else Some "bottom".

Definition detectSquatPhase := detectPhaseAt 23.
Definition detectPushupPhase := detectPhaseAt 11.
Definition detectLungePhase := detectPhaseAt 23.

(** [analyzePushupAlignment(landmarks).hipSag]. *)
Definition analyzePushupAlignment (landmarks : list PoseLandmark)
  : option float :=
  let* shoulder := at_index landmarks 11 in
  let* hip := at_index landmarks 23 in
  let* ankle := at_index landmarks 27 in
  let expectedHipY := y shoulder + (y ankle - y shoulder) * 0.6 in
  let hipSag := Math_abs (y hip - expectedHipY) * 100 in
  Some hipSag.

Definition calculatePushupROM (self : ExerciseAnalyzer)
  (landmarks : list PoseLandmark) : option float :=
  if (length (frameHistory self) <? 10)%nat then Some 50
  else
    let* shoulderHeights :=
      mapM (fun frame => let* p := at_index frame 11 in Some (y p))
           (frameHistory self) in
    let maxHeight := Math_max shoulderHeights in
    let minHeight := Math_min shoulderHeights in
    Some ((maxHeight - minHeight) * 100).

(** [analyzePlankAlignment(landmarks).deviation]. *)
Definition analyzePlankAlignment (landmarks : list PoseLandmark)
  : option float :=
  let* shoulder := at_index landmarks 11 in
  let* hip := at_index landmarks 23 in
  let* ankle := at_index landmarks 27 in
  let expectedHipY := y shoulder + (y ankle - y shoulder) * 0.6 in
  let deviation := Math_abs (y hip - expectedHipY) * 100 in
  Some deviation.

(** [calculateHipPosition(landmarks).height]. *)
Definition calculateHipPosition (landmarks : list PoseLandmark)
  : option float :=
  let* hip := at_index landmarks 23 in
  Some (y hip).

(** [analyzeFrontKneeAlignment(landmarks).overAnkle]. *)
Definition analyzeFrontKneeAlignment (landmarks : list PoseLandmark)
  : option float :=
  let* knee := at_index landmarks 25 in
  let* ankle := at_index landmarks 27 in
  let overAnkle := Math_abs (x knee - x ankle) * 100 in
  Some overAnkle.

Definition calculateTorsoLean (landmarks : list PoseLandmark)
  : option float :=
  let* shoulder := at_index landmarks 11 in
  let* hip := at_index landmarks 23 in
  let angle :=
    Math_atan2 M (x shoulder - x hip) (y shoulder - y hip) * (180 / PI) in
  Some (Math_abs angle).

Definition calculateCoreStability := calculateStability.
Definition calculatePlankStability := calculateStability.
Definition calculateSingleLegStability := calculateStability.
Definition calculateLateralSymmetry := calculateBilateralSymmetry.
Definition calculateFrontHipAngle := calculateHipAngle.
Definition calculateFrontKneeAngle := calculateKneeAngle.
Definition calculateBackHipAngle := calculateHipAngle.
Definition calculateLungeDepth := calculateSquatDepth.

Definition calculateSquatBiomechanics (self : ExerciseAnalyzer)
  (landmarks : list PoseLandmark) : option BiomechanicalAnalysis :=
  let* hip := calculateHipAngle landmarks in
  let* knee := calculateKneeAngle landmarks in
  let* ankle := calculateAnkleAngle landmarks in
  let* symmetry := calculateBilateralSymmetry landmarks in
  let* stability := calculateStability self landmarks in
  let* depth := calculateSquatDepth landmarks in
  Some {| jointAngles := [("hip", hip); ("knee", knee); ("ankle", ankle)];
          symmetry := symmetry;
          stability := stability;
          range := depth / 100;
          timing := calculateMovementTiming |}.

Definition calculatePushupBiomechanics (self : ExerciseAnalyzer)
  (landmarks : list PoseLandmark) : option BiomechanicalAnalysis :=
  let* shoulder := calculateShoulderAngle landmarks in
  let* elbow := calculateElbowAngle landmarks in
  let* wrist := calculateWristAngle landmarks in
  let* symmetry := calculateBilateralSymmetry landmarks in
  let* stability := calculateCoreStability self landmarks in
  let* rom := calculatePushupROM self landmarks in
  Some {| jointAngles :=
            [("shoulder", shoulder); ("elbow", elbow); ("wrist", wrist)];
          symmetry := symmetry;
          stability := stability;
          range := rom / 100;
          timing := calculateMovementTiming |}.

Definition calculatePlankBiomechanics (self : ExerciseAnalyzer)
  (landmarks : list PoseLandmark) : option BiomechanicalAnalysis :=
  let* shoulder := calculateShoulderAngle landmarks in
  let* hip := calculateHipAngle landmarks in
  let* spine := calculateSpinalAngle landmarks in
  let* symmetry := calculateBilateralSymmetry landmarks in
  let* stability := calculatePlankStability self landmarks in
  Some {| jointAngles := [("shoulder", shoulder); ("hip", hip); ("spine", spine)];
          symmetry := symmetry;
          stability := stability;
          range := 1.0;
          timing := calculateHoldTime |}.

Definition calculateLungeBiomechanics (self : ExerciseAnalyzer)
  (landmarks : list PoseLandmark) : option BiomechanicalAnalysis :=
  let* frontHip := calculateFrontHipAngle landmarks in
  let* frontKnee := calculateFrontKneeAngle landmarks in
  let* backHip := calculateBackHipAngle landmarks in
  let* symmetry := calculateLateralSymmetry landmarks in
  let* stability := calculateSingleLegStability self landmarks in
  let* depth := calculateLungeDepth landmarks in
  Some {| jointAngles :=
            [("frontHip", frontHip); ("frontKnee", frontKnee);
             ("backHip", backHip)];
          symmetry := symmetry;
          stability := stability;
          range := depth / 100;
          timing := calculateMovementTiming |}.

(** The object literal every routine returns. *)
Definition assessment (f : findings) (phase : string)
  (biomechanics : BiomechanicalAnalysis) : FormAssessment :=
  let '(criticalErrors, minorIssues, strengths) := f in
  {| score := calculateFormScore criticalErrors minorIssues strengths;
     criticalErrors := criticalErrors;
     minorIssues := minorIssues;
     strengths := strengths;
     phase := phase;
     biomechanics := biomechanics |}.

(** The findings of [analyzeSquat], from its four measures. *)
Definition squatFindings (valgus backAngle depth symmetry : float)
  : findings :=
  let f : findings := ([], [], []) in
  let f :=
    if valgus >? 15 then pushCritical f "Knees caving inward - risk of injury"
    else if valgus >? 8 then
      pushMinor f "Slight knee valgus - focus on external rotation"
    else pushStrength f "Good knee alignment" in
  let f :=
    if backAngle >? 45 then
      pushCritical f "Excessive forward lean - maintain upright torso"
    else if backAngle >? 30 then
      pushMinor f "Slight forward lean - engage core more"
    else pushStrength f "Good torso position" in
  let f :=
    if depth <? 70 then
      pushMinor f "Increase squat depth for full range of motion"
    else pushStrength f "Good squat depth" in
  if symmetry <? 0.85 then
    pushMinor f "Slight asymmetry detected - check balance"
  else pushStrength f "Good bilateral symmetry".

Definition analyzeSquat (self : ExerciseAnalyzer)
  (landmarks : list PoseLandmark) : option FormAssessment :=
  let* biomechanics := calculateSquatBiomechanics self landmarks in
  let* phase := detectSquatPhase self landmarks in
  let* valgus := analyzeKneeAlignment landmarks in
  let* backAngle := calculateBackAngle landmarks in
  let* depth := calculateSquatDepth landmarks in
  Some (assessment
          (squatFindings valgus backAngle depth (symmetry biomechanics))
          phase biomechanics).

(** The findings of [analyzePushup]. *)
Definition pushupFindings (hipSag elbowAngle rom : float) : findings :=
  let f : findings := ([], [], []) in
  let f :=
    if hipSag >? 20 then pushCritical f "Hips sagging - engage core muscles"
    else if hipSag >? 10 then pushMinor f "Slight hip sag - tighten core"
    else pushStrength f "Good plank position" in
  let f :=
    if elbowAngle >? 90 then
      pushMinor f "Elbows flaring too wide - aim for 45 degrees"
    else pushStrength f "Good elbow position" in
  if rom <? 60 then
    pushMinor f "Increase range of motion - lower chest closer to ground"
  else pushStrength f "Good range of motion".

Definition analyzePushup (self : ExerciseAnalyzer)
  (landmarks : list PoseLandmark) : option FormAssessment :=
  let* biomechanics := calculatePushupBiomechanics self landmarks in
  let* phase := detectPushupPhase self landmarks in
  let* hipSag := analyzePushupAlignment landmarks in
  let* elbowAngle := calculateElbowAngle landmarks in
  let* rom := calculatePushupROM self landmarks in
  Some (assessment (pushupFindings hipSag elbowAngle rom) phase biomechanics).

(** The findings of [analyzePlank]. *)
Definition plankFindings (deviation height stability : float) : findings :=
  let f : findings := ([], [], []) in
  let f :=
    if deviation >? 25 then pushCritical f "Significant spinal misalignment"
    else if deviation >? 15 then
      pushMinor f "Minor spinal deviation - adjust position"
    else pushStrength f "Excellent spinal alignment" in
  let f :=
    if height <? 0.3 then pushCritical f "Hips too low - lift to neutral"
    else if height >? 0.7 then
      pushCritical f "Hips too high - lower to neutral"
    else pushStrength f "Good hip position" in
  if stability <? 0.7 then
    pushMinor f "Work on stability - reduce trembling"
  else pushStrength f "Good stability".

Definition analyzePlank (self : ExerciseAnalyzer)
  (landmarks : list PoseLandmark) : option FormAssessment :=
  let* biomechanics := calculatePlankBiomechanics self landmarks in
  let phase := "hold" in
  let* deviation := analyzePlankAlignment landmarks in
  let* height := calculateHipPosition landmarks in
  Some (assessment
          (plankFindings deviation height (stability biomechanics))
          phase biomechanics).

(** The findings of [analyzeLunge]. *)
Definition lungeFindings (overAnkle torsoLean stability : float)
  : findings :=
  let f : findings := ([], [], []) in
  let f :=
    if overAnkle >? 20 then
      pushCritical f "Front knee too far forward - shift weight back"
    else if overAnkle >? 10 then
      pushMinor f "Front knee slightly forward - adjust stance"
    else pushStrength f "Good front knee position" in
  let f :=
    if torsoLean >? 20 then
      pushMinor f "Excessive forward lean - keep torso upright"
    else pushStrength f "Good torso position" in
  if stability <? 0.6 then pushMinor f "Work on balance - engage core"
  else pushStrength f "Good balance".

Definition analyzeLunge (self : ExerciseAnalyzer)
  (landmarks : list PoseLandmark) : option FormAssessment :=
  let* biomechanics := calculateLungeBiomechanics self landmarks in
  let* phase := detectLungePhase self landmarks in
  let* overAnkle := analyzeFrontKneeAlignment landmarks in
  let* torsoLean := calculateTorsoLean landmarks in
  Some (assessment
          (lungeFindings overAnkle torsoLean (stability biomechanics))
          phase biomechanics).

(** [this.frameHistory.push(landmarks)], then [shift()] when the length
    exceeds [maxHistoryFrames]. *)
Definition addToHistory (self : ExerciseAnalyzer)
  (landmarks : list PoseLandmark) : ExerciseAnalyzer :=
  let pushed := frameHistory self ++ [landmarks] in
  {| frameHistory :=
       if (maxHistoryFrames <? length pushed)%nat then tl pushed else pushed;
     phaseHistory := phaseHistory self |}.

(** [analyzeExercise(landmarks, exercise)]: the analyzer after the call
    and what the call returned ([None]: it raised). *)
Definition analyzeExercise (self : ExerciseAnalyzer)
  (landmarks : list PoseLandmark) (exercise : string)
  : ExerciseAnalyzer * option FormAssessment :=
  let self := addToHistory self landmarks in
  (self,
   if (exercise =? "squat")%string then analyzeSquat self landmarks
   else if (exercise =? "pushup")%string then analyzePushup self landmarks
   else if (exercise =? "plank")%string then analyzePlank self landmarks
   else if (exercise =? "lunge")%string then analyzeLunge self landmarks
   else Some getDefaultAssessment).

(** A session: the calls made one after the other on one analyzer, with
    what each returned. *)
Fixpoint session (self : ExerciseAnalyzer)
  (calls : list (list PoseLandmark * string))
  : ExerciseAnalyzer * list (option FormAssessment) :=
  match calls with
  | [] => (self, [])
  | (landmarks, exercise) :: rest =>
      let '(self, result) := analyzeExercise self landmarks exercise in
      let '(self, results) := session self rest in
      (self, result :: results)
  end.

End Methods.

(* ================================================================== *)
(** * A sample implementation record and sample frames                  *)
(* ================================================================== *)

Module Sample.
#[local] Open Scope float_scope.

(** Arc cosine by the four-term square-root polynomial of Abramowitz and
    Stegun 4.4.45 (absolute error below 1e-4). *)
Definition acos01 (v : float) : float :=
  sqrt (1 - v)
  * (1.5707288 + v * (-0.2121144 + v * (0.0742610 + v * -0.0187293))).

Definition acos (v : float) : float :=
  if v <? 0 then PI - acos01 (- v) else acos01 v.

(** Arc tangent by the quadratic correction of the chord (absolute error
    below 4e-3), folded to the four quadrants. *)
Definition atan01 (t : float) : float :=
  (PI / 4) * t + 0.273 * t * (1 - abs t).

Definition atan (t : float) : float :=
  if abs t <=? 1 then atan01 t
  else if 0 <? t then PI / 2 - atan01 (1 / t)
  else - (PI / 2) - atan01 (1 / t).

Definition atan2 (ny nx : float) : float :=
  if 0 <? nx then atan (ny / nx)
  else if 0 <? ny then atan (ny / nx) + PI
  else atan (ny / nx) - PI.

Definition pow (base exponent : float) : float :=
  if exponent =? 2 then base * base else nan.

Definition math : MathImpl :=
  {| acos_approx := acos; atan2_approx := atan2; pow_approx := pow |}.

(** A 33-landmark frame from a function of the landmark index. *)
Definition frameOf (f : nat -> PoseLandmark) : list PoseLandmark :=
  map f (seq 0 33).

Definition point (px py : float) : PoseLandmark :=
  {| x := px; y := py; z := 0; visibility := 1 |}.

(** A squat frame with a level torso along the x axis, hips 0.8 above
    the knees, left and right sides level with each other, and the knees
    [offset] to the side of the ankles. *)
Definition squatFrame (offset : float) : list PoseLandmark :=
  frameOf (fun i =>
    match i with
    | 11 | 12 => point 0.9 0.1
    | 23 | 24 => point 0.1 0.1
    | 25 | 26 => point (0.3 + offset) 0.9
    | 27 | 28 => point 0.3 0.95
    | _ => point 0.5 0.5
    end%nat).

(** A plank frame: shoulders and ankles at height 0.1, hips at [hipY]. *)
Definition plankFrame (hipY : float) : list PoseLandmark :=
  frameOf (fun i =>
    match i with
    | 11 | 12 => point 0.2 0.1
    | 23 | 24 => point 0.5 hipY
    | 27 | 28 => point 0.8 0.1
    | _ => point 0.5 0.5
    end%nat).

(** A frame whose landmarks all coincide. *)
Definition collapsedFrame : list PoseLandmark :=
  frameOf (fun _ => point 0.5 0.5).
(** A squat frame with the shoulders straight above the hips. *)
Definition uprightFrame : list PoseLandmark :=
  frameOf (fun i =>
    match i with
    | 11 | 12 => point 0.5 0.3
    | 23 | 24 => point 0.5 0.6
    | 25 | 26 => point 0.5 0.8
    | 27 | 28 => point 0.5 0.95
    | _ => point 0.5 0.5
    end%nat).
End Sample.

(* ================================================================== *)
(** * The vocabulary of the specification                               *)
(* ================================================================== *)

(** A well-formed frame: the 33 landmarks of the pose model. *)
Definition well_formed (landmarks : list PoseLandmark) : Prop :=
  length landmarks = 33%nat.

(** Every frame the analyzer has kept was well formed. *)
Definition history_well_formed (self : ExerciseAnalyzer) : Prop :=
  Forall well_formed (frameHistory self).

(** The call returned (it did not raise). *)
Definition returned (result : option FormAssessment) : Prop :=
  exists assessment, result = Some assessment.

(** The four exercise identifiers with a routine of their own. *)
Definition supported (exercise : string) : bool :=
  ((exercise =? "squat") || (exercise =? "pushup")
   || (exercise =? "plank") || (exercise =? "lunge"))%string.

(** [clamp(v, lo, hi)]. *)
Definition clamp (v lo hi : Z) : Z :=
  if (v <? lo)%Z then lo else if (hi <? v)%Z then hi else v.

(** The scoring policy as the specification words it, on the three counts. *)
Definition scoringPolicy (critical minor strong : nat) : Z :=
  clamp (100 - 25 * Z.of_nat critical - 10 * Z.of_nat minor
         + 5 * Z.of_nat strong) 0 100.

(** The score before clamping. *)
Definition rawScore (critical minor strong : nat) : Z :=
  100 - 25 * Z.of_nat critical - 10 * Z.of_nat minor + 5 * Z.of_nat strong.

(** The [n] most recently appended of [frames], in append order. *)
Definition mostRecent {A : Type} (n : nat) (frames : list A) : list A :=
  rev (firstn n (rev frames)).

(** The landmark whose height the phase detector tracks: the shoulder (11)
    for the push-up, the hip (23) for the squat and the lunge. *)
Definition trackedLandmark (exercise : string) : nat :=
  if (exercise =? "pushup")%string then 11 else 23.

(** The phase of a trend, as the specification words it. *)
Definition phaseOfTrend (trend : float) : string :=
  if (trend >? 0.01)%float then "descending"
  else if (trend <? -0.01)%float then "ascending"
  else "bottom".

(** The phase the specification prescribes for a history (the current frame
    already appended): "starting" under three frames, else the phase of
    the tracked height in the newest frame minus that in the third newest. *)
Definition specifiedPhase (tracked : nat)
  (history : list (list PoseLandmark)) : option string :=
  match rev history with
  | newest :: _ :: oldest :: _ =>
      let* latest := at_index newest tracked in
      let* earliest := at_index oldest tracked in
      Some (phaseOfTrend (y latest - y earliest)%float)
  | _ => Some "starting"
  end.

(** The knee-valgus measure as the specification words it: the larger of the
    two knee-to-ankle offsets, times 100. *)
Definition specifiedValgus (leftKnee rightKnee leftAnkle rightAnkle : PoseLandmark)
  : float :=
  (Math_max [Math_abs (x leftKnee - x leftAnkle);
             Math_abs (x rightKnee - x rightAnkle)] * 100)%float.

(** The plank deviation as the specification words it: the distance of the
    hip height from [shoulder.y + 0.6 * (ankle.y - shoulder.y)], times 100. *)
Definition specifiedDeviation (shoulder hip ankle : PoseLandmark) : float :=
  (Math_abs (y hip - (y shoulder + 0.6 * (y ankle - y shoulder))) * 100)%float.

(** What a routine returns is the object literal built from its findings. *)
Definition built_from_findings (r : FormAssessment) : Prop :=
  exists f phase biomechanics, r = assessment f phase biomechanics.

(** Two frames that differ at most in the x coordinates of the knees and
    the ankles (landmarks 25 to 28). *)
Definition same_but_knee_ankle_x (a b : list PoseLandmark) : Prop :=
  forall i pa pb,
    at_index a i = Some pa -> at_index b i = Some pb ->
    y pa = y pb /\ z pa = z pb /\ visibility pa = visibility pb
    /\ ((i < 25 \/ 28 < i)%nat -> x pa = x pb).

(* ================================================================== *)
(** * The callers of the analyzer (components/pose-analyzer.tsx)        *)
(* ================================================================== *)

Module PoseAnalyzer.

(** [interface AnalysisResult] (components/pt-analysis-app.tsx). *)
Record AnalysisResult : Type := {
  landmarks : list PoseLandmark;
  isGoodForm : bool;
  suggestions : list string;
  warnings : list string
}.

(** The object literal both detection loops build from an assessment:
    good form from score 70, the minor issues and the first strength as
    suggestions, the critical errors as warnings. *)
Definition analysisResultOf (frame : list PoseLandmark)
  (formAssessment : FormAssessment) : AnalysisResult :=
  {| landmarks := frame;
     isGoodForm := (70 <=? score formAssessment)%Z;
     suggestions :=
       minorIssues formAssessment ++ firstn 1 (strengths formAssessment);
     warnings := criticalErrors formAssessment |}.

(** One pass of [detectPose] on a detected frame: the analyzer call and the
    result handed to [onAnalysisUpdate]; [None] when the call raised and
    the [catch] only logged it. *)
Definition detectPose (M : MathImpl) (analyzer : ExerciseAnalyzer)
  (frame : list PoseLandmark) (exercise : string)
  : ExerciseAnalyzer * option AnalysisResult :=
  let '(analyzer, formAssessment) := analyzeExercise M analyzer frame exercise in
  (analyzer, option_map (analysisResultOf frame) formAssessment).

(** The colour [drawEnhancedPoseLandmarks] draws with: red under 50, yellow
    under 70, green otherwise. *)
Definition drawColor (formAssessment : FormAssessment) : string :=
  let color := "#22c55e" in
  if (score formAssessment <? 50)%Z then "#ef4444"
  else if (score formAssessment <? 70)%Z then "#f59e0b"
  else color.

(** What the mock generator takes from the host: [Math.sin], [Math.cos]
    (implementation-approximated) and the values [Math.random()] yields, in
    the order of the calls of one frame. *)
Record MockHost : Type := {
  Math_sin : float -> float;
  Math_cos : float -> float;
  Math_random : nat -> float
}.

(** [landmarks[i].y = v]; [None] is the [TypeError] of writing a property
    of [undefined]. *)
Fixpoint set_y (frame : list PoseLandmark) (i : nat) (v : float)
  : option (list PoseLandmark) :=
  match frame, i with
  | [], _ => None
  | p :: rest, O =>
      Some ({| x := x p; y := v; z := z p; visibility := visibility p |}
            :: rest)
  | p :: rest, S i =>
      match set_y rest i v with
      | Some rest => Some (p :: rest)
      | None => None
      end
  end.

(** [generateRealisticMockLandmarks(exercise, frameCount)]. *)
Definition generateRealisticMockLandmarks (H : MockHost)
  (exercise : string) (frameCount : nat) : option (list PoseLandmark) :=
  let baseTime := (of_nat frameCount * 0.1)%float in
  let frame :=
    map (fun i =>
           {| x := (0.5 + Math_sin H (baseTime + of_nat i) * 0.1)%float;
              y := (0.5 + Math_cos H (baseTime + of_nat i) * 0.1)%float;
              z := (Math_random H (2 * i) * 0.1)%float;
              visibility := (0.8 + Math_random H (2 * i + 1) * 0.2)%float |})
        (seq 0 33) in
  if (exercise =? "squat")%string then
    let squatPhase := (Math_sin H (baseTime * 0.5) * 0.2)%float in
    let* frame := set_y frame 23 (0.6 + squatPhase)%float in
    let* frame := set_y frame 25 (0.7 + squatPhase * 1.5)%float in
    set_y frame 27 (0.9 + squatPhase * 0.5)%float
  else if (exercise =? "pushup")%string then
    let pushupPhase := (Math_sin H (baseTime * 0.3) * 0.1)%float in
    let* frame := set_y frame 11 (0.4 + pushupPhase)%float in
    let* frame := set_y frame 13 (0.5 + pushupPhase * 1.2)%float in
    set_y frame 15 (0.6 + pushupPhase * 0.8)%float
  else if (exercise =? "plank")%string then
    let tremor := (Math_sin H (baseTime * 2) * 0.02)%float in
    let* frame := set_y frame 11 (0.4 + tremor)%float in
    set_y frame 23 (0.5 + tremor * 0.5)%float
  else if (exercise =? "lunge")%string then
    let lungePhase := (Math_sin H (baseTime * 0.4) * 0.15)%float in
    let* frame := set_y frame 23 (0.5 + lungePhase)%float in
    set_y frame 25 (0.7 + lungePhase * 1.3)%float
  else Some frame.

(** One pass of [mockDetection]: the frame counter is incremented, a mock
    frame is generated and analyzed, and the result handed on.  Nothing
    catches here: [None] is a raised call. *)
Definition mockDetection (M : MathImpl) (H : MockHost)
  (analyzer : ExerciseAnalyzer) (exercise : string) (frameCount : nat)
  : ExerciseAnalyzer * nat * option AnalysisResult :=
  let frameCount := S frameCount in
  match generateRealisticMockLandmarks H exercise frameCount with
  | None => (analyzer, frameCount, None)
  | Some mockLandmarks =>
      let '(analyzer, formAssessment) :=
        analyzeExercise M analyzer mockLandmarks exercise in
      (analyzer, frameCount,
       option_map (analysisResultOf mockLandmarks) formAssessment)
  end.

(** The mock loop: [passes] passes one after the other, each with the host
    values of its own frame; a pass that raises schedules no further one. *)
Fixpoint mockLoop (M : MathImpl) (hosts : nat -> MockHost)
  (analyzer : ExerciseAnalyzer) (exercise : string) (frameCount : nat)
  (passes : nat) : list (option AnalysisResult) :=
  match passes with
  | O => []
  | S passes =>
      let '(analyzer, frameCount', result) :=
        mockDetection M (hosts frameCount) analyzer exercise frameCount in
      match result with
      | Some _ => result :: mockLoop M hosts analyzer exercise frameCount' passes
      | None => [result]
      end
  end.

End PoseAnalyzer.

(* ================================================================== *)
(** * A sample host for the mock generator                              *)
(* ================================================================== *)

Module SampleHost.
#[local] Open Scope float_scope.

(** Sine and cosine by their Taylor polynomials of degree 5 and 4 (accurate
    near 0 only). *)
Definition sin (v : float) : float :=
  v - v * v * v / 6 + v * v * v * v * v / 120.

Definition cos (v : float) : float :=
  1 - v * v / 2 + v * v * v * v / 24.

(** A fixed cycle of values in [0, 1). *)
Definition random (k : nat) : float :=
  of_nat (k mod 10) / 10.

Definition host : PoseAnalyzer.MockHost :=
  {| PoseAnalyzer.Math_sin := sin;
     PoseAnalyzer.Math_cos := cos;
     PoseAnalyzer.Math_random := random |}.

End SampleHost.

(* ================================================================== *)
(** * The session store ([usePTSessionStore])                           *)
(* ================================================================== *)

Module Store.

(** [Math.round], ECMA-262 21.3.2.28: the closest integral number, a tie
    going toward +Infinity; -0 for values in [-0.5, -0].  Computed on the
    mantissa and exponent of the argument. *)
Definition Math_round (v : float) : float :=
  match Prim2SF v with
  | S754_finite s m e =>
      if (0 <=? e)%Z then v
      else
        let k := (- e)%Z in
        let q := Z.shiftr (Z.pos m) k in
        let r := (Z.pos m - Z.shiftl q k)%Z in
        let half := Z.shiftl 1 (k - 1) in
        let n := if s then (if (half <? r)%Z then (q + 1)%Z else q)
                 else (if (half <=? r)%Z then (q + 1)%Z else q) in
        if (n =? 0)%Z then (if s then neg_zero else zero)
        else
          let a := of_uint63 (Uint63.of_Z n) in
          if s then (- a)%float else a
  | _ => v
  end.

Variant coachingType : Type := form | motivation | safety.
Variant difficulty : Type := beginner | intermediate | advanced.

Record FormEntry : Type := {
  entryTimestamp : Z;
  entryScore : float;
  entryPhase : string;
  entryIssues : list string
}.

Record CoachingEntry : Type := {
  coachingTimestamp : Z;
  coachingSuggestion : string;
  coachingKind : coachingType
}.

Record Preferences : Type := {
  showOverlay : bool;
  aiCoachingEnabled : bool;
  voiceFeedback : bool;
  difficultyLevel : difficulty
}.

(** [Partial<PTSessionState["preferences"]>]. *)
Record PartialPreferences : Type := {
  showOverlay' : option bool;
  aiCoachingEnabled' : option bool;
  voiceFeedback' : option bool;
  difficultyLevel' : option difficulty
}.

(** [interface PTSessionState]. *)
Record PTSessionState : Type := {
  sessionId : string;
  startTime : option Z;
  duration : Z;
  isActive : bool;
  currentExercise : string;
  exerciseCount : nat;
  totalReps : nat;
  currentFormScore : float;
  averageFormScore : float;
  formHistory : list FormEntry;
  aiSuggestions : list string;
  coachingHistory : list CoachingEntry;
  preferences : Preferences
}.

Definition initialState : PTSessionState :=
  {| sessionId := "";
     startTime := None;
     duration := 0;
     isActive := false;
     currentExercise := "squat";
     exerciseCount := 0;
     totalReps := 0;
     currentFormScore := 0;
     averageFormScore := 0;
     formHistory := [];
     aiSuggestions := [];
     coachingHistory := [];
     preferences :=
       {| showOverlay := true;
          aiCoachingEnabled := true;
          voiceFeedback := false;
          difficultyLevel := intermediate |} |}.

(** [startSession(exercise)]; [Date.now()] is read twice, for the
    identifier and for the start time. *)
Definition startSession (state : PTSessionState) (exercise : string)
  (now now' : Z) : PTSessionState :=
  let sessionId :=
    ("session_" ++ DecimalString.NilZero.string_of_int (Z.to_int now))%string in
  {| sessionId := sessionId;
     startTime := Some now';
     duration := duration state;
     isActive := true;
     currentExercise := exercise;
     exerciseCount := 1;
     totalReps := totalReps state;
     currentFormScore := currentFormScore state;
     averageFormScore := averageFormScore state;
     formHistory := [];
     aiSuggestions := aiSuggestions state;
     coachingHistory := [];
     preferences := preferences state |}.

Definition endSession (state : PTSessionState) : PTSessionState :=
  {| sessionId := sessionId state;
     startTime := None;
     duration := 0;
     isActive := false;
     currentExercise := currentExercise state;
     exerciseCount := exerciseCount state;
     totalReps := totalReps state;
     currentFormScore := currentFormScore state;
     averageFormScore := averageFormScore state;
     formHistory := formHistory state;
     aiSuggestions := aiSuggestions state;
     coachingHistory := coachingHistory state;
     preferences := preferences state |}.

Definition with_duration (state : PTSessionState) (d : Z) : PTSessionState :=
  {| sessionId := sessionId state;
     startTime := startTime state;
     duration := d;
     isActive := isActive state;
     currentExercise := currentExercise state;
     exerciseCount := exerciseCount state;
     totalReps := totalReps state;
     currentFormScore := currentFormScore state;
     averageFormScore := averageFormScore state;
     formHistory := formHistory state;
     aiSuggestions := aiSuggestions state;
     coachingHistory := coachingHistory state;
     preferences := preferences state |}.

(** [updateDuration()]: [if (startTime)] is false for [null] and for 0. *)
Definition updateDuration (state : PTSessionState) (now : Z)
  : PTSessionState :=
  match startTime state with
  | Some startTime =>
      if (startTime =? 0)%Z then state
      else with_duration state (now - startTime)
  | None => state
  end.

Definition setCurrentExercise (state : PTSessionState) (exercise : string)
  : PTSessionState :=
  {| sessionId := sessionId state;
     startTime := startTime state;
     duration := duration state;
     isActive := isActive state;
     currentExercise := exercise;
     exerciseCount := exerciseCount state + 1;
     totalReps := totalReps state;
     currentFormScore := currentFormScore state;
     averageFormScore := averageFormScore state;
     formHistory := formHistory state;
     aiSuggestions := aiSuggestions state;
     coachingHistory := coachingHistory state;
     preferences := preferences state |}.

Definition incrementReps (state : PTSessionState) : PTSessionState :=
  {| sessionId := sessionId state;
     startTime := startTime state;
     duration := duration state;
     isActive := isActive state;
     currentExercise := currentExercise state;
     exerciseCount := exerciseCount state;
     totalReps := totalReps state + 1;
     currentFormScore := currentFormScore state;
     averageFormScore := averageFormScore state;
     formHistory := formHistory state;
     aiSuggestions := aiSuggestions state;
     coachingHistory := coachingHistory state;
     preferences := preferences state |}.

(** The average [updateFormScore] takes over the kept entries. *)
Definition averageScore (entries : list FormEntry) : float :=
  (fold_left (fun sum entry => sum + entryScore entry) entries 0
   / of_nat (length entries))%float.

(** [updateFormScore(score, phase, issues)]: the last 50 entries are kept. *)
Definition updateFormScore (state : PTSessionState) (score : float)
  (phase : string) (issues : list string) (now : Z) : PTSessionState :=
  let newFormEntry :=
    {| entryTimestamp := now; entryScore := score; entryPhase := phase;
       entryIssues := issues |} in
  let newFormHistory := slice_last 50 (formHistory state ++ [newFormEntry]) in
  let averageScore := averageScore newFormHistory in
  {| sessionId := sessionId state;
     startTime := startTime state;
     duration := duration state;
     isActive := isActive state;
     currentExercise := currentExercise state;
     exerciseCount := exerciseCount state;
     totalReps := totalReps state;
     currentFormScore := score;
     averageFormScore := Math_round averageScore;
     formHistory := newFormHistory;
     aiSuggestions := aiSuggestions state;
     coachingHistory := coachingHistory state;
     preferences := preferences state |}.

(** [addAISuggestion(suggestion, type)]: the last 5 suggestions and the
    last 100 coaching entries are kept. *)
Definition addAISuggestion (state : PTSessionState) (suggestion : string)
  (type : coachingType) (now : Z) : PTSessionState :=
  let newCoachingEntry :=
    {| coachingTimestamp := now; coachingSuggestion := suggestion;
       coachingKind := type |} in
  {| sessionId := sessionId state;
     startTime := startTime state;
     duration := duration state;
     isActive := isActive state;
     currentExercise := currentExercise state;
     exerciseCount := exerciseCount state;
     totalReps := totalReps state;
     currentFormScore := currentFormScore state;
     averageFormScore := averageFormScore state;
     formHistory := formHistory state;
     aiSuggestions := slice_last 5 (aiSuggestions state ++ [suggestion]);
     coachingHistory :=
       slice_last 100 (coachingHistory state ++ [newCoachingEntry]);
     preferences := preferences state |}.

Definition clearSuggestions (state : PTSessionState) : PTSessionState :=
  {| sessionId := sessionId state;
     startTime := startTime state;
     duration := duration state;
     isActive := isActive state;
     currentExercise := currentExercise state;
     exerciseCount := exerciseCount state;
     totalReps := totalReps state;
     currentFormScore := currentFormScore state;
     averageFormScore := averageFormScore state;
     formHistory := formHistory state;
     aiSuggestions := [];
     coachingHistory := coachingHistory state;
     preferences := preferences state |}.

(** [{ ...state.preferences, ...preferences }]. *)
Definition mergePreferences (old : Preferences) (new : PartialPreferences)
  : Preferences :=
  {| showOverlay :=
       match showOverlay' new with Some v => v | None => showOverlay old end;
     aiCoachingEnabled :=
       match aiCoachingEnabled' new with
       | Some v => v
       | None => aiCoachingEnabled old
       end;
     voiceFeedback :=
       match voiceFeedback' new with
       | Some v => v
       | None => voiceFeedback old
       end;
     difficultyLevel :=
       match difficultyLevel' new with
       | Some v => v
       | None => difficultyLevel old
       end |}.

Definition updatePreferences (state : PTSessionState)
  (new : PartialPreferences) : PTSessionState :=
  {| sessionId := sessionId state;
     startTime := startTime state;
     duration := duration state;
     isActive := isActive state;
     currentExercise := currentExercise state;
     exerciseCount := exerciseCount state;
     totalReps := totalReps state;
     currentFormScore := currentFormScore state;
     averageFormScore := averageFormScore state;
     formHistory := formHistory state;
     aiSuggestions := aiSuggestions state;
     coachingHistory := coachingHistory state;
     preferences := mergePreferences (preferences state) new |}.

Definition resetSession (state : PTSessionState) : PTSessionState :=
  initialState.

(** [handleAnalysisUpdate(result)] of the application
    (components/pt-analysis-app.tsx): the store receives 85 for good form
    and 45 otherwise, with the suggestions and the warnings as issues, and
    a repetition is counted when the form is good and [Math.random()]
    exceeds 0.8. *)
Definition handleAnalysisUpdate (state : PTSessionState)
  (result : PoseAnalyzer.AnalysisResult) (now : Z) (random : float)
  : PTSessionState :=
  let formScore := if PoseAnalyzer.isGoodForm result then 85%float else 45%float in
  let issues :=
    PoseAnalyzer.suggestions result ++ PoseAnalyzer.warnings result in
  let state := updateFormScore state formScore "analysis" issues now in
  if PoseAnalyzer.isGoodForm result && (random >? 0.8)%float
  then incrementReps state
  else state.

(** The calls a user of the store can make, with the clock and random
    values each one reads. *)
Variant call : Type :=
  | StartSession (exercise : string) (now now' : Z)
  | EndSession
  | UpdateDuration (now : Z)
  | SetCurrentExercise (exercise : string)
  | IncrementReps
  | UpdateFormScore (score : float) (phase : string) (issues : list string)
      (now : Z)
  | AddAISuggestion (suggestion : string) (type : coachingType) (now : Z)
  | ClearSuggestions
  | UpdatePreferences (new : PartialPreferences)
  | ResetSession
  | HandleAnalysisUpdate (result : PoseAnalyzer.AnalysisResult) (now : Z)
      (random : float).

Definition apply (state : PTSessionState) (c : call) : PTSessionState :=
  match c with
  | StartSession exercise now now' => startSession state exercise now now'
  | EndSession => endSession state
  | UpdateDuration now => updateDuration state now
  | SetCurrentExercise exercise => setCurrentExercise state exercise
  | IncrementReps => incrementReps state
  | UpdateFormScore score phase issues now =>
      updateFormScore state score phase issues now
  | AddAISuggestion suggestion type now =>
      addAISuggestion state suggestion type now
  | ClearSuggestions => clearSuggestions state
  | UpdatePreferences new => updatePreferences state new
  | ResetSession => resetSession state
  | HandleAnalysisUpdate result now random =>
      handleAnalysisUpdate state result now random
  end.

(** The store after a sequence of calls. *)
Definition run (state : PTSessionState) (calls : list call) : PTSessionState :=
  fold_left apply calls state.

(** The scores [handleAnalysisUpdate] passes to the store. *)
Definition quantized (entry : FormEntry) : Prop :=
  entryScore entry = 85%float \/ entryScore entry = 45%float.

(** A call that can add a form entry of an arbitrary score. *)
Definition adds_free_score (c : call) : bool :=
  match c with
  | UpdateFormScore _ _ _ _ => true
  | _ => false
  end.

(** A call that puts the store back to its initial state. *)
Definition is_reset (c : call) : bool :=
  match c with
  | ResetSession => true
  | _ => false
  end.

End Store.

(** ** Vocabulary of the further properties of the analyzer *)

(** The number of findings of an assessment, over its three lists. *)
Definition totalFindings (r : FormAssessment) : nat :=
  length (criticalErrors r) + length (minorIssues r) + length (strengths r).

(** The number of measures each routine grades: four for the squat, three
    for the other routines, and the one fixed strength of the default. *)
Definition gradedMeasures (exercise : string) : nat :=
  if (exercise =? "squat")%string then 4
  else if supported exercise then 3
  else 1.

(** The most critical errors a routine can report. *)
Definition mostCriticalErrors (exercise : string) : nat :=
  if ((exercise =? "squat") || (exercise =? "plank"))%string then 2
  else if supported exercise then 1
  else 0.

(** The lowest score a routine can return. *)
Definition lowestScore (exercise : string) : Z :=
  if (exercise =? "squat")%string then 30
  else if (exercise =? "plank")%string then 40
  else if supported exercise then 55
  else 75.

(** The fewest landmarks a frame needs for a routine to read all it reads:
    the squat reads up to index 31, the other routines up to index 28. *)
Definition landmarksRead (exercise : string) : nat :=
  if (exercise =? "squat")%string then 32 else 29.

(** The paired left and right landmarks a frame is compared on. *)
Definition bilateralPairs : list (nat * nat) :=
  [(11, 12); (13, 14); (15, 16); (23, 24); (25, 26); (27, 28)]%nat.

(** The two landmarks of a pair are finite and at the same height. *)
Definition level (landmarks : list PoseLandmark) (pair : nat * nat) : Prop :=
  exists left right,
    at_index landmarks (fst pair) = Some left
    /\ at_index landmarks (snd pair) = Some right
    /\ is_finite (y left) = true
    /\ (y left =? y right)%float = true.

(** The findings that count against an assessment, a critical error
    counting twice. *)
Definition findingsAgainst (r : FormAssessment) : nat :=
  2 * length (criticalErrors r) + length (minorIssues r).

(** A pass of a detection loop handed on a result (it did not raise). *)
Definition handedOn (result : option PoseAnalyzer.AnalysisResult) : Prop :=
  exists r, result = Some r
            /\ length (PoseAnalyzer.landmarks r) = 33%nat.

(** The form entry a call of the store appends, if it appends one. *)
Definition entryOf (c : Store.call) : option Store.FormEntry :=
  match c with
  | Store.UpdateFormScore score phase issues now =>
      Some {| Store.entryTimestamp := now; Store.entryScore := score;
              Store.entryPhase := phase; Store.entryIssues := issues |}
  | Store.HandleAnalysisUpdate result now _ =>
      Some {| Store.entryTimestamp := now;
              Store.entryScore :=
                if PoseAnalyzer.isGoodForm result then 85%float
                else 45%float;
              Store.entryPhase := "analysis";
              Store.entryIssues :=
                PoseAnalyzer.suggestions result
                ++ PoseAnalyzer.warnings result |}
  | _ => None
  end.

(** The form entries appended since a session was last started or the
    store reset, after [log]. *)
Fixpoint loggedEntries (log : list Store.FormEntry)
  (calls : list Store.call) : list Store.FormEntry :=
  match calls with
  | [] => log
  | c :: rest =>
      loggedEntries
        match c with
        | Store.StartSession _ _ _ | Store.ResetSession => []
        | _ => match entryOf c with
               | Some entry => log ++ [entry]
               | None => log
               end
        end rest
  end.

(** The suggestions added since they were last cleared or the store
    reset, after [log]. *)
Fixpoint loggedSuggestions (log : list string) (calls : list Store.call)
  : list string :=
  match calls with
  | [] => log
  | c :: rest =>
      loggedSuggestions
        match c with
        | Store.ClearSuggestions | Store.ResetSession => []
        | Store.AddAISuggestion suggestion _ _ => log ++ [suggestion]
        | _ => log
        end rest
  end.

(** The coaching entries added since a session was last started or the
    store reset, after [log]. *)
Fixpoint loggedCoaching (log : list Store.CoachingEntry)
  (calls : list Store.call) : list Store.CoachingEntry :=
  match calls with
  | [] => log
  | c :: rest =>
      loggedCoaching
        match c with
        | Store.StartSession _ _ _ | Store.ResetSession => []
        | Store.AddAISuggestion suggestion type now =>
            log ++ [{| Store.coachingTimestamp := now;
                       Store.coachingSuggestion := suggestion;
                       Store.coachingKind := type |}]
        | _ => log
        end rest
  end.

(** The average of [n] whole scores of sum [total], rounded to the nearest
    whole number, a half going up. *)
Definition roundedAverage (total n : nat) : nat :=
  ((2 * total + n) / (2 * n))%nat.

(** One of the three values the application leaves in [currentFormScore]. *)
Definition appScore (v : float) : Prop :=
  v = 0%float \/ v = 85%float \/ v = 45%float.

(** A whole number that is 0 or lies between 45 and 85. *)
Definition appAverage (v : float) : Prop :=
  exists k : nat, v = of_nat k /\ (k = 0 \/ 45 <= k <= 85)%nat.

(** The whole numbers from [lo], [len] of them. *)
Fixpoint Z_range (lo : Z) (len : nat) : list Z :=
  match len with
  | O => []
  | S len => lo :: Z_range (lo + 1) len
  end.

(** ** Vocabulary of the binary64 facts *)

(** The smallest exponent of binary64. *)
Definition emin64 : Z := SpecFloat.emin prec emax.

(** A specification-level number that is not a zero and has sign [s]:
    finite or infinite. *)
Definition signed_nonzero (s : bool) (f : spec_float) : Prop :=
  (exists m e, f = S754_finite s m e) \/ f = S754_infinity s.

(** A number that is a zero or NaN. *)
Definition zero_or_nan (f : float) : Prop :=
  is_zero f = true \/ is_nan f = true.

(* ================================================================== *)
(** * Facts about binary64 arithmetic                                   *)
(* ================================================================== *)

(** The primitive operations are specified by [Prim2SF] and the functions of
    [SpecFloat]; the facts below are read off that specification. *)

Module FloatFacts.
#[local] Open Scope Z_scope.

Lemma digits2_pos_size (p : positive) : digits2_pos p = Pos.size p.
Proof. induction p as [p IH | p IH |]; simpl; now rewrite ?IH. Qed.

Lemma digits_lower (p : positive) : 2 ^ (Z.pos (digits2_pos p) - 1) <= Z.pos p.
Proof.
  rewrite digits2_pos_size.
  pose proof (Pos.size_le p) as H.
  apply Pos2Z.pos_le_pos in H. rewrite Pos2Z.inj_pow in H.
  replace (Z.pos (Pos.size p)) with (Z.succ (Z.pos (Pos.size p) - 1)) in H by lia.
  rewrite Z.pow_succ_r in H by lia.
  change (Z.pos p~0) with (2 * Z.pos p) in H. lia.
Qed.

Lemma digits_upper (p : positive) : Z.pos p < 2 ^ Z.pos (digits2_pos p).
Proof.
  rewrite digits2_pos_size.
  pose proof (Pos.size_gt p) as H.
  apply Pos2Z.pos_lt_pos in H. now rewrite Pos2Z.inj_pow in H.
Qed.

(** Iterating a function that lowers a level by one, [p] times. *)
Lemma iter_pos_levels {A : Type} (f : A -> A) (Q : Z -> A -> Prop) :
  (forall k a, 0 <= k -> Q (k + 1) a -> Q k (f a)) ->
  forall p k a, 0 <= k -> Q (k + Z.pos p) a -> Q k (SpecFloat.iter_pos f p a).
Proof.
  intros step. induction p as [p IH | p IH |]; intros k a Hk HQ; simpl.
  - apply IH; [lia|]. apply IH; [lia|]. apply step; [lia|].
    replace (k + Z.pos p + Z.pos p + 1) with (k + Z.pos p~1) by lia. exact HQ.
  - apply IH; [lia|]. apply IH; [lia|].
    replace (k + Z.pos p + Z.pos p) with (k + Z.pos p~0) by lia. exact HQ.
  - apply step; [lia|]. exact HQ.
Qed.

Lemma iter_pos_preserves {A : Type} (f : A -> A) (Q : A -> Prop) :
  (forall a, Q a -> Q (f a)) -> forall p a, Q a -> Q (SpecFloat.iter_pos f p a).
Proof.
  intros step. induction p as [p IH | p IH |]; intros a HQ; simpl; auto.
Qed.

Lemma shr_1_level (k : Z) (r : shr_record) :
  0 <= k -> 2 ^ (k + 1) <= shr_m r -> 2 ^ k <= shr_m (shr_1 r).
Proof.
  intros Hk H. rewrite Z.pow_add_r, Z.pow_1_r in H by lia.
  assert (0 < 2 ^ k) by (apply Z.pow_pos_nonneg; lia).
  destruct r as [m b s]; simpl in *.
  destruct m as [| [p | p |] | p]; simpl; lia.
Qed.

Lemma shr_1_nonneg (r : shr_record) : 0 <= shr_m r -> 0 <= shr_m (shr_1 r).
Proof.
  destruct r as [m b s]; simpl.
  destruct m as [| [p | p |] | p]; simpl; lia.
Qed.

Lemma shr_record_of_loc_m (m : Z) (l : location) :
  shr_m (shr_record_of_loc m l) = m.
Proof. destruct l as [| []]; reflexivity. Qed.

(** Rounding to the format never turns a positive mantissa into zero when the
    exponent is at least the smallest one. *)
Lemma shr_fexp_pos (m e : Z) (l : location) :
  0 < m -> emin64 <= e ->
  0 < shr_m (fst (shr_fexp prec emax m e l))
  /\ emin64 <= snd (shr_fexp prec emax m e l).
Proof.
  intros Hm He. unfold shr_fexp, shr.
  destruct m as [| p | p]; try lia. unfold Zdigits2.
  pose proof (digits_lower p) as Hd.
  unfold fexp. fold emin64.
  set (d := Z.pos (digits2_pos p)) in *.
  destruct (Z.max (d + e - prec) emin64 - e) as [| n | n] eqn:En; simpl;
    rewrite ?shr_record_of_loc_m; try (split; lia).
  split; [| lia].
  assert (Hn : Z.pos n = d - prec) by lia.
  enough (2 ^ 52 <= shr_m (SpecFloat.iter_pos shr_1 n (shr_record_of_loc (Z.pos p) l))) by lia.
  apply (iter_pos_levels shr_1 (fun k r => 2 ^ k <= shr_m r)).
  - intros k a Hk. apply shr_1_level; exact Hk.
  - lia.
  - rewrite shr_record_of_loc_m, Hn.
    replace (52 + (d - prec)) with (d - 1) by (unfold prec; lia). exact Hd.
Qed.

Lemma shr_fexp_nonneg (m e : Z) (l : location) :
  0 <= m -> 0 <= shr_m (fst (shr_fexp prec emax m e l)).
Proof.
  intros Hm. unfold shr_fexp, shr.
  destruct (fexp prec emax (Zdigits2 m + e) - e) as [| n | n]; simpl;
    rewrite ?shr_record_of_loc_m; try lia.
  apply (iter_pos_preserves shr_1 (fun r => 0 <= shr_m r)).
  - apply shr_1_nonneg.
  - now rewrite shr_record_of_loc_m.
Qed.

Lemma round_nearest_even_ge (m : Z) (l : location) :
  m <= round_nearest_even m l.
Proof. unfold round_nearest_even. destruct l as [| []]; try destruct (Z.even m); lia. Qed.

Lemma binary_round_aux_pos (s : bool) (m e : Z) (l : location) :
  0 < m -> emin64 <= e ->
  signed_nonzero s (binary_round_aux prec emax s m e l).
Proof.
  intros Hm He. unfold binary_round_aux.
  pose proof (shr_fexp_pos m e l Hm He) as [H1 H2].
  destruct (shr_fexp prec emax m e l) as [mrs' e']; simpl in H1, H2.
  pose proof (round_nearest_even_ge (shr_m mrs') (loc_of_shr_record mrs')) as Hr.
  pose proof (shr_fexp_pos (round_nearest_even (shr_m mrs') (loc_of_shr_record mrs'))
                e' loc_Exact ltac:(lia) H2) as [H3 _].
  destruct (shr_fexp prec emax _ e' loc_Exact) as [mrs'' e'']; simpl in H3.
  destruct (shr_m mrs'') as [| q | q]; try lia.
  destruct (e'' <=? emax - prec); [left; eauto | right; reflexivity].
Qed.

Lemma binary_round_aux_not_nan (s : bool) (m e : Z) (l : location) :
  0 <= m -> binary_round_aux prec emax s m e l <> S754_nan.
Proof.
  intros Hm. unfold binary_round_aux.
  pose proof (shr_fexp_nonneg m e l Hm) as H1.
  destruct (shr_fexp prec emax m e l) as [mrs' e']; simpl in H1.
  pose proof (round_nearest_even_ge (shr_m mrs') (loc_of_shr_record mrs')) as Hr.
  pose proof (shr_fexp_nonneg (round_nearest_even (shr_m mrs') (loc_of_shr_record mrs'))
                e' loc_Exact ltac:(lia)) as H3.
  destruct (shr_fexp prec emax _ e' loc_Exact) as [mrs'' e'']; simpl in H3.
  destruct (shr_m mrs'') as [| q | q]; try lia; try discriminate.
  destruct (e'' <=? emax - prec); discriminate.
Qed.

Lemma binary_round_pos (s : bool) (m : positive) (e : Z) :
  emin64 <= e -> signed_nonzero s (binary_round prec emax s m e).
Proof.
  intros He. unfold binary_round, shl_align.
  set (e' := fexp prec emax (Z.pos (digits2_pos m) + e)).
  assert (emin64 <= e') by (unfold e', fexp; fold emin64; lia).
  destruct (e' - e) as [| d | d]; apply binary_round_aux_pos; lia.
Qed.

Ltac cmp_cases :=
  repeat match goal with
  | H : context [Pos.compare_cont Eq ?a ?b] |- _ =>
      change (Pos.compare_cont Eq a b) with (Pos.compare a b) in H
  | |- context [Pos.compare_cont Eq ?a ?b] =>
      change (Pos.compare_cont Eq a b) with (Pos.compare a b)
  end;
  repeat match goal with
  | H : context [Z.compare ?a ?b] |- _ =>
      destruct (Z.compare_spec a b); simpl in H; try discriminate H
  | H : context [Pos.compare ?a ?b] |- _ =>
      destruct (Pos.compare_spec a b); simpl in H; try discriminate H
  | |- context [Z.compare ?a ?b] =>
      destruct (Z.compare_spec a b); simpl
  | |- context [Pos.compare ?a ?b] =>
      destruct (Pos.compare_spec a b); simpl
  end;
  try reflexivity; try discriminate; try lia.

Lemma SFltb_trans (a b c : spec_float) :
  SFltb a b = true -> SFltb b c = true -> SFltb a c = true.
Proof.
  unfold SFltb.
  destruct a as [sa | sa | | sa ma ea], b as [sb | sb | | sb mb eb],
    c as [sc | sc | | sc mc ec]; simpl; try discriminate;
    try destruct sa; try destruct sb; try destruct sc; simpl;
    try discriminate; try reflexivity; intros H1 H2; cmp_cases.
Qed.

Lemma SFltb_le_trans (k r h : spec_float) :
  SFltb k r = true -> SFltb h r = false -> h <> S754_nan -> SFltb k h = true.
Proof.
  unfold SFltb.
  destruct k as [sa | sa | | sa ma ea], r as [sb | sb | | sb mb eb],
    h as [sc | sc | | sc mc ec]; simpl; try discriminate; try congruence;
    try destruct sa; try destruct sb; try destruct sc; simpl;
    try discriminate; try reflexivity; intros H1 H2 _; cmp_cases.
Qed.

Lemma iter_xO_value (d m : positive) :
  Z.pos (Pos.iter xO m d) = Z.pos m * 2 ^ Z.pos d.
Proof.
  induction d as [| d IH] using Pos.peano_ind.
  - simpl. lia.
  - rewrite Pos.iter_succ, Pos2Z.inj_succ, Z.pow_succ_r by lia.
    change (Z.pos (Pos.iter xO m d)~0) with (2 * Z.pos (Pos.iter xO m d)).
    rewrite IH. lia.
Qed.

Lemma shl_align_fst (mx : positive) (ex ez : Z) :
  ez <= ex -> Z.pos (fst (shl_align mx ex ez)) = Z.pos mx * 2 ^ (ex - ez).
Proof.
  intros H. unfold shl_align.
  destruct (ez - ex) as [| d | d] eqn:E; cbn [fst].
  - replace (ex - ez) with 0 by lia. rewrite Z.pow_0_r. lia.
  - lia.
  - rewrite iter_xO_value. f_equal. f_equal. lia.
Qed.

Lemma bounded_facts (m : positive) (e : Z) :
  bounded prec emax m e = true ->
  emin64 <= e
  /\ Z.pos m < 2 ^ 53
  /\ (emin64 < e -> 2 ^ 52 <= Z.pos m).
Proof.
  unfold bounded, canonical_mantissa, fexp. fold emin64. intros H.
  apply andb_prop in H. destruct H as [H _]. apply Z.eqb_eq in H.
  pose proof (digits_lower m) as Hl. pose proof (digits_upper m) as Hu.
  set (d := Z.pos (digits2_pos m)) in *.
  split; [lia|]. split.
  - assert (d <= 53) by (unfold prec in H; lia).
    assert (2 ^ d <= 2 ^ 53) by (apply Z.pow_le_mono_r; lia). lia.
  - intros He. assert (d = 53) by (unfold prec in H; lia).
    replace (d - 1) with 52 in Hl by lia. exact Hl.
Qed.

(** Mantissas aligned to the smaller exponent compare as the exponents do. *)
Lemma aligned_order (mx my : positive) (ex ey : Z) :
  bounded prec emax mx ex = true -> bounded prec emax my ey = true ->
  ex < ey ->
  Z.pos mx * 2 ^ (ex - Z.min ex ey) < Z.pos my * 2 ^ (ey - Z.min ex ey).
Proof.
  intros Hx Hy Hlt.
  apply bounded_facts in Hx. apply bounded_facts in Hy.
  destruct Hx as (Hx1 & Hx2 & _). destruct Hy as (_ & _ & Hy3).
  specialize (Hy3 ltac:(lia)).
  replace (Z.min ex ey) with ex by lia.
  replace (ex - ex) with 0 by lia. rewrite Z.pow_0_r.
  assert (2 ^ 1 <= 2 ^ (ey - ex)) by (apply Z.pow_le_mono_r; lia).
  rewrite Z.pow_1_r in *.
  change (2 ^ 53) with (2 ^ 52 * 2) in Hx2.
  nia.
Qed.

Lemma aligned_order_sym (mx my : positive) (ex ey : Z) :
  bounded prec emax mx ex = true -> bounded prec emax my ey = true ->
  ey < ex ->
  Z.pos my * 2 ^ (ey - Z.min ex ey) < Z.pos mx * 2 ^ (ex - Z.min ex ey).
Proof.
  intros Hx Hy Hlt. rewrite Z.min_comm. now apply aligned_order.
Qed.

Lemma SFsub_lt_negative (a b : spec_float) :
  valid_binary a = true -> valid_binary b = true ->
  SFltb a b = true -> signed_nonzero true (SF64sub a b).
Proof.
  unfold SFltb.
  destruct a as [sa | sa | | sa ma ea], b as [sb | sb | | sb mb eb];
    simpl; try discriminate; intros Va Vb H.
  all: try solve [ repeat match goal with
                          | s : bool |- _ => destruct s
                          end; simpl in *; try discriminate;
                   first [ solve [left; eauto] | right; reflexivity ] ].
  - pose proof (bounded_facts _ _ Va) as (Ha & _).
    pose proof (bounded_facts _ _ Vb) as (Hb & _).
    rewrite !shl_align_fst by lia.
    pose proof (aligned_order ma mb ea eb Va Vb) as Hlt.
    pose proof (aligned_order_sym ma mb ea eb Va Vb) as Hgt.
    set (X := Z.pos ma * 2 ^ (ea - Z.min ea eb)) in *.
    set (Y := Z.pos mb * 2 ^ (eb - Z.min ea eb)) in *.
    assert (HX : 0 < X) by (apply Z.mul_pos_pos; [lia | apply Z.pow_pos_nonneg; lia]).
    assert (HY : 0 < Y) by (apply Z.mul_pos_pos; [lia | apply Z.pow_pos_nonneg; lia]).
    assert (Heq : ea = eb -> X = Z.pos ma /\ Y = Z.pos mb).
    { intros ->. unfold X, Y. rewrite Z.min_id, Z.sub_diag. simpl. lia. }
    assert (D : cond_Zopp sa X - cond_Zopp sb Y < 0).
    { destruct sa, sb; simpl in *; try discriminate; try lia; cmp_cases.
      all: destruct (Heq ltac:(assumption)); lia. }
    unfold binary_normalize.
    destruct (cond_Zopp sa X - cond_Zopp sb Y) as [| p | p]; try lia.
    apply binary_round_pos. lia.
Qed.


Lemma SFsub_eq_zero (a b : spec_float) :
  SFeqb a b = true ->
  a <> S754_nan -> (forall s, a <> S754_infinity s) ->
  exists s, SF64sub a b = S754_zero s.
Proof.
  unfold SFeqb.
  destruct a as [sa | sa | | sa ma ea], b as [sb | sb | | sb mb eb];
    simpl; try discriminate; intros H Hn Hi;
    try congruence; try (exfalso; apply (Hi sa); reflexivity).
  all: try solve [ repeat match goal with
                          | s : bool |- _ => destruct s
                          end; simpl in *; try discriminate; eauto ].
  assert (E : sa = sb /\ ea = eb /\ ma = mb).
  { destruct sa, sb; try discriminate; cmp_cases; auto. }
  destruct E as (-> & -> & ->).
  rewrite Z.sub_diag. simpl. eauto.
Qed.

Lemma SFmul_finite_not_nan (a : spec_float) (s : bool) (m : positive) (e : Z) :
  a <> S754_nan -> SF64mul a (S754_finite s m e) <> S754_nan.
Proof.
  destruct a as [sa | sa | | sa ma ea]; simpl; try discriminate; try congruence.
  intros _. apply binary_round_aux_not_nan. lia.
Qed.

(** ** From the specification back to the primitive operations *)

#[local] Open Scope float_scope.

Lemma is_nan_Prim2SF (f : float) : is_nan f = true <-> Prim2SF f = S754_nan.
Proof.
  split; intros H.
  - unfold Prim2SF. now rewrite H.
  - unfold is_nan. rewrite FloatAxioms.eqb_spec, H. reflexivity.
Qed.

Lemma not_nan_Prim2SF (f : float) : is_nan f = false <-> Prim2SF f <> S754_nan.
Proof.
  split; intros H.
  - intros E. apply is_nan_Prim2SF in E. congruence.
  - destruct (is_nan f) eqn:E; [| reflexivity].
    apply is_nan_Prim2SF in E. contradiction.
Qed.

Lemma is_zero_Prim2SF (f : float) :
  is_zero f = true <-> exists s, Prim2SF f = S754_zero s.
Proof.
  unfold is_zero. rewrite FloatAxioms.eqb_spec.
  change (Prim2SF zero) with (S754_zero false).
  split.
  - destruct (Prim2SF f) as [s | s | | s m e]; try destruct s;
      try discriminate; eauto.
  - intros [s ->]. reflexivity.
Qed.

Lemma is_finite_Prim2SF (f : float) :
  is_finite f = true ->
  Prim2SF f <> S754_nan /\ forall s, Prim2SF f <> S754_infinity s.
Proof.
  unfold is_finite, is_infinity. rewrite negb_true_iff, orb_false_iff.
  intros [Hn Hi]. apply not_nan_Prim2SF in Hn. split; [exact Hn|].
  intros s E. rewrite FloatAxioms.eqb_spec, FloatAxioms.abs_spec, E in Hi.
  change (Prim2SF infinity) with (S754_infinity false) in Hi. discriminate.
Qed.

Lemma ltb_trans (a b c : float) :
  (a <? b) = true -> (b <? c) = true -> (a <? c) = true.
Proof. rewrite !FloatAxioms.ltb_spec. apply SFltb_trans. Qed.

Lemma ltb_le_trans (k r h : float) :
  (k <? r) = true -> (h <? r) = false -> is_nan h = false -> (k <? h) = true.
Proof.
  rewrite !FloatAxioms.ltb_spec. intros H1 H2 H3. apply not_nan_Prim2SF in H3.
  now apply (SFltb_le_trans _ _ _ H1 H2).
Qed.

Lemma ltb_not_nan_l (a b : float) : (a <? b) = true -> is_nan a = false.
Proof.
  rewrite FloatAxioms.ltb_spec. intros H. apply not_nan_Prim2SF. intros E.
  rewrite E in H. discriminate.
Qed.

Lemma ltb_not_nan_r (a b : float) : (a <? b) = true -> is_nan b = false.
Proof.
  rewrite FloatAxioms.ltb_spec. intros H. apply not_nan_Prim2SF. intros E.
  rewrite E in H. destruct (Prim2SF a); discriminate.
Qed.

(** [a < b] makes [a - b] negative: subtraction never rounds a non-zero
    difference to zero. *)
Lemma sub_negative (a b : float) : (a <? b) = true -> (a - b <? 0) = true.
Proof.
  rewrite !FloatAxioms.ltb_spec, FloatAxioms.sub_spec. intros H.
  destruct (SFsub_lt_negative _ _ (Prim2SF_valid a) (Prim2SF_valid b) H)
    as [(m & e & ->) | ->]; reflexivity.
Qed.

(** Equal finite numbers subtract to a zero. *)
Lemma sub_equal_zero (a b : float) :
  is_finite a = true -> (a =? b) = true -> is_zero (a - b) = true.
Proof.
  intros Hf He. apply is_finite_Prim2SF in Hf. destruct Hf as [Hn Hi].
  rewrite FloatAxioms.eqb_spec in He.
  apply is_zero_Prim2SF. rewrite FloatAxioms.sub_spec. now apply SFsub_eq_zero.
Qed.

Lemma mul_100_not_nan (a : float) : is_nan a = false -> is_nan (a * 100) = false.
Proof.
  intros H. apply not_nan_Prim2SF in H. apply not_nan_Prim2SF.
  rewrite FloatAxioms.mul_spec.
  change (Prim2SF 100) with (S754_finite false 7036874417766400 (-46)).
  now apply SFmul_finite_not_nan.
Qed.

Lemma nan_mul_l (a b : float) : is_nan a = true -> is_nan (a * b) = true.
Proof.
  intros H. apply is_nan_Prim2SF in H. apply is_nan_Prim2SF.
  rewrite FloatAxioms.mul_spec, H. reflexivity.
Qed.

(** ** Zeros and NaN through the operations of a degenerate angle *)

Lemma zero_or_nan_Prim2SF (f : float) :
  zero_or_nan f <-> Prim2SF f = S754_nan \/ exists s, Prim2SF f = S754_zero s.
Proof.
  unfold zero_or_nan. split; intros [H | H].
  - right. now apply is_zero_Prim2SF.
  - left. now apply is_nan_Prim2SF.
  - right. now apply is_nan_Prim2SF.
  - left. now apply is_zero_Prim2SF.
Qed.

Lemma mul_zero_zero (a b : float) :
  is_zero a = true -> is_zero b = true -> is_zero (a * b) = true.
Proof.
  intros [sa Ha]%is_zero_Prim2SF [sb Hb]%is_zero_Prim2SF.
  apply is_zero_Prim2SF. rewrite FloatAxioms.mul_spec, Ha, Hb. simpl. eauto.
Qed.

Lemma mul_zero_any (a b : float) : is_zero a = true -> zero_or_nan (a * b).
Proof.
  intros [sa Ha]%is_zero_Prim2SF. apply zero_or_nan_Prim2SF.
  rewrite FloatAxioms.mul_spec, Ha.
  destruct (Prim2SF b) as [s | s | | s m e]; simpl; eauto.
Qed.

Lemma add_zero_zero (a b : float) :
  is_zero a = true -> is_zero b = true -> is_zero (a + b) = true.
Proof.
  intros [sa Ha]%is_zero_Prim2SF [sb Hb]%is_zero_Prim2SF.
  apply is_zero_Prim2SF. rewrite FloatAxioms.add_spec, Ha, Hb.
  destruct sa, sb; simpl; eauto.
Qed.

Lemma add_zero_or_nan (a b : float) :
  zero_or_nan a -> zero_or_nan b -> zero_or_nan (a + b).
Proof.
  intros Ha%zero_or_nan_Prim2SF Hb%zero_or_nan_Prim2SF.
  apply zero_or_nan_Prim2SF. rewrite FloatAxioms.add_spec.
  destruct Ha as [-> | [sa ->]], Hb as [-> | [sb ->]]; simpl; auto.
  destruct sa, sb; simpl; eauto.
Qed.

Lemma sqrt_zero (a : float) : is_zero a = true -> is_zero (sqrt a) = true.
Proof.
  intros [sa Ha]%is_zero_Prim2SF. apply is_zero_Prim2SF.
  rewrite FloatAxioms.sqrt_spec, Ha. simpl. eauto.
Qed.

Lemma div_zero_or_nan (a b : float) :
  zero_or_nan a -> zero_or_nan b -> a / b = nan.
Proof.
  intros Ha%zero_or_nan_Prim2SF Hb%zero_or_nan_Prim2SF.
  apply Prim2SF_inj. rewrite FloatAxioms.div_spec.
  change (Prim2SF nan) with S754_nan.
  destruct Ha as [-> | [sa ->]], Hb as [-> | [sb ->]]; reflexivity.
Qed.

Lemma is_finite_eqb_refl (a : float) : is_finite a = true -> (a =? a) = true.
Proof.
  unfold is_finite, is_nan. rewrite negb_true_iff, orb_false_iff.
  intros [H _]. now apply negb_false_iff in H.
Qed.

End FloatFacts.

(* ================================================================== *)
(** * Facts about the [Math] functions                                  *)
(* ================================================================== *)

Module MathFacts.
Import FloatFacts.
#[local] Open Scope float_scope.

Lemma SFmul_comm (a b : spec_float) : SF64mul a b = SF64mul b a.
Proof.
  destruct a as [sa | sa | | sa ma ea], b as [sb | sb | | sb mb eb];
    simpl; try reflexivity; try (now rewrite xorb_comm).
  now rewrite xorb_comm, Pos.mul_comm, Z.add_comm.
Qed.

Lemma mul_comm (a b : float) : a * b = b * a.
Proof.
  apply Prim2SF_inj. rewrite !FloatAxioms.mul_spec. apply SFmul_comm.
Qed.

Lemma is_zero_not_nan (f : float) : is_zero f = true -> is_nan f = false.
Proof.
  intros H. apply is_zero_Prim2SF in H. destruct H as [s H].
  apply not_nan_Prim2SF. congruence.
Qed.

(** Comparing a zero with another number does not look at its sign. *)
Lemma ltb_zero_any (k a b : float) :
  is_zero a = true -> is_zero b = true -> (k <? a) = true -> (k <? b) = true.
Proof.
  intros Ha Hb. apply is_zero_Prim2SF in Ha, Hb.
  destruct Ha as [sa Ha], Hb as [sb Hb].
  rewrite !FloatAxioms.ltb_spec, Ha, Hb.
  destruct (Prim2SF k); exact (fun e => e).
Qed.

Lemma below_neg_infinity (k : float) : (k <? neg_infinity) = false.
Proof.
  rewrite FloatAxioms.ltb_spec.
  change (Prim2SF neg_infinity) with (S754_infinity true).
  destruct (Prim2SF k) as [s | s | | s m e]; try destruct s; reflexivity.
Qed.

Lemma is_pos_zero_zero (f : float) : is_pos_zero f = true -> is_zero f = true.
Proof. unfold is_pos_zero. now intros H%andb_prop. Qed.

Lemma is_neg_zero_zero (f : float) : is_neg_zero f = true -> is_zero f = true.
Proof. unfold is_neg_zero. now intros H%andb_prop. Qed.

(** [Math.max] of two numbers, neither NaN, is one of them (or the
    -Infinity it starts from, when both are -Infinity). *)
Lemma Math_max_pair_cases (l r : float) :
  is_nan l = false -> is_nan r = false ->
  Math_max [l; r] = l \/ Math_max [l; r] = r \/ Math_max [l; r] = neg_infinity.
Proof.
  intros Hl Hr. unfold Math_max, max_loop. rewrite Hl, Hr.
  repeat match goal with
         | |- context [if ?c then _ else _] => destruct c
         end; auto.
Qed.

Lemma Math_max_pair_nan (l r : float) :
  is_nan (Math_max [l; r]) = false -> is_nan l = false /\ is_nan r = false.
Proof.
  unfold Math_max, max_loop.
  destruct (is_nan l); [discriminate|].
  destruct (is_nan r); [discriminate|]. auto.
Qed.

(** [Math.max] of two numbers exceeds every bound one of them exceeds. *)
Lemma Math_max_pair_above (k l r : float) :
  is_nan l = false -> is_nan r = false ->
  (k <? l) = true \/ (k <? r) = true ->
  (k <? Math_max [l; r]) = true.
Proof.
  intros Hl Hr H. unfold Math_max, max_loop. rewrite Hl, Hr.
  change (is_neg_zero neg_infinity) with false. rewrite andb_false_r.
  destruct (neg_infinity <? l) eqn:E1.
  - destruct (is_pos_zero r && is_neg_zero l) eqn:Z.
    + apply andb_prop in Z. destruct Z as [Zr%is_pos_zero_zero Zl%is_neg_zero_zero].
      assert (Hk : (k <? r) = true).
      { destruct H as [H | H]; [| exact H]. exact (ltb_zero_any k l r Zl Zr H). }
      destruct (r <? r); exact Hk.
    + destruct (l <? r) eqn:E2.
      * destruct H as [H | H]; [| exact H]. exact (ltb_trans _ _ _ H E2).
      * destruct H as [H | H]; [exact H|]. exact (ltb_le_trans _ _ _ H E2 Hl).
  - assert (Hk : (k <? r) = true).
    { destruct H as [H | H]; [| exact H].
      pose proof (ltb_le_trans _ _ _ H E1 eq_refl) as C.
      rewrite below_neg_infinity in C. discriminate. }
    destruct (is_pos_zero r && is_neg_zero neg_infinity).
    + destruct (r <? r); exact Hk.
    + destruct (neg_infinity <? r) eqn:E2; [exact Hk|].
      exact (ltb_le_trans _ _ _ Hk E2 eq_refl).
Qed.

Lemma negative_facts (a : float) :
  (a <? 0) = true ->
  is_nan a = false /\ (a =? infinity) = false /\ is_zero a = false
  /\ (0 <? a) = false.
Proof.
  intros H. split; [exact (ltb_not_nan_l _ _ H)|].
  unfold is_zero. rewrite FloatAxioms.ltb_spec in *. rewrite !FloatAxioms.eqb_spec.
  change (Prim2SF infinity) with (S754_infinity false).
  change (Prim2SF zero) with (S754_zero false).
  change (Prim2SF 0) with (S754_zero false) in *.
  destruct (Prim2SF a) as [s | s | | s m e]; try destruct s;
    try discriminate; auto.
Qed.

Lemma zero_facts (a : float) :
  is_zero a = true ->
  is_nan a = false /\ (a =? infinity) = false /\ (a =? neg_infinity) = false.
Proof.
  intros H. split; [exact (is_zero_not_nan _ H)|].
  apply is_zero_Prim2SF in H. destruct H as [s H].
  rewrite !FloatAxioms.eqb_spec, H. auto.
Qed.

(** [Math.atan2(y, x)] for a negative [y] and a zero [x]: the binary64 value
    of -pi/2. *)
Lemma Math_atan2_negative_zero (M : MathImpl) (ny nx : float) :
  (ny <? 0) = true -> is_zero nx = true ->
  Math_atan2 M ny nx = (-0x1.921fb54442d18p+0)%float.
Proof.
  intros Hy Hx.
  destruct (negative_facts _ Hy) as (Yn & Yi & Yz & Yp).
  destruct (zero_facts _ Hx) as (Xn & Xi & Xm).
  unfold Math_atan2, is_pos_zero, is_neg_zero.
  rewrite Yn, Xn, Yi, Yz, Yp, Xi, Xm, Hx. simpl.
  destruct (ny =? neg_infinity); reflexivity.
Qed.

End MathFacts.

(* ================================================================== *)
(** * Raising and returning                                             *)
(* ================================================================== *)

(** Inverts a chain of [let*] that is known to return. *)
Ltac bind_inv H :=
  repeat match type of H with
         | bind ?c _ = Some _ =>
             let E := fresh "E" in
             destruct c eqn:E; simpl in H; [| discriminate H]
         end.

Lemma well_formed_at (landmarks : list PoseLandmark) (i : nat) :
  well_formed landmarks -> (i < 33)%nat ->
  exists p, at_index landmarks i = Some p.
Proof.
  unfold well_formed, at_index. intros H Hi.
  destruct (nth_error landmarks i) eqn:E; [eauto|].
  apply nth_error_None in E. lia.
Qed.

Lemma reduce_returns {A B : Type} (f : B -> A -> option B) (l : list A) :
  (forall acc a, In a l -> exists b, f acc a = Some b) ->
  forall init, exists b, reduce f init l = Some b.
Proof.
  induction l as [| a l IH]; intros Hf init; simpl; [eauto|].
  destruct (Hf init a (or_introl eq_refl)) as [b ->]. simpl.
  apply IH. intros acc a' Ha'. apply Hf. now right.
Qed.

Lemma mapM_returns {A B : Type} (f : A -> option B) (l : list A) :
  (forall a, In a l -> exists b, f a = Some b) ->
  exists bs, mapM f l = Some bs.
Proof.
  induction l as [| a l IH]; intros Hf; simpl; [eauto|].
  destruct (Hf a (or_introl eq_refl)) as [b ->]. simpl.
  destruct IH as [bs ->]; [intros a' Ha'; apply Hf; now right|].
  simpl. eauto.
Qed.

Lemma mapM_map {A B : Type} (f : A -> option B) (g : A -> B) (l : list A) :
  (forall a, In a l -> f a = Some (g a)) -> mapM f l = Some (map g l).
Proof.
  induction l as [| a l IH]; intros Hf; simpl; [reflexivity|].
  rewrite (Hf a (or_introl eq_refl)). simpl.
  rewrite IH; [reflexivity|]. intros a' Ha'. apply Hf. now right.
Qed.

Lemma In_slice_last {A : Type} (n : nat) (l : list A) (a : A) :
  In a (slice_last n l) -> In a l.
Proof.
  unfold slice_last. intros H.
  rewrite <- (firstn_skipn (length l - n) l). apply in_or_app. now right.
Qed.

Section Returning.
Variable M : MathImpl.
Variable self : ExerciseAnalyzer.
Variable landmarks : list PoseLandmark.
Hypothesis Hself : history_well_formed self.
Hypothesis Hlm : well_formed landmarks.

(** Rewrites every landmark read of the current frame to the landmark. *)
Ltac read_landmarks :=
  repeat match goal with
         | |- context [at_index landmarks ?i] =>
             let p := fresh "p" in
             let E := fresh "E" in
             let Hi := fresh "Hi" in
             assert (Hi : (i < 33)%nat) by lia;
             destruct (well_formed_at landmarks i Hlm Hi) as [p E];
             clear Hi; rewrite E; cbn [bind]
         end.

Lemma angleAt_returns (i j k : nat) :
  (i < 33)%nat -> (j < 33)%nat -> (k < 33)%nat ->
  exists a, angleAt M landmarks i j k = Some a.
Proof.
  intros Hi Hj Hk. unfold angleAt.
  destruct (well_formed_at landmarks i Hlm Hi) as [p1 ->].
  destruct (well_formed_at landmarks j Hlm Hj) as [p2 ->].
  destruct (well_formed_at landmarks k Hlm Hk) as [p3 ->].
  simpl. eauto.
Qed.

Lemma analyzeKneeAlignment_returns :
  exists v, analyzeKneeAlignment landmarks = Some v.
Proof. unfold analyzeKneeAlignment. read_landmarks. eauto. Qed.

Lemma calculateBackAngle_returns :
  exists v, calculateBackAngle M landmarks = Some v.
Proof. unfold calculateBackAngle. read_landmarks. eauto. Qed.

Lemma calculateSquatDepth_returns :
  exists v, calculateSquatDepth landmarks = Some v.
Proof. unfold calculateSquatDepth. read_landmarks. eauto. Qed.

Lemma calculateBilateralSymmetry_returns :
  exists v, calculateBilateralSymmetry landmarks = Some v.
Proof.
  unfold calculateBilateralSymmetry. cbn [map combine].
  read_landmarks. simpl. eauto.
Qed.

Lemma analyzePushupAlignment_returns :
  exists v, analyzePushupAlignment landmarks = Some v.
Proof. unfold analyzePushupAlignment. read_landmarks. eauto. Qed.

Lemma analyzePlankAlignment_returns :
  exists v, analyzePlankAlignment landmarks = Some v.
Proof. unfold analyzePlankAlignment. read_landmarks. eauto. Qed.

Lemma calculateHipPosition_returns :
  exists v, calculateHipPosition landmarks = Some v.
Proof. unfold calculateHipPosition. read_landmarks. eauto. Qed.

Lemma analyzeFrontKneeAlignment_returns :
  exists v, analyzeFrontKneeAlignment landmarks = Some v.
Proof. unfold analyzeFrontKneeAlignment. read_landmarks. eauto. Qed.

Lemma calculateTorsoLean_returns :
  exists v, calculateTorsoLean M landmarks = Some v.
Proof. unfold calculateTorsoLean. read_landmarks. eauto. Qed.

(** Reading landmark [i] of the frames kept in the history. *)
Lemma history_read (i : nat) (frame : list PoseLandmark) :
  (i < 33)%nat -> In frame (frameHistory self) ->
  exists p, at_index frame i = Some p.
Proof.
  intros Hi Hin. apply well_formed_at; [| exact Hi].
  unfold history_well_formed in Hself.
  rewrite Forall_forall in Hself. now apply Hself.
Qed.

Lemma sum_positions_returns (g : float -> PoseLandmark -> float)
  (positions : list (option PoseLandmark)) :
  (forall p, In p positions -> exists q, p = Some q) ->
  forall init,
  exists v, reduce (fun sum p => let* p := p in Some (g sum p)) init positions
            = Some v.
Proof.
  intros H. apply reduce_returns.
  intros acc p Hp. destruct (H p Hp) as [q ->]. simpl. eauto.
Qed.

Lemma calculateStability_returns :
  exists v, calculateStability M self landmarks = Some v.
Proof.
  unfold calculateStability.
  destruct (length (frameHistory self) <? 5)%nat; [eauto|].
  match goal with
  | |- context [reduce ?f ?z ?l] =>
      assert (R : exists v, reduce f z l = Some v);
      [apply reduce_returns | destruct R as [v E]]
  end.
  - intros acc i Hi. apply in_seq in Hi. cbv beta.
    assert (Hpos : forall p,
               In p (map (fun frame => at_index frame i)
                       (slice_last 5 (frameHistory self))) ->
               exists q, p = Some q).
    { intros p Hp. apply in_map_iff in Hp. destruct Hp as (frame & <- & Hf).
      apply history_read; [rewrite Hlm in Hi; lia|].
      now apply In_slice_last in Hf. }
    destruct (sum_positions_returns (fun sum p => (sum + x p)%float) _ Hpos 0%float)
      as [sx ->]. simpl.
    destruct (sum_positions_returns (fun sum p => (sum + y p)%float) _ Hpos 0%float)
      as [sy ->]. simpl.
    match goal with
    | |- context [reduce (fun sum o => bind o (fun q => Some (@?g sum q))) _ _] =>
        destruct (sum_positions_returns g _ Hpos 0%float) as [sq ->]
    end.
    simpl. eauto.
  - rewrite E. simpl. eauto.
Qed.

Lemma detectPhaseAt_returns (tracked : nat) :
  (tracked < 33)%nat ->
  exists ph, detectPhaseAt tracked self landmarks = Some ph.
Proof.
  intros Ht. unfold detectPhaseAt.
  destruct (well_formed_at landmarks tracked Hlm Ht) as [p ->]. simpl.
  destruct (length (frameHistory self) <? 3)%nat; [eauto|].
  match goal with
  | |- context [mapM ?f ?l] => destruct (mapM_returns f l) as [hs ->]
  end.
  - intros frame Hf. apply In_slice_last in Hf.
    destruct (history_read tracked frame Ht Hf) as [q ->]. simpl. eauto.
  - simpl. repeat match goal with
                  | |- context [if ?c then _ else _] => destruct c
                  end; eauto.
Qed.

Lemma calculatePushupROM_returns :
  exists v, calculatePushupROM self landmarks = Some v.
Proof.
  unfold calculatePushupROM.
  destruct (length (frameHistory self) <? 10)%nat; [eauto|].
  match goal with
  | |- context [mapM ?f ?l] => destruct (mapM_returns f l) as [hs ->]
  end.
  - intros frame Hf.
    destruct (history_read 11 frame ltac:(lia) Hf) as [q ->]. simpl. eauto.
  - simpl. eauto.
Qed.

End Returning.

(** ** The four routines and the dispatcher *)

Section Routines.
Variable M : MathImpl.

Lemma addToHistory_history (self : ExerciseAnalyzer)
  (landmarks : list PoseLandmark) :
  frameHistory (addToHistory self landmarks)
  = let pushed := frameHistory self ++ [landmarks] in
    if (maxHistoryFrames <? length pushed)%nat then tl pushed else pushed.
Proof. reflexivity. Qed.

Lemma addToHistory_well_formed (self : ExerciseAnalyzer)
  (landmarks : list PoseLandmark) :
  history_well_formed self -> well_formed landmarks ->
  history_well_formed (addToHistory self landmarks).
Proof.
  unfold history_well_formed. intros Hs Hl.
  rewrite addToHistory_history. cbv zeta.
  assert (H : Forall well_formed (frameHistory self ++ [landmarks])).
  { apply Forall_app. split; [exact Hs | constructor; [exact Hl | constructor]]. }
  destruct (maxHistoryFrames <? _)%nat; [| exact H].
  destruct (frameHistory self ++ [landmarks]); simpl; [constructor|].
  now inversion H.
Qed.

Lemma analyzeExercise_self (self : ExerciseAnalyzer)
  (landmarks : list PoseLandmark) (exercise : string) :
  fst (analyzeExercise M self landmarks exercise)
  = addToHistory self landmarks.
Proof. reflexivity. Qed.

Section Call.
Variable self : ExerciseAnalyzer.
Variable landmarks : list PoseLandmark.
Hypothesis Hself : history_well_formed self.
Hypothesis Hlm : well_formed landmarks.

(** Replaces the helper calls of the goal by the values they return. *)
Ltac returns_of lemma :=
  let v := fresh "v" in
  let E := fresh "E" in
  destruct lemma as [v E]; rewrite E; cbn [bind].

Lemma calculateSquatBiomechanics_returns :
  exists b, calculateSquatBiomechanics M self landmarks = Some b.
Proof.
  unfold calculateSquatBiomechanics, calculateHipAngle, calculateKneeAngle,
    calculateAnkleAngle.
  returns_of (angleAt_returns M landmarks Hlm 11 23 25
                ltac:(lia) ltac:(lia) ltac:(lia)).
  returns_of (angleAt_returns M landmarks Hlm 23 25 27
                ltac:(lia) ltac:(lia) ltac:(lia)).
  returns_of (angleAt_returns M landmarks Hlm 25 27 31
                ltac:(lia) ltac:(lia) ltac:(lia)).
  returns_of (calculateBilateralSymmetry_returns landmarks Hlm).
  returns_of (calculateStability_returns M self landmarks Hself Hlm).
  returns_of (calculateSquatDepth_returns landmarks Hlm).
  eauto.
Qed.

Lemma calculatePushupBiomechanics_returns :
  exists b, calculatePushupBiomechanics M self landmarks = Some b.
Proof.
  unfold calculatePushupBiomechanics, calculateShoulderAngle,
    calculateElbowAngle, calculateWristAngle, calculateCoreStability.
  returns_of (angleAt_returns M landmarks Hlm 13 11 23
                ltac:(lia) ltac:(lia) ltac:(lia)).
  returns_of (angleAt_returns M landmarks Hlm 11 13 15
                ltac:(lia) ltac:(lia) ltac:(lia)).
  returns_of (angleAt_returns M landmarks Hlm 13 15 19
                ltac:(lia) ltac:(lia) ltac:(lia)).
  returns_of (calculateBilateralSymmetry_returns landmarks Hlm).
  returns_of (calculateStability_returns M self landmarks Hself Hlm).
  returns_of (calculatePushupROM_returns self landmarks Hself).
  eauto.
Qed.

Lemma calculatePlankBiomechanics_returns :
  exists b, calculatePlankBiomechanics M self landmarks = Some b.
Proof.
  unfold calculatePlankBiomechanics, calculateShoulderAngle,
    calculateHipAngle, calculateSpinalAngle, calculatePlankStability.
  returns_of (angleAt_returns M landmarks Hlm 13 11 23
                ltac:(lia) ltac:(lia) ltac:(lia)).
  returns_of (angleAt_returns M landmarks Hlm 11 23 25
                ltac:(lia) ltac:(lia) ltac:(lia)).
  returns_of (calculateBilateralSymmetry_returns landmarks Hlm).
  returns_of (calculateStability_returns M self landmarks Hself Hlm).
  eauto.
Qed.

Lemma calculateLungeBiomechanics_returns :
  exists b, calculateLungeBiomechanics M self landmarks = Some b.
Proof.
  unfold calculateLungeBiomechanics, calculateFrontHipAngle,
    calculateFrontKneeAngle, calculateBackHipAngle, calculateHipAngle,
    calculateKneeAngle, calculateLateralSymmetry,
    calculateSingleLegStability, calculateLungeDepth.
  returns_of (angleAt_returns M landmarks Hlm 11 23 25
                ltac:(lia) ltac:(lia) ltac:(lia)).
  returns_of (angleAt_returns M landmarks Hlm 23 25 27
                ltac:(lia) ltac:(lia) ltac:(lia)).
  returns_of (calculateBilateralSymmetry_returns landmarks Hlm).
  returns_of (calculateStability_returns M self landmarks Hself Hlm).
  returns_of (calculateSquatDepth_returns landmarks Hlm).
  eauto.
Qed.

Lemma analyzeSquat_returns :
  exists r, analyzeSquat M self landmarks = Some r.
Proof.
  unfold analyzeSquat, detectSquatPhase.
  returns_of calculateSquatBiomechanics_returns.
  returns_of (detectPhaseAt_returns self landmarks Hself Hlm 23 ltac:(lia)).
  returns_of (analyzeKneeAlignment_returns landmarks Hlm).
  returns_of (calculateBackAngle_returns M landmarks Hlm).
  returns_of (calculateSquatDepth_returns landmarks Hlm).
  eauto.
Qed.

Lemma analyzePushup_returns :
  exists r, analyzePushup M self landmarks = Some r.
Proof.
  unfold analyzePushup, detectPushupPhase, calculateElbowAngle.
  returns_of calculatePushupBiomechanics_returns.
  returns_of (detectPhaseAt_returns self landmarks Hself Hlm 11 ltac:(lia)).
  returns_of (analyzePushupAlignment_returns landmarks Hlm).
  returns_of (angleAt_returns M landmarks Hlm 11 13 15
                ltac:(lia) ltac:(lia) ltac:(lia)).
  returns_of (calculatePushupROM_returns self landmarks Hself).
  eauto.
Qed.

Lemma analyzePlank_returns :
  exists r, analyzePlank M self landmarks = Some r.
Proof.
  unfold analyzePlank.
  returns_of calculatePlankBiomechanics_returns.
  returns_of (analyzePlankAlignment_returns landmarks Hlm).
  returns_of (calculateHipPosition_returns landmarks Hlm).
  eauto.
Qed.

Lemma analyzeLunge_returns :
  exists r, analyzeLunge M self landmarks = Some r.
Proof.
  unfold analyzeLunge, detectLungePhase.
  returns_of calculateLungeBiomechanics_returns.
  returns_of (detectPhaseAt_returns self landmarks Hself Hlm 23 ltac:(lia)).
  returns_of (analyzeFrontKneeAlignment_returns landmarks Hlm).
  returns_of (calculateTorsoLean_returns M landmarks Hlm).
  eauto.
Qed.
End Call.

(** One call on an analyzer whose history is well formed, with a
    well-formed frame: it returns, and the history stays well formed. *)
Lemma analyzeExercise_returns (self : ExerciseAnalyzer)
  (landmarks : list PoseLandmark) (exercise : string) :
  history_well_formed self -> well_formed landmarks ->
  returned (snd (analyzeExercise M self landmarks exercise))
  /\ history_well_formed (fst (analyzeExercise M self landmarks exercise)).
Proof.
  intros Hs Hl.
  pose proof (addToHistory_well_formed self landmarks Hs Hl) as Hs'.
  split; [| exact Hs'].
  unfold returned, analyzeExercise. cbn [snd].
  destruct (exercise =? "squat")%string;
    [exact (analyzeSquat_returns _ _ Hs' Hl)|].
  destruct (exercise =? "pushup")%string;
    [exact (analyzePushup_returns _ _ Hs' Hl)|].
  destruct (exercise =? "plank")%string;
    [exact (analyzePlank_returns _ _ Hs' Hl)|].
  destruct (exercise =? "lunge")%string;
    [exact (analyzeLunge_returns _ _ Hs' Hl)|].
  eauto.
Qed.

End Routines.

(* ================================================================== *)
(** * The frame history                                                 *)
(* ================================================================== *)

Lemma mostRecent_all {A : Type} (n : nat) (frames : list A) :
  (length frames <= n)%nat -> mostRecent n frames = frames.
Proof.
  intros H. unfold mostRecent.
  rewrite firstn_all2 by (rewrite length_rev; exact H).
  apply rev_involutive.
Qed.

Lemma mostRecent_length {A : Type} (n : nat) (frames : list A) :
  length (mostRecent n frames) = Nat.min n (length frames).
Proof.
  unfold mostRecent. now rewrite length_rev, length_firstn, length_rev.
Qed.

Lemma mostRecent_skipn {A : Type} (n : nat) (frames : list A) :
  mostRecent n frames = skipn (length frames - n) frames.
Proof.
  unfold mostRecent. rewrite firstn_rev. apply rev_involutive.
Qed.

Lemma mostRecent_snoc {A : Type} (n : nat) (frames : list A) (a : A) :
  mostRecent (S n) (frames ++ [a]) = mostRecent n frames ++ [a].
Proof.
  unfold mostRecent. rewrite rev_app_distr. simpl. reflexivity.
Qed.

Lemma firstn_succ_snoc {A : Type} (n : nat) :
  forall (l : list A) (b : A) (rest : list A),
    skipn n l = b :: rest -> firstn (S n) l = firstn n l ++ [b].
Proof.
  induction n as [| n IH]; intros l b rest H.
  - simpl in H. subst l. reflexivity.
  - destruct l as [| c l]; [discriminate H|].
    simpl in H. change (firstn (S (S n)) (c :: l)) with (c :: firstn (S n) l).
    rewrite (IH l b rest H). reflexivity.
Qed.

(** Dropping the head of a full window that has just received a frame
    leaves the window of the frames appended so far. *)
Lemma window_step {A : Type} (n : nat) (frames : list A) (a : A) :
  let pushed := mostRecent n frames ++ [a] in
  (if (n <? length pushed)%nat then tl pushed else pushed)
  = mostRecent n (frames ++ [a]).
Proof.
  cbv zeta. rewrite length_app, mostRecent_length. simpl length.
  destruct (Nat.ltb_spec n (Nat.min n (length frames) + 1)) as [Hfull | Hroom].
  - (* the window was full *)
    assert (Hn : (n <= length frames)%nat) by lia.
    destruct n as [| n].
    + unfold mostRecent. simpl. reflexivity.
    + rewrite mostRecent_snoc. unfold mostRecent.
      destruct (skipn n (rev frames)) as [| b rest] eqn:Es.
      * apply (f_equal (@length A)) in Es.
        rewrite length_skipn, length_rev in Es. simpl in Es. lia.
      * rewrite (firstn_succ_snoc n _ b rest Es).
        rewrite rev_app_distr. simpl. reflexivity.
  - assert (Hn : (length frames < n)%nat) by lia.
    rewrite (mostRecent_all n frames) by lia.
    rewrite mostRecent_all by (rewrite length_app; simpl; lia).
    reflexivity.
Qed.

Section History.
Variable M : MathImpl.

(** The history after a session, when it started as the window of the
    frames [earlier]. *)
Lemma session_history (calls : list (list PoseLandmark * string)) :
  forall (self : ExerciseAnalyzer) (earlier : list (list PoseLandmark)),
    frameHistory self = mostRecent maxHistoryFrames earlier ->
    frameHistory (fst (session M self calls))
    = mostRecent maxHistoryFrames (earlier ++ map fst calls).
Proof.
  induction calls as [| [landmarks exercise] calls IH]; intros self earlier H.
  - simpl. now rewrite app_nil_r.
  - assert (P : frameHistory (addToHistory self landmarks)
                = mostRecent maxHistoryFrames (earlier ++ [landmarks])).
    { rewrite addToHistory_history, H. apply window_step. }
    specialize (IH (addToHistory self landmarks) (earlier ++ [landmarks]) P).
    rewrite <- app_assoc in IH.
    simpl.
    destruct (session M (addToHistory self landmarks) calls) as [self' results].
    exact IH.
Qed.

(** C4 (history capacity invariant).  After any session on a new analyzer the
    history holds at most 30 frames and is exactly the most recently
    appended frames, in append order: all of them while there are at most
    30, and the last 30 of them once there are more. *)
Theorem history_capacity_invariant
  (calls : list (list PoseLandmark * string)) :
  let history := frameHistory (fst (session M newExerciseAnalyzer calls)) in
  (length history <= 30)%nat
  /\ history = mostRecent 30 (map fst calls)
  /\ length history = Nat.min 30 (length calls)
  /\ history = skipn (length calls - 30) (map fst calls).
Proof.
  cbv zeta.
  pose proof (session_history calls newExerciseAnalyzer [] eq_refl) as H.
  simpl in H. change maxHistoryFrames with 30%nat in H.
  rewrite H, mostRecent_length, length_map.
  repeat split; try lia.
  rewrite <- (length_map fst calls). apply mostRecent_skipn.
Qed.

End History.

(* ================================================================== *)
(** * The scoring policy                                                *)
(* ================================================================== *)

Lemma calculateFormScore_policy (criticalErrors minorIssues strengths : list string) :
  calculateFormScore criticalErrors minorIssues strengths
  = scoringPolicy (length criticalErrors) (length minorIssues) (length strengths).
Proof.
  unfold calculateFormScore, scoringPolicy, clamp.
  repeat match goal with
         | |- context [(?a <? ?b)%Z] => destruct (Z.ltb_spec a b)
         end; lia.
Qed.

Lemma calculateFormScore_bounds (criticalErrors minorIssues strengths : list string) :
  (0 <= calculateFormScore criticalErrors minorIssues strengths <= 100)%Z.
Proof. unfold calculateFormScore. lia. Qed.

Lemma assessment_score (f : findings) (phase : string)
  (biomechanics : BiomechanicalAnalysis) :
  score (assessment f phase biomechanics)
  = calculateFormScore (criticalErrors (assessment f phase biomechanics))
      (minorIssues (assessment f phase biomechanics))
      (strengths (assessment f phase biomechanics)).
Proof. destruct f as [[c m] s]. reflexivity. Qed.

Section Scoring.
Variable M : MathImpl.

Lemma analyzeSquat_built self landmarks r :
  analyzeSquat M self landmarks = Some r -> built_from_findings r.
Proof.
  unfold analyzeSquat. intros H. bind_inv H.
  injection H as <-. unfold built_from_findings. eauto.
Qed.

Lemma analyzePushup_built self landmarks r :
  analyzePushup M self landmarks = Some r -> built_from_findings r.
Proof.
  unfold analyzePushup. intros H. bind_inv H.
  injection H as <-. unfold built_from_findings. eauto.
Qed.

Lemma analyzePlank_built self landmarks r :
  analyzePlank M self landmarks = Some r -> built_from_findings r.
Proof.
  unfold analyzePlank. intros H. bind_inv H.
  injection H as <-. unfold built_from_findings. eauto.
Qed.

Lemma analyzeLunge_built self landmarks r :
  analyzeLunge M self landmarks = Some r -> built_from_findings r.
Proof.
  unfold analyzeLunge. intros H. bind_inv H.
  injection H as <-. unfold built_from_findings. eauto.
Qed.

(** The dispatcher, by cases on the exercise identifier. *)
Lemma analyzeExercise_cases self landmarks exercise :
  let self' := addToHistory self landmarks in
  (exercise = "squat"
   /\ snd (analyzeExercise M self landmarks exercise)
      = analyzeSquat M self' landmarks)
  \/ (exercise = "pushup"
      /\ snd (analyzeExercise M self landmarks exercise)
         = analyzePushup M self' landmarks)
  \/ (exercise = "plank"
      /\ snd (analyzeExercise M self landmarks exercise)
         = analyzePlank M self' landmarks)
  \/ (exercise = "lunge"
      /\ snd (analyzeExercise M self landmarks exercise)
         = analyzeLunge M self' landmarks)
  \/ (supported exercise = false
      /\ snd (analyzeExercise M self landmarks exercise)
         = Some getDefaultAssessment).
Proof.
  cbv zeta. unfold analyzeExercise, supported. cbn [snd].
  destruct (String.eqb_spec exercise "squat"); [auto|].
  destruct (String.eqb_spec exercise "pushup"); [auto|].
  destruct (String.eqb_spec exercise "plank"); [auto 6|].
  destruct (String.eqb_spec exercise "lunge"); [auto 6|].
  auto 8.
Qed.

Lemma supported_names (exercise : string) :
  supported exercise = true
  <-> In exercise ["squat"; "pushup"; "plank"; "lunge"].
Proof.
  unfold supported. simpl.
  destruct (String.eqb_spec exercise "squat");
    destruct (String.eqb_spec exercise "pushup");
    destruct (String.eqb_spec exercise "plank");
    destruct (String.eqb_spec exercise "lunge"); simpl;
    split; intros H; auto; try discriminate;
    repeat destruct H as [H | H]; try congruence; contradiction.
Qed.

(** C1 (scoring policy), as the code has it.  A call with well-formed frames
    returns an assessment whose score lies in 0..100.  For the four
    supported exercises the score is the clamped total
    100 - 25 critical - 10 minor + 5 strengths of the three finding lists
    of that same assessment, so it depends on their lengths only; for any
    other identifier it is the constant 75 of the default assessment. *)
Theorem score_follows_policy_when_supported
  (self : ExerciseAnalyzer) (landmarks : list PoseLandmark)
  (exercise : string) :
  history_well_formed self -> well_formed landmarks ->
  exists r,
    snd (analyzeExercise M self landmarks exercise) = Some r
    /\ (0 <= score r <= 100)%Z
    /\ (supported exercise = true ->
        score r = scoringPolicy (length (criticalErrors r))
                    (length (minorIssues r)) (length (strengths r)))
    /\ (supported exercise = false -> score r = 75%Z).
Proof.
  intros Hs Hl.
  destruct (analyzeExercise_returns M self landmarks exercise Hs Hl)
    as [[r Hr] _].
  exists r. split; [exact Hr|].
  assert (Hbuilt : built_from_findings r -> 
            (0 <= score r <= 100)%Z
            /\ score r = scoringPolicy (length (criticalErrors r))
                           (length (minorIssues r)) (length (strengths r))).
  { intros (f & ph & b & ->). rewrite assessment_score.
    split; [apply calculateFormScore_bounds | apply calculateFormScore_policy]. }
  destruct (analyzeExercise_cases self landmarks exercise)
    as [[-> E] | [[-> E] | [[-> E] | [[-> E] | [Hu E]]]]];
    rewrite Hr in E; symmetry in E.
  - apply analyzeSquat_built in E. destruct (Hbuilt E). repeat split; try lia; auto.
    discriminate.
  - apply analyzePushup_built in E. destruct (Hbuilt E). repeat split; try lia; auto.
    discriminate.
  - apply analyzePlank_built in E. destruct (Hbuilt E). repeat split; try lia; auto.
    discriminate.
  - apply analyzeLunge_built in E. destruct (Hbuilt E). repeat split; try lia; auto.
    discriminate.
  - injection E as <-. rewrite Hu. simpl. repeat split; try lia; discriminate.
Qed.

End Scoring.

(** C1, witness: a squat call on a new analyzer. *)
Lemma score_follows_policy_when_supported_witness :
  history_well_formed newExerciseAnalyzer
  /\ well_formed (Sample.squatFrame 0.2)
  /\ exists r,
       snd (analyzeExercise Sample.math newExerciseAnalyzer
              (Sample.squatFrame 0.2) "squat") = Some r
       /\ (0 <= score r <= 100)%Z
       /\ (supported "squat" = true ->
           score r = scoringPolicy (length (criticalErrors r))
                       (length (minorIssues r)) (length (strengths r)))
       /\ (supported "squat" = false -> score r = 75%Z).
Proof.
  split; [constructor|]. split; [reflexivity|].
  apply (score_follows_policy_when_supported Sample.math newExerciseAnalyzer
           (Sample.squatFrame 0.2) "squat"); [constructor | reflexivity].
Defined.

(** C1, counterexample to the claim as stated ("for every analyze call"): for
    an unsupported identifier the call returns score 75 with no critical
    error, no minor issue and one strength, for which the policy gives
    100. *)
Lemma score_is_not_policy_for_unknown_exercise :
  exists r,
    snd (analyzeExercise Sample.math newExerciseAnalyzer
           Sample.collapsedFrame "yoga") = Some r
    /\ score r = 75%Z
    /\ scoringPolicy (length (criticalErrors r)) (length (minorIssues r))
         (length (strengths r)) = 100%Z.
Proof. eexists. repeat split. Qed.

(** C7 (severity ordering), as the code has it.  With the counts of minor
    issues and strengths fixed, one more critical error lowers the score by
    exactly 25 whenever the unclamped total lies in 25..100, that is, when
    neither the cap at 100 nor the floor at 0 is in play; in every case the
    score does not rise and drops by at most 25. *)
Theorem one_more_critical_error
  (criticalErrors more minorIssues strengths : list string) :
  length more = S (length criticalErrors) ->
  (25 <= rawScore (length criticalErrors) (length minorIssues)
           (length strengths) <= 100)%Z ->
  calculateFormScore more minorIssues strengths
  = (calculateFormScore criticalErrors minorIssues strengths - 25)%Z
  /\ (calculateFormScore more minorIssues strengths
      < calculateFormScore criticalErrors minorIssues strengths)%Z.
Proof.
  unfold calculateFormScore, rawScore. intros -> H. lia.
Qed.

(** C7, witness: from no finding at all to one critical error, 100 to 75. *)
Lemma one_more_critical_error_witness :
  calculateFormScore ["Knees caving inward - risk of injury"] [] []
  = (calculateFormScore [] [] [] - 25)%Z
  /\ (calculateFormScore ["Knees caving inward - risk of injury"] [] []
      < calculateFormScore [] [] [])%Z.
Proof.
  apply (one_more_critical_error [] ["Knees caving inward - risk of injury"] [] []).
  - reflexivity.
  - unfold rawScore. simpl. lia.
Defined.

(** C7, counterexample to the claim as stated: with four strengths the
    total 120 is capped at 100, and one critical error lowers the score to
    95, by 5 and not by 25, although nothing is clamped at 0. *)
Lemma capped_score_drops_by_less_than_25 :
  calculateFormScore [] []
    ["Good knee alignment"; "Good torso position"; "Good squat depth";
     "Good bilateral symmetry"] = 100%Z
  /\ calculateFormScore ["Knees caving inward - risk of injury"] []
       ["Good knee alignment"; "Good torso position"; "Good squat depth";
        "Good bilateral symmetry"] = 95%Z.
Proof. split; reflexivity. Qed.

(** The score never rises with one more critical error, and never drops by
    more than 25. *)
Lemma one_more_critical_error_monotone
  (criticalErrors more minorIssues strengths : list string) :
  length more = S (length criticalErrors) ->
  (calculateFormScore criticalErrors minorIssues strengths - 25
   <= calculateFormScore more minorIssues strengths
   <= calculateFormScore criticalErrors minorIssues strengths)%Z.
Proof. unfold calculateFormScore. intros ->. lia. Qed.

(* ================================================================== *)
(** * Returning for every well-formed input                             *)
(* ================================================================== *)

Section Totality.
Variable M : MathImpl.

Lemma session_returns (calls : list (list PoseLandmark * string)) :
  forall self : ExerciseAnalyzer,
    history_well_formed self ->
    Forall (fun call => well_formed (fst call)) calls ->
    Forall returned (snd (session M self calls))
    /\ length (snd (session M self calls)) = length calls
    /\ history_well_formed (fst (session M self calls)).
Proof.
  induction calls as [| [landmarks exercise] calls IH]; intros self Hs Hc.
  - simpl. repeat split; [constructor | exact Hs].
  - inversion Hc as [| ? ? Hl Hrest]; subst. simpl in Hl.
    destruct (analyzeExercise_returns M self landmarks exercise Hs Hl)
      as [Hret Hs'].
    rewrite analyzeExercise_self in Hs'.
    specialize (IH (addToHistory self landmarks) Hs' Hrest).
    cbn [session].
    rewrite (surjective_pairing (analyzeExercise M self landmarks exercise)).
    rewrite analyzeExercise_self.
    destruct (session M (addToHistory self landmarks) calls) as [self' results].
    cbn [fst snd length] in *. destruct IH as (IH1 & IH2 & IH3).
    repeat split; [constructor; assumption | lia | assumption].
Qed.

(** C2 (totality).  Every call of a session that feeds a new analyzer
    well-formed 33-landmark frames, with any exercise strings, returns an
    assessment: none raises, whatever the identifier and however short the
    history. *)
Theorem analyze_returns_on_well_formed_frames
  (calls : list (list PoseLandmark * string)) :
  Forall (fun call => well_formed (fst call)) calls ->
  Forall returned (snd (session M newExerciseAnalyzer calls))
  /\ length (snd (session M newExerciseAnalyzer calls)) = length calls.
Proof.
  intros H.
  destruct (session_returns calls newExerciseAnalyzer) as (H1 & H2 & _);
    [constructor | exact H | auto].
Qed.

(** C3 (unknown-exercise fallback).  For an identifier that is none of
    squat, pushup, plank and lunge the call returns the fixed default
    assessment, whatever the analyzer and the frame. *)
Theorem unknown_exercise_returns_default
  (self : ExerciseAnalyzer) (landmarks : list PoseLandmark)
  (exercise : string) :
  ~ In exercise ["squat"; "pushup"; "plank"; "lunge"] ->
  snd (analyzeExercise M self landmarks exercise)
  = Some {| score := 75;
            criticalErrors := [];
            minorIssues := [];
            strengths := ["Exercise detected"];
            phase := "unknown";
            biomechanics :=
              {| jointAngles := [];
                 symmetry := 0.8;
                 stability := 0.7;
                 range := 0.8;
                 timing := 1.0 |} |}.
Proof.
  intros H.
  destruct (analyzeExercise_cases M self landmarks exercise)
    as [[-> E] | [[-> E] | [[-> E] | [[-> E] | [Hu E]]]]];
    try (exfalso; apply H; simpl; tauto).
  exact E.
Qed.

End Totality.

(** C2, witness: a session of four calls, one with an unknown identifier. *)
Lemma analyze_returns_on_well_formed_frames_witness :
  let calls :=
    [(Sample.squatFrame 0, "squat"); (Sample.plankFrame 0.32, "plank");
     (Sample.collapsedFrame, "tai chi"); (Sample.squatFrame 0.2, "lunge")] in
  Forall (fun call => well_formed (fst call)) calls
  /\ Forall returned (snd (session Sample.math newExerciseAnalyzer calls))
  /\ length (snd (session Sample.math newExerciseAnalyzer calls)) = length calls.
Proof.
  cbv zeta.
  assert (H : Forall (fun call => well_formed (fst call))
                [(Sample.squatFrame 0, "squat"); (Sample.plankFrame 0.32, "plank");
                 (Sample.collapsedFrame, "tai chi");
                 (Sample.squatFrame 0.2, "lunge")]).
  { repeat constructor. }
  split; [exact H|].
  exact (analyze_returns_on_well_formed_frames Sample.math _ H).
Defined.

(** C3, witness: the identifier "yoga". *)
Lemma unknown_exercise_returns_default_witness :
  ~ In "yoga" ["squat"; "pushup"; "plank"; "lunge"]
  /\ snd (analyzeExercise Sample.math newExerciseAnalyzer
            Sample.collapsedFrame "yoga")
     = Some {| score := 75;
               criticalErrors := [];
               minorIssues := [];
               strengths := ["Exercise detected"];
               phase := "unknown";
               biomechanics :=
                 {| jointAngles := [];
                    symmetry := 0.8;
                    stability := 0.7;
                    range := 0.8;
                    timing := 1.0 |} |}.
Proof.
  assert (H : ~ In "yoga" ["squat"; "pushup"; "plank"; "lunge"]).
  { simpl. intros [E | [E | [E | [E | []]]]]; discriminate E. }
  split; [exact H|].
  exact (unknown_exercise_returns_default Sample.math newExerciseAnalyzer
           Sample.collapsedFrame "yoga" H).
Defined.

(* ================================================================== *)
(** * What the routines return                                          *)
(* ================================================================== *)

Lemma assessment_phase (f : findings) (ph : string)
  (b : BiomechanicalAnalysis) : phase (assessment f ph b) = ph.
Proof. destruct f as [[c m] s]. reflexivity. Qed.

Lemma assessment_findings (c m s : list string) (ph : string)
  (b : BiomechanicalAnalysis) :
  criticalErrors (assessment (c, m, s) ph b) = c
  /\ minorIssues (assessment (c, m, s) ph b) = m
  /\ strengths (assessment (c, m, s) ph b) = s
  /\ score (assessment (c, m, s) ph b) = calculateFormScore c m s.
Proof. repeat split. Qed.

Section Inversion.
Variable M : MathImpl.

Lemma analyzeSquat_inv self landmarks r :
  analyzeSquat M self landmarks = Some r ->
  exists bio ph valgus backAngle depth,
    calculateSquatBiomechanics M self landmarks = Some bio
    /\ detectSquatPhase self landmarks = Some ph
    /\ analyzeKneeAlignment landmarks = Some valgus
    /\ calculateBackAngle M landmarks = Some backAngle
    /\ calculateSquatDepth landmarks = Some depth
    /\ r = assessment (squatFindings valgus backAngle depth (symmetry bio))
             ph bio.
Proof.
  unfold analyzeSquat. intros H. bind_inv H. injection H as <-.
  do 5 eexists. repeat split; reflexivity.
Qed.

Lemma analyzePushup_inv self landmarks r :
  analyzePushup M self landmarks = Some r ->
  exists bio ph f,
    detectPushupPhase self landmarks = Some ph /\ r = assessment f ph bio.
Proof.
  unfold analyzePushup. intros H. bind_inv H. injection H as <-.
  do 3 eexists. split; reflexivity.
Qed.

Lemma analyzePlank_inv self landmarks r :
  analyzePlank M self landmarks = Some r ->
  exists bio deviation height,
    calculatePlankBiomechanics M self landmarks = Some bio
    /\ analyzePlankAlignment landmarks = Some deviation
    /\ calculateHipPosition landmarks = Some height
    /\ r = assessment (plankFindings deviation height (stability bio))
             "hold" bio.
Proof.
  unfold analyzePlank. intros H. bind_inv H. injection H as <-.
  do 3 eexists. repeat split; reflexivity.
Qed.

Lemma analyzeLunge_inv self landmarks r :
  analyzeLunge M self landmarks = Some r ->
  exists bio ph f,
    detectLungePhase self landmarks = Some ph /\ r = assessment f ph bio.
Proof.
  unfold analyzeLunge. intros H. bind_inv H. injection H as <-.
  do 3 eexists. split; reflexivity.
Qed.

End Inversion.

(* ================================================================== *)
(** * The phase detector                                                *)
(* ================================================================== *)

Lemma short_history_starting (tracked : nat) (history : list (list PoseLandmark)) :
  (length history < 3)%nat -> specifiedPhase tracked history = Some "starting".
Proof.
  intros H. unfold specifiedPhase. rewrite <- length_rev in H.
  destruct (rev history) as [| a [| b [| c rest]]]; simpl in H;
    try reflexivity; lia.
Qed.

(** A history of at least three frames ends with its three newest. *)
Lemma long_history_ends (history : list (list PoseLandmark)) :
  (3 <= length history)%nat ->
  exists older oldest middle newest,
    history = older ++ [oldest; middle; newest]
    /\ rev history = newest :: middle :: oldest :: rev older.
Proof.
  intros H. rewrite <- length_rev in H.
  destruct (rev history) as [| a [| b [| c rest]]] eqn:E; simpl in H; try lia.
  exists (rev rest), c, b, a. split; [| now rewrite rev_involutive].
  rewrite <- (rev_involutive history), E. simpl.
  now rewrite <- !app_assoc.
Qed.

Lemma slice_last_3 {A : Type} (older : list A) (a b c : A) :
  slice_last 3 (older ++ [a; b; c]) = [a; b; c].
Proof.
  unfold slice_last. rewrite length_app. simpl length.
  replace (length older + 3 - 3)%nat with (length older + 0)%nat by lia.
  rewrite skipn_app, Nat.add_0_r, skipn_all.
  replace (length older - length older)%nat with 0%nat by lia.
  reflexivity.
Qed.

(** The detector of the code computes the phase the specification
    prescribes, on any well-formed history that already holds the current
    frame. *)
Lemma detectPhaseAt_specified (tracked : nat) (self : ExerciseAnalyzer)
  (landmarks : list PoseLandmark) :
  history_well_formed self -> well_formed landmarks -> (tracked < 33)%nat ->
  detectPhaseAt tracked self landmarks
  = specifiedPhase tracked (frameHistory self).
Proof.
  intros Hs Hl Ht. unfold detectPhaseAt.
  destruct (well_formed_at landmarks tracked Hl Ht) as [p ->]. cbn [bind].
  destruct (Nat.ltb_spec (length (frameHistory self)) 3) as [Hshort | Hlong].
  - symmetry. now apply short_history_starting.
  - destruct (long_history_ends _ Hlong) as (older & f0 & f1 & f2 & E & Er).
    unfold specifiedPhase. rewrite Er, E, slice_last_3.
    assert (Hin : forall f, In f [f0; f1; f2] ->
                       exists q, at_index f tracked = Some q).
    { intros f Hf. apply (history_read self Hs tracked f Ht).
      rewrite E. apply in_or_app. now right. }
    destruct (Hin f0 ltac:(simpl; auto)) as [q0 E0].
    destruct (Hin f1 ltac:(simpl; auto)) as [q1 E1].
    destruct (Hin f2 ltac:(simpl; auto)) as [q2 E2].
    cbn [mapM]. rewrite E0, E1, E2. cbn [bind].
    unfold num_at, phaseOfTrend. cbn [nth].
    repeat match goal with
           | |- context [if ?c then _ else _] => destruct c
           end; reflexivity.
Qed.

Section Phase.
Variable M : MathImpl.


End Phase.


(* ================================================================== *)
(** * The plank rules                                                   *)
(* ================================================================== *)

(** The deviation of the code is the deviation of the specification: the
    two differ in the order of one product. *)
Lemma analyzePlankAlignment_specified (landmarks : list PoseLandmark)
  (shoulder hip ankle : PoseLandmark) :
  at_index landmarks 11 = Some shoulder ->
  at_index landmarks 23 = Some hip ->
  at_index landmarks 27 = Some ankle ->
  analyzePlankAlignment landmarks
  = Some (specifiedDeviation shoulder hip ankle).
Proof.
  intros E1 E2 E3. unfold analyzePlankAlignment, specifiedDeviation.
  rewrite E1, E2, E3. cbn [bind].
  now rewrite (MathFacts.mul_comm (y ankle - y shoulder) 0.6).
Qed.

Lemma plankFindings_misalignment (deviation height stability : float)
  (bio : BiomechanicalAnalysis) :
  let r := assessment (plankFindings deviation height stability) "hold" bio in
  ((deviation >? 25)%float = true ->
   In "Significant spinal misalignment" (criticalErrors r))
  /\ ((deviation >? 25)%float = false ->
      ~ In "Significant spinal misalignment" (criticalErrors r)).
Proof.
  cbv zeta. unfold plankFindings.
  destruct (deviation >? 25)%float; destruct (deviation >? 15)%float;
    destruct (height <? 0.3)%float; destruct (height >? 0.7)%float;
    destruct (stability <? 0.7)%float; simpl; split; intros H; auto;
    try discriminate H;
    intros C; repeat destruct C as [C | C]; try discriminate C; auto.
Qed.

Section Plank.
Variable M : MathImpl.


End Plank.



(* ================================================================== *)
(** * The squat rules                                                   *)
(* ================================================================== *)

(** The back angle of a torso that is straight up. *)
Lemma calculateBackAngle_upright (M : MathImpl)
  (landmarks : list PoseLandmark) (shoulder hip : PoseLandmark) :
  at_index landmarks 11 = Some shoulder ->
  at_index landmarks 23 = Some hip ->
  is_finite (x shoulder) = true ->
  (x shoulder =? x hip)%float = true ->
  (y shoulder <? y hip)%float = true ->
  calculateBackAngle M landmarks = Some 90%float.
Proof.
  intros E1 E2 Hf Hx Hy. unfold calculateBackAngle.
  rewrite E1, E2. cbn [bind].
  rewrite (MathFacts.Math_atan2_negative_zero M _ _
             (FloatFacts.sub_negative _ _ Hy)
             (FloatFacts.sub_equal_zero _ _ Hf Hx)).
  reflexivity.
Qed.

Lemma squatFindings_forward_lean (valgus backAngle depth symmetry : float)
  (ph : string) (bio : BiomechanicalAnalysis) :
  (backAngle >? 45)%float = true ->
  In "Excessive forward lean - maintain upright torso"
     (criticalErrors
        (assessment (squatFindings valgus backAngle depth symmetry) ph bio)).
Proof.
  intros H. unfold squatFindings. rewrite H.
  destruct (valgus >? 15)%float; destruct (valgus >? 8)%float;
    destruct (depth <? 70)%float; destruct (symmetry <? 0.85)%float;
    simpl; auto.
Qed.

Section UprightTorso.
Variable M : MathImpl.

(** C10 (upright torso flagged as forward lean).  The back-angle measure of
    the squat is the absolute value, in degrees, of
    atan2(shoulder.y - hip.y, shoulder.x - hip.x) on landmarks 11 and 23:
    the angle of the torso from the horizontal axis.  For a frame whose
    torso is straight up (equal finite x, shoulder above hip) it is 90,
    which exceeds 45, and the squat call returns
    "Excessive forward lean - maintain upright torso" among its critical
    errors. *)
Theorem upright_torso_is_flagged_as_forward_lean
  (self : ExerciseAnalyzer) (landmarks : list PoseLandmark)
  (shoulder hip : PoseLandmark) :
  history_well_formed self -> well_formed landmarks ->
  at_index landmarks 11 = Some shoulder ->
  at_index landmarks 23 = Some hip ->
  is_finite (x shoulder) = true ->
  (x shoulder =? x hip)%float = true ->
  (y shoulder <? y hip)%float = true ->
  calculateBackAngle M landmarks
  = Some (Math_abs (Math_atan2 M (y shoulder - y hip) (x shoulder - x hip)
                    * (180 / PI)))%float
  /\ calculateBackAngle M landmarks = Some 90%float
  /\ (90 >? 45)%float = true
  /\ exists r,
       snd (analyzeExercise M self landmarks "squat") = Some r
       /\ In "Excessive forward lean - maintain upright torso"
            (criticalErrors r).
Proof.
  intros Hs Hl E1 E2 Hf Hx Hy.
  pose proof (calculateBackAngle_upright M landmarks shoulder hip
                E1 E2 Hf Hx Hy) as Hb.
  split; [unfold calculateBackAngle; now rewrite E1, E2|].
  split; [exact Hb|]. split; [reflexivity|].
  destruct (analyzeExercise_returns M self landmarks "squat" Hs Hl)
    as [[r Hr] _].
  exists r. split; [exact Hr|].
  assert (E : analyzeSquat M (addToHistory self landmarks) landmarks = Some r)
    by exact Hr.
  apply analyzeSquat_inv in E.
  destruct E as (bio & ph & v & ba & d & _ & _ & _ & Hba & _ & ->).
  rewrite Hb in Hba. injection Hba as <-.
  now apply squatFindings_forward_lean.
Qed.

End UprightTorso.

(** C10, witness: shoulders at (0.5, 0.3) straight above hips at (0.5, 0.6). *)
Lemma upright_torso_is_flagged_as_forward_lean_witness :
  let shoulder := Sample.point 0.5 0.3 in
  let hip := Sample.point 0.5 0.6 in
  (at_index Sample.uprightFrame 11 = Some shoulder
   /\ at_index Sample.uprightFrame 23 = Some hip
   /\ is_finite (x shoulder) = true
   /\ (x shoulder =? x hip)%float = true
   /\ (y shoulder <? y hip)%float = true)
  /\ calculateBackAngle Sample.math Sample.uprightFrame
     = Some (Math_abs (Math_atan2 Sample.math (y shoulder - y hip)
                         (x shoulder - x hip) * (180 / PI)))%float
  /\ calculateBackAngle Sample.math Sample.uprightFrame = Some 90%float
  /\ (90 >? 45)%float = true
  /\ exists r,
       snd (analyzeExercise Sample.math newExerciseAnalyzer
              Sample.uprightFrame "squat") = Some r
       /\ In "Excessive forward lean - maintain upright torso"
            (criticalErrors r).
Proof.
  cbv zeta. split; [repeat split|].
  apply (upright_torso_is_flagged_as_forward_lean Sample.math
           newExerciseAnalyzer Sample.uprightFrame
           (Sample.point 0.5 0.3) (Sample.point 0.5 0.6));
    solve [constructor | reflexivity].
Defined.

(** ** Knee valgus *)

(** The valgus of the code (the larger of the two offsets, each times 100)
    exceeds 15 whenever the valgus of the specification (the larger offset,
    times 100) does. *)
Lemma valgus_above_15 (a b : float) :
  (Math_max [a; b] * 100 >? 15)%float = true ->
  (Math_max [a * 100; b * 100] >? 15)%float = true.
Proof.
  intros H.
  assert (Hm : is_nan (Math_max [a; b]) = false).
  { destruct (is_nan (Math_max [a; b])) eqn:E; [| reflexivity].
    pose proof (FloatFacts.ltb_not_nan_r _ _ H) as N.
    rewrite (FloatFacts.nan_mul_l _ 100 E) in N. discriminate N. }
  destruct (MathFacts.Math_max_pair_nan a b Hm) as [Ha Hb].
  apply MathFacts.Math_max_pair_above;
    try (apply FloatFacts.mul_100_not_nan; assumption).
  destruct (MathFacts.Math_max_pair_cases a b Ha Hb) as [E | [E | E]];
    rewrite E in H; [now left | now right | discriminate H].
Qed.

Lemma analyzeKneeAlignment_specified (landmarks : list PoseLandmark)
  (leftKnee rightKnee leftAnkle rightAnkle : PoseLandmark) (valgus : float) :
  at_index landmarks 25 = Some leftKnee ->
  at_index landmarks 26 = Some rightKnee ->
  at_index landmarks 27 = Some leftAnkle ->
  at_index landmarks 28 = Some rightAnkle ->
  analyzeKneeAlignment landmarks = Some valgus ->
  (specifiedValgus leftKnee rightKnee leftAnkle rightAnkle >? 15)%float = true ->
  (valgus >? 15)%float = true.
Proof.
  intros E1 E2 E3 E4 Hv H. unfold analyzeKneeAlignment in Hv.
  rewrite E1, E2, E3, E4 in Hv. cbn [bind] in Hv. injection Hv as <-.
  now apply valgus_above_15.
Qed.

(** The other three measures of the squat read heights, and the x
    coordinates of the shoulder and the hip only. *)
Section OtherwiseIdentical.
Variable M : MathImpl.
Variables a b : list PoseLandmark.
Hypothesis Ha : well_formed a.
Hypothesis Hb : well_formed b.
Hypothesis Hab : same_but_knee_ankle_x a b.

(** Reads landmark [i] of both frames and records what they share. *)
Ltac read_both i :=
  let pa := fresh "pa" in
  let pb := fresh "pb" in
  let Ea := fresh "Ea" in
  let Eb := fresh "Eb" in
  let Hy := fresh "Hy" in
  let Hx := fresh "Hx" in
  destruct (well_formed_at a i Ha ltac:(lia)) as [pa Ea];
  destruct (well_formed_at b i Hb ltac:(lia)) as [pb Eb];
  destruct (Hab i pa pb Ea Eb) as (Hy & _ & _ & Hx);
  rewrite Ea, Eb; cbn [bind]; rewrite ?Hy.

Lemma same_calculateBackAngle :
  calculateBackAngle M a = calculateBackAngle M b.
Proof.
  unfold calculateBackAngle.
  read_both 11%nat. rewrite (Hx ltac:(lia)).
  read_both 23%nat. rewrite (Hx0 ltac:(lia)).
  reflexivity.
Qed.

Lemma same_calculateSquatDepth :
  calculateSquatDepth a = calculateSquatDepth b.
Proof.
  unfold calculateSquatDepth. read_both 23%nat. read_both 25%nat. reflexivity.
Qed.

Lemma same_calculateBilateralSymmetry :
  calculateBilateralSymmetry a = calculateBilateralSymmetry b.
Proof.
  unfold calculateBilateralSymmetry. cbn [map combine].
  read_both 11%nat. read_both 12%nat. read_both 13%nat. read_both 14%nat.
  read_both 15%nat. read_both 16%nat. read_both 23%nat. read_both 24%nat.
  read_both 25%nat. read_both 26%nat. read_both 27%nat. read_both 28%nat.
  cbn [reduce bind fst snd]. rewrite ?Hy, ?Hy0, ?Hy1, ?Hy2, ?Hy3, ?Hy4, ?Hy5,
    ?Hy6, ?Hy7, ?Hy8, ?Hy9, ?Hy10.
  reflexivity.
Qed.

End OtherwiseIdentical.

Lemma calculateSquatBiomechanics_symmetry (M : MathImpl)
  (self : ExerciseAnalyzer) (landmarks : list PoseLandmark)
  (bio : BiomechanicalAnalysis) :
  calculateSquatBiomechanics M self landmarks = Some bio ->
  calculateBilateralSymmetry landmarks = Some (symmetry bio).
Proof.
  unfold calculateSquatBiomechanics. intros H. bind_inv H.
  injection H as <-. reflexivity.
Qed.

(** The scores of two squat assessments that differ in the knee finding
    only: critical in the first, the strength in the second. *)
Lemma squatFindings_valgus_scores (v1 v2 backAngle depth symmetry : float)
  (ph1 ph2 : string) (bio1 bio2 : BiomechanicalAnalysis) :
  let bad := assessment (squatFindings v1 backAngle depth symmetry) ph1 bio1 in
  let good := assessment (squatFindings v2 backAngle depth symmetry) ph2 bio2 in
  (v1 >? 15)%float = true ->
  In "Good knee alignment" (strengths good) ->
  In "Knees caving inward - risk of injury" (criticalErrors bad)
  /\ (score bad + 10 <= score good)%Z
  /\ (criticalErrors good <> [] \/ minorIssues good <> [] ->
      (score bad + 25 <= score good)%Z)
  /\ (score good < 100 -> score bad + 30 = score good)%Z.
Proof.
  cbv zeta. intros H1. unfold squatFindings. rewrite H1. cbv beta zeta.
  assert (N1 : "Good torso position" <> "Good knee alignment") by discriminate.
  assert (N2 : "Good squat depth" <> "Good knee alignment") by discriminate.
  assert (N3 : "Good bilateral symmetry" <> "Good knee alignment")
    by discriminate.
  revert N1 N2 N3.
  (* the case analysis needs the messages only up to these three facts *)
  generalize (v2 >? 15)%float, (v2 >? 8)%float, (backAngle >? 45)%float,
    (backAngle >? 30)%float, (depth <? 70)%float, (symmetry <? 0.85)%float.
  generalize "Good knee alignment", "Good torso position", "Good squat depth",
    "Good bilateral symmetry", "Knees caving inward - risk of injury",
    "Slight knee valgus - focus on external rotation",
    "Excessive forward lean - maintain upright torso",
    "Slight forward lean - engage core more",
    "Increase squat depth for full range of motion",
    "Slight asymmetry detected - check balance".
  intros k t d y c1 m1 c2 m2 m3 m4 b1 b2 b3 b4 b5 b6 N1 N2 N3.
  destruct b1, b2, b3, b4, b5, b6;
    cbn [assessment pushCritical pushMinor pushStrength app score
         criticalErrors minorIssues strengths In];
    unfold calculateFormScore; cbn [length]; intros H2;
    try (exfalso; repeat destruct H2 as [H2 | H2]; congruence);
    (split; [auto|]); (split; [lia|]); (split; [| lia]);
    intros [C | C]; try lia; exfalso; apply C; reflexivity.
Qed.

Section KneeValgus.
Variable M : MathImpl.


End KneeValgus.

(** Two sample frames built from index functions that agree except on the
    knee and ankle x coordinates. *)
Lemma frameOf_same_but (f g : nat -> PoseLandmark) :
  (forall i, (i < 33)%nat ->
     y (f i) = y (g i) /\ z (f i) = z (g i)
     /\ visibility (f i) = visibility (g i)
     /\ ((i < 25 \/ 28 < i)%nat -> x (f i) = x (g i))) ->
  same_but_knee_ankle_x (Sample.frameOf f) (Sample.frameOf g).
Proof.
  intros H i pa pb Ea Eb. unfold at_index, Sample.frameOf in Ea, Eb.
  assert (Hi : (i < 33)%nat).
  { assert (Hsome : nth_error (map f (seq 0 33)) i <> None) by congruence.
    apply nth_error_Some in Hsome. now rewrite length_map, length_seq in Hsome. }
  rewrite nth_error_map in Ea, Eb.
  assert (Es : nth_error (seq 0 33) i = Some i).
  { rewrite (nth_error_nth' _ 0%nat) by (rewrite length_seq; exact Hi).
    now rewrite seq_nth. }
  rewrite Es in Ea, Eb. simpl in Ea, Eb.
  injection Ea as <-. injection Eb as <-. now apply H.
Qed.

Lemma squatFrames_same_but (offset offset' : float) :
  same_but_knee_ankle_x (Sample.squatFrame offset) (Sample.squatFrame offset').
Proof.
  apply frameOf_same_but. intros i Hi.
  do 33 (destruct i as [| i]; [repeat split; intros; try reflexivity; lia |]).
  lia.
Qed.



(* ================================================================== *)
(** * The angle at a vertex                                             *)
(* ================================================================== *)

(** C5 (angle guard): what the code does on coincident points.  With the
    three points equal, both rays have length zero, the cosine is 0/0 = NaN,
    [Math.min] and [Math.max] pass the NaN on, and the angle is NaN; a call
    on a frame whose landmarks coincide returns NaN joint angles. *)
Theorem calculateAngle_of_coincident_points_is_nan (M : MathImpl) :
  calculateAngle M (Sample.point 0.5 0.5) (Sample.point 0.5 0.5)
    (Sample.point 0.5 0.5) = nan
  /\ Math_max [(-1)%float; Math_min [1%float; (0 / 0)%float]] = nan
  /\ option_map (fun r => jointAngles (biomechanics r))
       (snd (analyzeExercise M newExerciseAnalyzer Sample.collapsedFrame
               "squat"))
     = Some [("hip", nan); ("knee", nan); ("ankle", nan)].
Proof. repeat split. Qed.

(** The same for any vertex: when the first point has the finite coordinates
    of the vertex, the angle is NaN whatever the third point is. *)
Lemma calculateAngle_zero_ray_is_nan (M : MathImpl) (p1 p2 p3 : PoseLandmark) :
  is_finite (x p1) = true -> is_finite (y p1) = true ->
  (x p1 =? x p2)%float = true -> (y p1 =? y p2)%float = true ->
  calculateAngle M p1 p2 p3 = nan.
Proof.
  intros Fx Fy Ex Ey. unfold calculateAngle. cbv zeta.
  pose proof (FloatFacts.sub_equal_zero _ _ Fx Ex) as Zx.
  pose proof (FloatFacts.sub_equal_zero _ _ Fy Ey) as Zy.
  set (v1x := (x p1 - x p2)%float) in *.
  set (v1y := (y p1 - y p2)%float) in *.
  set (v2x := (x p3 - x p2)%float).
  set (v2y := (y p3 - y p2)%float).
  assert (Hdot : zero_or_nan (v1x * v2x + v1y * v2y)%float).
  { apply FloatFacts.add_zero_or_nan; now apply FloatFacts.mul_zero_any. }
  assert (Hmag : is_zero (Math_sqrt (v1x * v1x + v1y * v1y))%float = true).
  { apply FloatFacts.sqrt_zero.
    apply FloatFacts.add_zero_zero; now apply FloatFacts.mul_zero_zero. }
  rewrite (FloatFacts.div_zero_or_nan _ _ Hdot
             (FloatFacts.mul_zero_any _ _ Hmag)).
  reflexivity.
Qed.

(** A sample of it: the vertex and the first point at (0.5, 0.5), the third
    point elsewhere. *)
Lemma calculateAngle_zero_ray_is_nan_witness :
  calculateAngle Sample.math (Sample.point 0.5 0.5) (Sample.point 0.5 0.5)
    (Sample.point 0.25 0.75) = nan.
Proof.
  apply (calculateAngle_zero_ray_is_nan Sample.math); reflexivity.
Defined.

(* ================================================================== *)
(** * Further properties of the analyzer                                *)
(* ================================================================== *)

(** Replaces the message literals of the goal by variables: the counts and
    the score of an assessment do not depend on what the messages say. *)
Ltac abstract_messages :=
  repeat match goal with
         | |- context [String ?a ?s] =>
             let msg := fresh "msg" in generalize (String a s); intro msg
         end.

(** Case analysis on every comparison of a findings function. *)
Ltac findings_cases :=
  abstract_messages;
  repeat match goal with
         | |- context [if ?c then _ else _] => destruct c
         end;
  cbn [assessment pushCritical pushMinor pushStrength app score
       criticalErrors minorIssues strengths length Nat.add];
  unfold calculateFormScore; cbn [length].

Lemma squatFindings_range (valgus backAngle depth symmetry : float)
  (ph : string) (bio : BiomechanicalAnalysis) :
  let r := assessment (squatFindings valgus backAngle depth symmetry) ph bio in
  totalFindings r = 4%nat
  /\ (length (criticalErrors r) <= 2)%nat
  /\ (30 <= score r)%Z.
Proof.
  cbv zeta. unfold totalFindings, squatFindings. findings_cases.
  all: repeat split; lia.
Qed.

Lemma pushupFindings_range (hipSag elbowAngle rom : float)
  (ph : string) (bio : BiomechanicalAnalysis) :
  let r := assessment (pushupFindings hipSag elbowAngle rom) ph bio in
  totalFindings r = 3%nat
  /\ (length (criticalErrors r) <= 1)%nat
  /\ (55 <= score r)%Z.
Proof.
  cbv zeta. unfold totalFindings, pushupFindings. findings_cases.
  all: repeat split; lia.
Qed.

Lemma plankFindings_range (deviation height stability : float)
  (ph : string) (bio : BiomechanicalAnalysis) :
  let r := assessment (plankFindings deviation height stability) ph bio in
  totalFindings r = 3%nat
  /\ (length (criticalErrors r) <= 2)%nat
  /\ (40 <= score r)%Z.
Proof.
  cbv zeta. unfold totalFindings, plankFindings. findings_cases.
  all: repeat split; lia.
Qed.

Lemma lungeFindings_range (overAnkle torsoLean stability : float)
  (ph : string) (bio : BiomechanicalAnalysis) :
  let r := assessment (lungeFindings overAnkle torsoLean stability) ph bio in
  totalFindings r = 3%nat
  /\ (length (criticalErrors r) <= 1)%nat
  /\ (55 <= score r)%Z.
Proof.
  cbv zeta. unfold totalFindings, lungeFindings. findings_cases.
  all: repeat split; lia.
Qed.

Section FullInversion.
Variable M : MathImpl.

Lemma analyzePushup_full self landmarks r :
  analyzePushup M self landmarks = Some r ->
  exists bio ph hipSag elbowAngle rom,
    calculatePushupBiomechanics M self landmarks = Some bio
    /\ detectPushupPhase self landmarks = Some ph
    /\ analyzePushupAlignment landmarks = Some hipSag
    /\ calculateElbowAngle M landmarks = Some elbowAngle
    /\ calculatePushupROM self landmarks = Some rom
    /\ r = assessment (pushupFindings hipSag elbowAngle rom) ph bio.
Proof.
  unfold analyzePushup. intros H. bind_inv H. injection H as <-.
  do 5 eexists. repeat split; reflexivity.
Qed.

Lemma analyzeLunge_full self landmarks r :
  analyzeLunge M self landmarks = Some r ->
  exists bio ph overAnkle torsoLean,
    calculateLungeBiomechanics M self landmarks = Some bio
    /\ detectLungePhase self landmarks = Some ph
    /\ analyzeFrontKneeAlignment landmarks = Some overAnkle
    /\ calculateTorsoLean M landmarks = Some torsoLean
    /\ r = assessment (lungeFindings overAnkle torsoLean (stability bio))
             ph bio.
Proof.
  unfold analyzeLunge. intros H. bind_inv H. injection H as <-.
  do 4 eexists. repeat split; reflexivity.
Qed.

(** The stability every biomechanics summary carries is the one
    [calculateStability] returns. *)
Lemma biomechanics_stability self landmarks bio :
  calculateSquatBiomechanics M self landmarks = Some bio
  \/ calculatePushupBiomechanics M self landmarks = Some bio
  \/ calculatePlankBiomechanics M self landmarks = Some bio
  \/ calculateLungeBiomechanics M self landmarks = Some bio ->
  calculateStability M self landmarks = Some (stability bio).
Proof.
  unfold calculateSquatBiomechanics, calculatePushupBiomechanics,
    calculatePlankBiomechanics, calculateLungeBiomechanics,
    calculateCoreStability, calculatePlankStability,
    calculateSingleLegStability.
  intros [H | [H | [H | H]]]; bind_inv H; injection H as <-; reflexivity.
Qed.

Lemma calculatePushupBiomechanics_range self landmarks bio :
  calculatePushupBiomechanics M self landmarks = Some bio ->
  exists rom,
    calculatePushupROM self landmarks = Some rom
    /\ range bio = (rom / 100)%float.
Proof.
  unfold calculatePushupBiomechanics. intros H. bind_inv H.
  injection H as <-. eauto.
Qed.

(** What each routine returns: how many findings, how many of them
    critical at most, and how low the score can be. *)
Lemma routine_ranges self landmarks exercise r :
  snd (analyzeExercise M self landmarks exercise) = Some r ->
  totalFindings r = gradedMeasures exercise
  /\ (length (criticalErrors r) <= mostCriticalErrors exercise)%nat
  /\ (lowestScore exercise <= score r)%Z.
Proof.
  intros Hr.
  destruct (analyzeExercise_cases M self landmarks exercise)
    as [[-> E] | [[-> E] | [[-> E] | [[-> E] | [Hu E]]]]];
    rewrite Hr in E; symmetry in E.
  - apply analyzeSquat_inv in E.
    destruct E as (bio & ph & v & ba & d & _ & _ & _ & _ & _ & ->).
    apply squatFindings_range.
  - apply analyzePushup_full in E.
    destruct E as (bio & ph & h & e & rom & _ & _ & _ & _ & _ & ->).
    apply pushupFindings_range.
  - apply analyzePlank_inv in E.
    destruct E as (bio & dev & h & _ & _ & _ & ->).
    apply plankFindings_range.
  - apply analyzeLunge_full in E.
    destruct E as (bio & ph & o & t & _ & _ & _ & _ & ->).
    apply lungeFindings_range.
  - injection E as <-.
    unfold gradedMeasures, mostCriticalErrors, lowestScore.
    assert (Hs : (exercise =? "squat")%string = false
                 /\ (exercise =? "plank")%string = false).
    { unfold supported in Hu.
      destruct (exercise =? "squat")%string; [discriminate|].
      destruct (exercise =? "pushup")%string; [discriminate|].
      destruct (exercise =? "plank")%string; [discriminate|]. auto. }
    destruct Hs as [-> ->]. rewrite Hu. simpl. repeat split; lia.
Qed.

(** X2 (one finding per graded measure).  A call with well-formed frames
    returns exactly one finding for every measure its routine grades: four
    findings in all for the squat, three for pushup, plank and lunge, and
    the single fixed strength for any other identifier.  Of these at most
    two are critical errors for squat and plank, at most one for pushup and
    lunge, and none otherwise. *)
Theorem one_finding_per_graded_measure
  (self : ExerciseAnalyzer) (landmarks : list PoseLandmark)
  (exercise : string) :
  history_well_formed self -> well_formed landmarks ->
  exists r,
    snd (analyzeExercise M self landmarks exercise) = Some r
    /\ totalFindings r = gradedMeasures exercise
    /\ (length (criticalErrors r) <= mostCriticalErrors exercise)%nat.
Proof.
  intros Hs Hl.
  destruct (analyzeExercise_returns M self landmarks exercise Hs Hl)
    as [[r Hr] _].
  exists r. split; [exact Hr|].
  destruct (routine_ranges self landmarks exercise r Hr) as (H1 & H2 & _).
  auto.
Qed.

(** X3 (the score never reaches the floor of the clamp).  A call with
    well-formed frames returns a score of at least 30 for the squat, 40 for
    the plank, 55 for pushup and lunge and 75 otherwise: with one finding
    per measure the worst total stays positive, so the clamp at 0 of the
    scoring policy is never in play. *)
Theorem score_stays_above_the_floor
  (self : ExerciseAnalyzer) (landmarks : list PoseLandmark)
  (exercise : string) :
  history_well_formed self -> well_formed landmarks ->
  exists r,
    snd (analyzeExercise M self landmarks exercise) = Some r
    /\ (lowestScore exercise <= score r)%Z
    /\ (30 <= score r)%Z.
Proof.
  intros Hs Hl.
  destruct (analyzeExercise_returns M self landmarks exercise Hs Hl)
    as [[r Hr] _].
  exists r. split; [exact Hr|].
  destruct (routine_ranges self landmarks exercise r Hr) as (_ & _ & H3).
  split; [exact H3|].
  assert (30 <= lowestScore exercise)%Z; [| lia].
  unfold lowestScore.
  destruct (exercise =? "squat")%string; [lia|].
  destruct (exercise =? "plank")%string; [lia|].
  destruct (supported exercise); lia.
Qed.

End FullInversion.

(** X2, witness: a plank call on a new analyzer. *)
Lemma one_finding_per_graded_measure_witness :
  history_well_formed newExerciseAnalyzer
  /\ well_formed (Sample.plankFrame 0.4)
  /\ exists r,
       snd (analyzeExercise Sample.math newExerciseAnalyzer
              (Sample.plankFrame 0.4) "plank") = Some r
       /\ totalFindings r = gradedMeasures "plank"
       /\ (length (criticalErrors r) <= mostCriticalErrors "plank")%nat.
Proof.
  split; [constructor|]. split; [reflexivity|].
  apply (one_finding_per_graded_measure Sample.math newExerciseAnalyzer
           (Sample.plankFrame 0.4) "plank"); [constructor | reflexivity].
Defined.

(** X3, witness: a squat call on a new analyzer. *)
Lemma score_stays_above_the_floor_witness :
  history_well_formed newExerciseAnalyzer
  /\ well_formed Sample.uprightFrame
  /\ exists r,
       snd (analyzeExercise Sample.math newExerciseAnalyzer
              Sample.uprightFrame "squat") = Some r
       /\ (lowestScore "squat" <= score r)%Z
       /\ (30 <= score r)%Z.
Proof.
  split; [constructor|]. split; [reflexivity|].
  apply (score_stays_above_the_floor Sample.math newExerciseAnalyzer
           Sample.uprightFrame "squat"); [constructor | reflexivity].
Defined.

(** ** The first frames of a session *)

Lemma assessment_biomechanics (f : findings) (ph : string)
  (bio : BiomechanicalAnalysis) : biomechanics (assessment f ph bio) = bio.
Proof. destruct f as [[c m] s]. reflexivity. Qed.

Lemma addToHistory_length (self : ExerciseAnalyzer)
  (landmarks : list PoseLandmark) :
  length (frameHistory (addToHistory self landmarks))
  = if (30 <=? length (frameHistory self))%nat
    then length (frameHistory self)
    else S (length (frameHistory self)).
Proof.
  rewrite addToHistory_history. cbv zeta.
  assert (Hlen : length (frameHistory self ++ [landmarks])
                 = S (length (frameHistory self))).
  { rewrite length_app. simpl. lia. }
  unfold maxHistoryFrames. rewrite Hlen.
  destruct (Nat.ltb_spec 30 (S (length (frameHistory self))));
    destruct (Nat.leb_spec 30 (length (frameHistory self))); try lia.
  destruct (frameHistory self ++ [landmarks]); simpl in *; lia.
Qed.

Lemma plankFindings_unstable (deviation height stability : float)
  (ph : string) (bio : BiomechanicalAnalysis) :
  (stability <? 0.7)%float = true ->
  In "Work on stability - reduce trembling"
     (minorIssues (assessment (plankFindings deviation height stability) ph bio)).
Proof.
  intros H. unfold plankFindings. rewrite H.
  destruct (deviation >? 25)%float; destruct (deviation >? 15)%float;
    destruct (height <? 0.3)%float; destruct (height >? 0.7)%float;
    simpl; auto.
Qed.

Lemma lungeFindings_unstable (overAnkle torsoLean stability : float)
  (ph : string) (bio : BiomechanicalAnalysis) :
  (stability <? 0.6)%float = true ->
  In "Work on balance - engage core"
     (minorIssues (assessment (lungeFindings overAnkle torsoLean stability) ph bio)).
Proof.
  intros H. unfold lungeFindings. rewrite H.
  destruct (overAnkle >? 20)%float; destruct (overAnkle >? 10)%float;
    destruct (torsoLean >? 20)%float; simpl; auto.
Qed.

Lemma pushupFindings_short_range (hipSag elbowAngle rom : float)
  (ph : string) (bio : BiomechanicalAnalysis) :
  (rom <? 60)%float = true ->
  In "Increase range of motion - lower chest closer to ground"
     (minorIssues (assessment (pushupFindings hipSag elbowAngle rom) ph bio)).
Proof.
  intros H. unfold pushupFindings. rewrite H.
  destruct (hipSag >? 20)%float; destruct (hipSag >? 10)%float;
    destruct (elbowAngle >? 90)%float; simpl; auto.
Qed.

Section FirstFrames.
Variable M : MathImpl.

(** X4 (stability before five frames).  While the history, the current frame
    included, holds fewer than five frames, every supported routine reports
    the neutral stability 0.5; since 0.5 is below both thresholds, a plank
    call then always carries "Work on stability - reduce trembling" and a
    lunge call "Work on balance - engage core" among its minor issues,
    whatever the pose. *)
Theorem stability_is_neutral_before_five_frames
  (self : ExerciseAnalyzer) (landmarks : list PoseLandmark)
  (exercise : string) :
  history_well_formed self -> well_formed landmarks ->
  (length (frameHistory self) < 4)%nat ->
  supported exercise = true ->
  exists r,
    snd (analyzeExercise M self landmarks exercise) = Some r
    /\ stability (biomechanics r) = 0.5%float
    /\ (exercise = "plank" ->
        In "Work on stability - reduce trembling" (minorIssues r))
    /\ (exercise = "lunge" ->
        In "Work on balance - engage core" (minorIssues r)).
Proof.
  intros Hs Hl Hshort Hsup.
  destruct (analyzeExercise_returns M self landmarks exercise Hs Hl)
    as [[r Hr] _].
  exists r. split; [exact Hr|].
  assert (Hstab : forall bio,
             calculateStability M (addToHistory self landmarks) landmarks
             = Some (stability bio) -> stability bio = 0.5%float).
  { intros bio. unfold calculateStability.
    rewrite addToHistory_length.
    destruct (Nat.leb_spec 30 (length (frameHistory self))); [lia|].
    destruct (Nat.ltb_spec (S (length (frameHistory self))) 5); [| lia].
    intros E. now injection E. }
  destruct (analyzeExercise_cases M self landmarks exercise)
    as [[-> E] | [[-> E] | [[-> E] | [[-> E] | [Hu E]]]]];
    try (rewrite Hsup in Hu; discriminate Hu);
    rewrite Hr in E; symmetry in E.
  - apply analyzeSquat_inv in E.
    destruct E as (bio & ph & v & ba & d & Hb & _ & _ & _ & _ & ->).
    rewrite assessment_biomechanics.
    split; [apply Hstab, biomechanics_stability; auto|].
    split; discriminate.
  - apply analyzePushup_full in E.
    destruct E as (bio & ph & h & e & rom & Hb & _ & _ & _ & _ & ->).
    rewrite assessment_biomechanics.
    split; [apply Hstab, biomechanics_stability; auto|].
    split; discriminate.
  - apply analyzePlank_inv in E.
    destruct E as (bio & dev & h & Hb & _ & _ & ->).
    rewrite assessment_biomechanics.
    assert (E5 : stability bio = 0.5%float)
      by (apply Hstab, biomechanics_stability; auto).
    split; [exact E5|]. split; [| discriminate].
    intros _. apply plankFindings_unstable. now rewrite E5.
  - apply analyzeLunge_full in E.
    destruct E as (bio & ph & o & t & Hb & _ & _ & _ & ->).
    rewrite assessment_biomechanics.
    assert (E5 : stability bio = 0.5%float)
      by (apply Hstab, biomechanics_stability; auto 6).
    split; [exact E5|]. split; [discriminate|].
    intros _. apply lungeFindings_unstable. now rewrite E5.
Qed.

(** X5 (push-up range before ten frames).  While the history, the current
    frame included, holds fewer than ten frames, a push-up call reports the
    placeholder range of motion 50 (range 0.5), which is below the
    threshold 60: the call always carries "Increase range of motion - lower
    chest closer to ground" among its minor issues, whatever the pose. *)
Theorem pushup_range_is_placeholder_before_ten_frames
  (self : ExerciseAnalyzer) (landmarks : list PoseLandmark) :
  history_well_formed self -> well_formed landmarks ->
  (length (frameHistory self) < 9)%nat ->
  exists r,
    snd (analyzeExercise M self landmarks "pushup") = Some r
    /\ range (biomechanics r) = 0.5%float
    /\ In "Increase range of motion - lower chest closer to ground"
          (minorIssues r).
Proof.
  intros Hs Hl Hshort.
  destruct (analyzeExercise_returns M self landmarks "pushup" Hs Hl)
    as [[r Hr] _].
  exists r. split; [exact Hr|].
  assert (E : analyzePushup M (addToHistory self landmarks) landmarks = Some r)
    by exact Hr.
  apply analyzePushup_full in E.
  destruct E as (bio & ph & h & e & rom & Hb & _ & _ & _ & Hrom & ->).
  assert (E50 : rom = 50%float).
  { unfold calculatePushupROM in Hrom. rewrite addToHistory_length in Hrom.
    destruct (Nat.leb_spec 30 (length (frameHistory self))); [lia|].
    destruct (Nat.ltb_spec (S (length (frameHistory self))) 10); [| lia].
    now injection Hrom. }
  subst rom.
  apply calculatePushupBiomechanics_range in Hb.
  destruct Hb as (rom' & Hrom' & Hrange).
  rewrite Hrom in Hrom'. injection Hrom' as <-.
  rewrite assessment_biomechanics.
  split; [rewrite Hrange; reflexivity|].
  now apply pushupFindings_short_range.
Qed.

End FirstFrames.

(** X4, witness: the first plank call on a new analyzer. *)
Lemma stability_is_neutral_before_five_frames_witness :
  history_well_formed newExerciseAnalyzer
  /\ well_formed (Sample.plankFrame 0.4)
  /\ (length (frameHistory newExerciseAnalyzer) < 4)%nat
  /\ supported "plank" = true
  /\ exists r,
       snd (analyzeExercise Sample.math newExerciseAnalyzer
              (Sample.plankFrame 0.4) "plank") = Some r
       /\ stability (biomechanics r) = 0.5%float
       /\ ("plank" = "plank" ->
           In "Work on stability - reduce trembling" (minorIssues r))
       /\ ("plank" = "lunge" ->
           In "Work on balance - engage core" (minorIssues r)).
Proof.
  split; [constructor|]. split; [reflexivity|].
  split; [simpl; lia|]. split; [reflexivity|].
  apply (stability_is_neutral_before_five_frames Sample.math
           newExerciseAnalyzer (Sample.plankFrame 0.4) "plank");
    [constructor | reflexivity | simpl; lia | reflexivity].
Defined.

(** X5, witness: the first push-up call on a new analyzer. *)
Lemma pushup_range_is_placeholder_before_ten_frames_witness :
  history_well_formed newExerciseAnalyzer
  /\ well_formed (Sample.plankFrame 0.12)
  /\ (length (frameHistory newExerciseAnalyzer) < 9)%nat
  /\ exists r,
       snd (analyzeExercise Sample.math newExerciseAnalyzer
              (Sample.plankFrame 0.12) "pushup") = Some r
       /\ range (biomechanics r) = 0.5%float
       /\ In "Increase range of motion - lower chest closer to ground"
             (minorIssues r).
Proof.
  split; [constructor|]. split; [reflexivity|]. split; [simpl; lia|].
  apply (pushup_range_is_placeholder_before_ten_frames Sample.math
           newExerciseAnalyzer (Sample.plankFrame 0.12));
    [constructor | reflexivity | simpl; lia].
Defined.

(** ** Upright, level and stationary poses *)

Lemma abs_zero (a : float) : is_zero a = true -> abs a = 0%float.
Proof.
  intros [s H]%FloatFacts.is_zero_Prim2SF.
  apply Prim2SF_inj. rewrite FloatAxioms.abs_spec, H. reflexivity.
Qed.

Lemma zero_is_signed (a : float) :
  is_zero a = true -> is_pos_zero a = true \/ is_neg_zero a = true.
Proof.
  unfold is_pos_zero, is_neg_zero. intros ->.
  destruct (get_sign a); simpl; auto.
Qed.

(** [Math.atan2(y, x)] for a zero [y] and a negative [x]: pi or -pi. *)
Lemma Math_atan2_zero_negative (M : MathImpl) (ny nx : float) :
  is_zero ny = true -> (nx <? 0)%float = true ->
  Math_atan2 M ny nx = 0x1.921fb54442d18p+1%float
  \/ Math_atan2 M ny nx = (-0x1.921fb54442d18p+1)%float.
Proof.
  intros Hy Hx.
  destruct (MathFacts.zero_facts _ Hy) as (Yn & Yi & Ym).
  destruct (MathFacts.negative_facts _ Hx) as (Xn & _ & Xz & Xp).
  unfold Math_atan2. rewrite Yn, Xn, Yi, Ym. cbn [orb].
  assert (Xpz : is_pos_zero nx = false)
    by (unfold is_pos_zero; now rewrite Xz).
  rewrite Xp, Xpz. cbn [orb].
  destruct (zero_is_signed _ Hy) as [H | H]; rewrite H; [now left|].
  destruct (is_pos_zero ny); [now left | now right].
Qed.

(** The torso lean of a torso that is straight up. *)
Lemma calculateTorsoLean_upright (M : MathImpl)
  (landmarks : list PoseLandmark) (shoulder hip : PoseLandmark) :
  at_index landmarks 11 = Some shoulder ->
  at_index landmarks 23 = Some hip ->
  is_finite (x shoulder) = true ->
  (x shoulder =? x hip)%float = true ->
  (y shoulder <? y hip)%float = true ->
  calculateTorsoLean M landmarks = Some 180%float.
Proof.
  intros E1 E2 Hf Hx Hy. unfold calculateTorsoLean.
  rewrite E1, E2. cbn [bind].
  destruct (Math_atan2_zero_negative M _ _
              (FloatFacts.sub_equal_zero _ _ Hf Hx)
              (FloatFacts.sub_negative _ _ Hy)) as [-> | ->];
    reflexivity.
Qed.

Lemma lungeFindings_forward_lean (overAnkle torsoLean stability : float)
  (ph : string) (bio : BiomechanicalAnalysis) :
  (torsoLean >? 20)%float = true ->
  In "Excessive forward lean - keep torso upright"
     (minorIssues (assessment (lungeFindings overAnkle torsoLean stability) ph bio)).
Proof.
  intros H. unfold lungeFindings. rewrite H.
  destruct (overAnkle >? 20)%float; destruct (overAnkle >? 10)%float;
    destruct (stability <? 0.6)%float; simpl; auto.
Qed.

Lemma squatFindings_symmetric (valgus backAngle depth symmetry : float)
  (ph : string) (bio : BiomechanicalAnalysis) :
  (symmetry <? 0.85)%float = false ->
  In "Good bilateral symmetry"
     (strengths (assessment (squatFindings valgus backAngle depth symmetry) ph bio)).
Proof.
  intros H. unfold squatFindings. rewrite H.
  destruct (valgus >? 15)%float; destruct (valgus >? 8)%float;
    destruct (backAngle >? 45)%float; destruct (backAngle >? 30)%float;
    destruct (depth <? 70)%float; simpl; auto 6.
Qed.

(** The symmetry of a frame whose six pairs are level. *)
Lemma calculateBilateralSymmetry_level (landmarks : list PoseLandmark) :
  Forall (level landmarks) bilateralPairs ->
  calculateBilateralSymmetry landmarks = Some 1%float.
Proof.
  unfold bilateralPairs, level. intros H.
  repeat match goal with
         | H : Forall _ (_ :: _) |- _ =>
             let Hh := fresh "Hh" in
             let Ht := fresh "Ht" in
             inversion H as [| ? ? Hh Ht]; subst; clear H; cbn [fst snd] in Hh
         end.
  repeat match goal with
         | H : exists l r, _ |- _ =>
             let l := fresh "l" in
             let r := fresh "r" in
             let El := fresh "El" in
             let Er := fresh "Er" in
             let Hf := fresh "Hf" in
             let He := fresh "He" in
             destruct H as (l & r & El & Er & Hf & He);
             pose proof (abs_zero _ (FloatFacts.sub_equal_zero _ _ Hf He))
         end.
  unfold calculateBilateralSymmetry. cbn [map combine].
  repeat match goal with
         | E : at_index landmarks _ = Some _ |- _ => rewrite E; clear E
         end.
  cbn [reduce bind fst snd]. unfold Math_abs.
  repeat match goal with
         | E : abs _ = 0%float |- _ => rewrite E; clear E
         end.
  reflexivity.
Qed.

Lemma phaseOfTrend_zero (trend : float) :
  is_zero trend = true -> phaseOfTrend trend = "bottom".
Proof.
  intros [s H]%FloatFacts.is_zero_Prim2SF. unfold phaseOfTrend.
  rewrite !FloatAxioms.ltb_spec, H.
  destruct s; reflexivity.
Qed.

Lemma rev_tl {A : Type} (l : list A) : rev (tl l) = removelast (rev l).
Proof.
  destruct l as [| a l]; [reflexivity|].
  simpl. now rewrite removelast_last.
Qed.

(** The three newest frames after a call: the frame just passed and the two
    newest of the history before the call. *)
Lemma addToHistory_newest (self : ExerciseAnalyzer)
  (landmarks previous oldest : list PoseLandmark) (older : list (list PoseLandmark)) :
  rev (frameHistory self) = previous :: oldest :: older ->
  exists rest,
    rev (frameHistory (addToHistory self landmarks))
    = landmarks :: previous :: oldest :: rest.
Proof.
  intros H. rewrite addToHistory_history. cbv zeta.
  assert (Hlen : length (frameHistory self) = S (S (length older))).
  { rewrite <- length_rev, H. reflexivity. }
  destruct (Nat.ltb_spec maxHistoryFrames
              (length (frameHistory self ++ [landmarks]))) as [Hfull | Hroom].
  - rewrite rev_tl, rev_app_distr, H. simpl rev. simpl app.
    rewrite length_app, Hlen in Hfull. unfold maxHistoryFrames in Hfull.
    simpl in Hfull.
    destruct older as [| o older]; [simpl in Hfull; lia|].
    cbn [removelast].
    eexists. reflexivity.
  - rewrite rev_app_distr, H. simpl. eauto.
Qed.

Section Poses.
Variable M : MathImpl.

(** X6 (lunge: an upright torso is marked as leaning).  The torso lean of
    the lunge is the absolute value of
    atan2(shoulder.x - hip.x, shoulder.y - hip.y) in degrees.  With the
    shoulder straight above the hip (equal finite x, smaller y, as image
    coordinates have it) the measure is 180, not 0, and the lunge call
    returns "Excessive forward lean - keep torso upright" among its minor
    issues. *)
Theorem lunge_marks_upright_torso_as_leaning
  (self : ExerciseAnalyzer) (landmarks : list PoseLandmark)
  (shoulder hip : PoseLandmark) :
  history_well_formed self -> well_formed landmarks ->
  at_index landmarks 11 = Some shoulder ->
  at_index landmarks 23 = Some hip ->
  is_finite (x shoulder) = true ->
  (x shoulder =? x hip)%float = true ->
  (y shoulder <? y hip)%float = true ->
  calculateTorsoLean M landmarks = Some 180%float
  /\ exists r,
       snd (analyzeExercise M self landmarks "lunge") = Some r
       /\ In "Excessive forward lean - keep torso upright" (minorIssues r).
Proof.
  intros Hs Hl E1 E2 Hf Hx Hy.
  pose proof (calculateTorsoLean_upright M landmarks shoulder hip
                E1 E2 Hf Hx Hy) as Ht.
  split; [exact Ht|].
  destruct (analyzeExercise_returns M self landmarks "lunge" Hs Hl)
    as [[r Hr] _].
  exists r. split; [exact Hr|].
  assert (E : analyzeLunge M (addToHistory self landmarks) landmarks = Some r)
    by exact Hr.
  apply analyzeLunge_full in E.
  destruct E as (bio & ph & o & t & _ & _ & _ & Ht' & ->).
  rewrite Ht in Ht'. injection Ht' as <-.
  now apply lungeFindings_forward_lean.
Qed.

(** X7 (level pairs are perfectly symmetric).  When the left and the right
    landmark of each of the six pairs (shoulders, elbows, wrists, hips,
    knees, ankles) are at the same finite height, the bilateral symmetry is
    exactly 1, and the squat call returns "Good bilateral symmetry" among
    its strengths. *)
Theorem level_pairs_are_symmetric
  (self : ExerciseAnalyzer) (landmarks : list PoseLandmark) :
  history_well_formed self -> well_formed landmarks ->
  Forall (level landmarks) bilateralPairs ->
  calculateBilateralSymmetry landmarks = Some 1%float
  /\ exists r,
       snd (analyzeExercise M self landmarks "squat") = Some r
       /\ symmetry (biomechanics r) = 1%float
       /\ In "Good bilateral symmetry" (strengths r).
Proof.
  intros Hs Hl Hlevel.
  pose proof (calculateBilateralSymmetry_level landmarks Hlevel) as Hsym.
  split; [exact Hsym|].
  destruct (analyzeExercise_returns M self landmarks "squat" Hs Hl)
    as [[r Hr] _].
  exists r. split; [exact Hr|].
  assert (E : analyzeSquat M (addToHistory self landmarks) landmarks = Some r)
    by exact Hr.
  apply analyzeSquat_inv in E.
  destruct E as (bio & ph & v & ba & d & Hb & _ & _ & _ & _ & ->).
  apply calculateSquatBiomechanics_symmetry in Hb.
  rewrite Hsym in Hb. injection Hb as Hb.
  rewrite assessment_biomechanics, <- Hb.
  split; [reflexivity|].
  now apply squatFindings_symmetric.
Qed.

(** X8 (a stationary subject is at the "bottom").  For squat, pushup and
    lunge, when the history before the call holds at least two frames and
    the tracked landmark has the same finite height in the current frame as
    in the second newest frame of that history, the returned phase is
    "bottom", wherever in the movement the subject stands still. *)
Theorem stationary_subject_is_at_bottom
  (self : ExerciseAnalyzer) (landmarks previous oldest : list PoseLandmark)
  (older : list (list PoseLandmark)) (exercise : string)
  (latest earliest : PoseLandmark) :
  history_well_formed self -> well_formed landmarks ->
  In exercise ["squat"; "pushup"; "lunge"] ->
  rev (frameHistory self) = previous :: oldest :: older ->
  at_index landmarks (trackedLandmark exercise) = Some latest ->
  at_index oldest (trackedLandmark exercise) = Some earliest ->
  is_finite (y latest) = true ->
  (y latest =? y earliest)%float = true ->
  exists r,
    snd (analyzeExercise M self landmarks exercise) = Some r
    /\ phase r = "bottom".
Proof.
  intros Hs Hl Hex Hrev El Ee Hf Heq.
  pose proof (addToHistory_well_formed self landmarks Hs Hl) as Hs'.
  destruct (analyzeExercise_returns M self landmarks exercise Hs Hl)
    as [[r Hr] _].
  exists r. split; [exact Hr|].
  assert (Ht : (trackedLandmark exercise < 33)%nat).
  { unfold trackedLandmark. destruct (exercise =? "pushup")%string; lia. }
  assert (Hph : detectPhaseAt (trackedLandmark exercise)
                  (addToHistory self landmarks) landmarks = Some (phase r)).
  { destruct (analyzeExercise_cases M self landmarks exercise)
      as [[-> E] | [[-> E] | [[-> E] | [[-> E] | [Hu E]]]]];
      rewrite Hr in E; symmetry in E.
    - apply analyzeSquat_inv in E.
      destruct E as (bio & ph & v & ba & d & _ & Hp & _ & _ & _ & ->).
      rewrite assessment_phase. exact Hp.
    - apply analyzePushup_inv in E. destruct E as (bio & ph & f & Hp & ->).
      rewrite assessment_phase. exact Hp.
    - simpl in Hex. exfalso.
      destruct Hex as [E' | [E' | [E' | []]]]; discriminate E'.
    - apply analyzeLunge_inv in E. destruct E as (bio & ph & f & Hp & ->).
      rewrite assessment_phase. exact Hp.
    - exfalso. simpl in Hex.
      destruct Hex as [<- | [<- | [<- | []]]]; discriminate Hu. }
  rewrite (detectPhaseAt_specified _ _ _ Hs' Hl Ht) in Hph.
  destruct (addToHistory_newest self landmarks previous oldest older Hrev)
    as [rest Hnew].
  unfold specifiedPhase in Hph. rewrite Hnew, El, Ee in Hph.
  cbn [bind] in Hph.
  rewrite (phaseOfTrend_zero _ (FloatFacts.sub_equal_zero _ _ Hf Heq)) in Hph.
  now injection Hph.
Qed.

End Poses.

(** X6, witness: the upright sample frame. *)
Lemma lunge_marks_upright_torso_as_leaning_witness :
  let shoulder := Sample.point 0.5 0.3 in
  let hip := Sample.point 0.5 0.6 in
  (at_index Sample.uprightFrame 11 = Some shoulder
   /\ at_index Sample.uprightFrame 23 = Some hip
   /\ is_finite (x shoulder) = true
   /\ (x shoulder =? x hip)%float = true
   /\ (y shoulder <? y hip)%float = true)
  /\ calculateTorsoLean Sample.math Sample.uprightFrame = Some 180%float
  /\ exists r,
       snd (analyzeExercise Sample.math newExerciseAnalyzer
              Sample.uprightFrame "lunge") = Some r
       /\ In "Excessive forward lean - keep torso upright" (minorIssues r).
Proof.
  cbv zeta. split; [repeat split|].
  apply (lunge_marks_upright_torso_as_leaning Sample.math
           newExerciseAnalyzer Sample.uprightFrame
           (Sample.point 0.5 0.3) (Sample.point 0.5 0.6));
    solve [constructor | reflexivity].
Defined.

(** X7, witness: the sample squat frame, whose pairs coincide. *)
Lemma level_pairs_are_symmetric_witness :
  Forall (level (Sample.squatFrame 0.2)) bilateralPairs
  /\ calculateBilateralSymmetry (Sample.squatFrame 0.2) = Some 1%float
  /\ exists r,
       snd (analyzeExercise Sample.math newExerciseAnalyzer
              (Sample.squatFrame 0.2) "squat") = Some r
       /\ symmetry (biomechanics r) = 1%float
       /\ In "Good bilateral symmetry" (strengths r).
Proof.
  assert (H : Forall (level (Sample.squatFrame 0.2)) bilateralPairs).
  { unfold bilateralPairs, level.
    repeat (constructor; [do 2 eexists; repeat split; reflexivity |]).
    constructor. }
  split; [exact H|].
  apply (level_pairs_are_symmetric Sample.math newExerciseAnalyzer
           (Sample.squatFrame 0.2)); [constructor | reflexivity | exact H].
Defined.

(** X8, witness: a third identical squat frame after two calls. *)
Lemma stationary_subject_is_at_bottom_witness :
  let frame := Sample.squatFrame 0 in
  let self :=
    fst (session Sample.math newExerciseAnalyzer
           [(frame, "squat"); (frame, "squat")]) in
  (history_well_formed self
   /\ rev (frameHistory self) = [frame; frame]
   /\ at_index frame (trackedLandmark "squat") = Some (Sample.point 0.1 0.1))
  /\ exists r,
       snd (analyzeExercise Sample.math self frame "squat") = Some r
       /\ phase r = "bottom".
Proof.
  cbv zeta.
  assert (Hs : history_well_formed
                 (fst (session Sample.math newExerciseAnalyzer
                         [(Sample.squatFrame 0, "squat");
                          (Sample.squatFrame 0, "squat")]))).
  { repeat constructor. }
  split; [split; [exact Hs | split; reflexivity]|].
  apply (stationary_subject_is_at_bottom Sample.math _
           (Sample.squatFrame 0) (Sample.squatFrame 0) (Sample.squatFrame 0)
           [] "squat" (Sample.point 0.1 0.1) (Sample.point 0.1 0.1));
    solve [exact Hs | reflexivity | simpl; auto].
Defined.

(** ** Frames that are too short *)

Lemma at_index_beyond (landmarks : list PoseLandmark) (i : nat) :
  (length landmarks <= i)%nat -> at_index landmarks i = None.
Proof. intros H. now apply nth_error_None. Qed.

Lemma mapM_raises {A B : Type} (f : A -> option B) (l : list A) (a : A) :
  In a l -> f a = None -> mapM f l = None.
Proof.
  induction l as [| b l IH]; intros Hin Hf; [contradiction|].
  simpl. destruct Hin as [-> | Hin].
  - now rewrite Hf.
  - destruct (f b); [| reflexivity]. simpl. now rewrite (IH Hin Hf).
Qed.

Lemma last_snoc_tl {A : Type} (l : list A) (a d : A) :
  last (tl (l ++ [a])) d = a \/ l = [].
Proof.
  destruct l as [| b l]; [now right|]. left.
  simpl. apply last_last.
Qed.

(** The newest entry of the history is the frame of the call. *)
Lemma addToHistory_last (self : ExerciseAnalyzer)
  (landmarks d : list PoseLandmark) :
  last (frameHistory (addToHistory self landmarks)) d = landmarks.
Proof.
  rewrite addToHistory_history. cbv zeta.
  destruct (Nat.ltb_spec maxHistoryFrames
              (length (frameHistory self ++ [landmarks]))) as [Hfull | Hroom].
  - destruct (last_snoc_tl (frameHistory self) landmarks d) as [E | E];
      [exact E|].
    rewrite E in Hfull. simpl in Hfull. unfold maxHistoryFrames in Hfull. lia.
  - apply last_last.
Qed.

Section ShortFrames.
Variable M : MathImpl.

Lemma angleAt_raises (landmarks : list PoseLandmark) (i j k : nat) :
  at_index landmarks k = None -> angleAt M landmarks i j k = None.
Proof.
  intros H. unfold angleAt. rewrite H.
  destruct (at_index landmarks i); [| reflexivity].
  destruct (at_index landmarks j); reflexivity.
Qed.

Lemma calculateBilateralSymmetry_raises (landmarks : list PoseLandmark) :
  at_index landmarks 28 = None -> calculateBilateralSymmetry landmarks = None.
Proof.
  intros H. unfold calculateBilateralSymmetry. cbn [map combine]. rewrite H.
  repeat match goal with
         | |- context [at_index landmarks ?i] =>
             destruct (at_index landmarks i);
             cbn [reduce bind fst snd]; [| reflexivity]
         end.
  reflexivity.
Qed.

(** Skips the computations that come before the one that raises. *)
Ltac skip_to_raise :=
  repeat match goal with
         | |- bind None _ = None => reflexivity
         | |- bind ?c _ = None => destruct c; cbn [bind]; [| reflexivity]
         end;
  try reflexivity.

Lemma analyzeSquat_raises_on_short_frame self landmarks :
  (length landmarks < 32)%nat -> analyzeSquat M self landmarks = None.
Proof.
  intros H.
  assert (Hb : calculateSquatBiomechanics M self landmarks = None).
  { unfold calculateSquatBiomechanics, calculateAnkleAngle.
    rewrite (angleAt_raises landmarks 25 27 31)
      by (apply at_index_beyond; lia).
    skip_to_raise. }
  unfold analyzeSquat. now rewrite Hb.
Qed.

Lemma analyzePushup_raises_on_short_frame self landmarks :
  (length landmarks < 29)%nat -> analyzePushup M self landmarks = None.
Proof.
  intros H.
  assert (Hb : calculatePushupBiomechanics M self landmarks = None).
  { unfold calculatePushupBiomechanics.
    rewrite (calculateBilateralSymmetry_raises landmarks)
      by (apply at_index_beyond; lia).
    skip_to_raise. }
  unfold analyzePushup. now rewrite Hb.
Qed.

Lemma analyzePlank_raises_on_short_frame self landmarks :
  (length landmarks < 29)%nat -> analyzePlank M self landmarks = None.
Proof.
  intros H.
  assert (Hb : calculatePlankBiomechanics M self landmarks = None).
  { unfold calculatePlankBiomechanics.
    rewrite (calculateBilateralSymmetry_raises landmarks)
      by (apply at_index_beyond; lia).
    skip_to_raise. }
  unfold analyzePlank. now rewrite Hb.
Qed.

Lemma analyzeLunge_raises_on_short_frame self landmarks :
  (length landmarks < 29)%nat -> analyzeLunge M self landmarks = None.
Proof.
  intros H.
  assert (Hb : calculateLungeBiomechanics M self landmarks = None).
  { unfold calculateLungeBiomechanics, calculateLateralSymmetry.
    rewrite (calculateBilateralSymmetry_raises landmarks)
      by (apply at_index_beyond; lia).
    skip_to_raise. }
  unfold analyzeLunge. now rewrite Hb.
Qed.

(** X9 (a short frame raises, and is kept).  For a supported exercise, a
    frame with fewer landmarks than the routine reads (32 for the squat,
    whose ankle angle reads index 31; 29 for pushup, plank and lunge, whose
    symmetry reads index 28) makes the call raise instead of returning an
    assessment; the frame has been appended to the history all the same,
    as its newest entry. *)
Theorem short_frame_raises_and_is_kept
  (self : ExerciseAnalyzer) (landmarks : list PoseLandmark)
  (exercise : string) :
  supported exercise = true ->
  (length landmarks < landmarksRead exercise)%nat ->
  snd (analyzeExercise M self landmarks exercise) = None
  /\ last (frameHistory (fst (analyzeExercise M self landmarks exercise))) []
     = landmarks.
Proof.
  intros Hsup Hlen. split; [| rewrite analyzeExercise_self; apply addToHistory_last].
  unfold landmarksRead in Hlen.
  destruct (analyzeExercise_cases M self landmarks exercise)
    as [[-> E] | [[-> E] | [[-> E] | [[-> E] | [Hu E]]]]];
    try (rewrite Hsup in Hu; discriminate Hu);
    rewrite E; simpl in Hlen.
  - now apply analyzeSquat_raises_on_short_frame.
  - now apply analyzePushup_raises_on_short_frame.
  - now apply analyzePlank_raises_on_short_frame.
  - now apply analyzeLunge_raises_on_short_frame.
Qed.

Lemma detectPhaseAt_raises_on_short_history (tracked : nat)
  (self : ExerciseAnalyzer) (landmarks older recent newest : list PoseLandmark)
  (rest : list (list PoseLandmark)) :
  rev (frameHistory self) = newest :: recent :: older :: rest ->
  (length recent <= tracked)%nat \/ (length older <= tracked)%nat ->
  detectPhaseAt tracked self landmarks = None.
Proof.
  intros Hrev Hshort. unfold detectPhaseAt.
  destruct (at_index landmarks tracked); [| reflexivity]. cbn [bind].
  assert (E : frameHistory self = rev rest ++ [older; recent; newest]).
  { rewrite <- (rev_involutive (frameHistory self)), Hrev. simpl.
    now rewrite <- !app_assoc. }
  rewrite E, length_app. simpl length.
  destruct (Nat.ltb_spec (length (rev rest) + 3) 3); [lia|].
  rewrite <- E at 1. rewrite E, slice_last_3.
  match goal with
  | |- bind (mapM ?f ?l) _ = None =>
      assert (Hm : mapM f l = None); [| now rewrite Hm]
  end.
  destruct Hshort as [Hr | Ho].
  - apply (mapM_raises _ _ recent); [simpl; auto|].
    now rewrite (at_index_beyond recent tracked Hr).
  - apply (mapM_raises _ _ older); [simpl; auto|].
    now rewrite (at_index_beyond older tracked Ho).
Qed.

(** X10 (a short frame in the history makes later calls raise).  For squat,
    pushup and lunge, when one of the two newest frames of the history
    before the call is too short to hold the tracked landmark, the call
    raises, also on a well-formed frame: the phase detector reads the
    tracked landmark in each of the last three frames. *)
Theorem short_frame_in_history_raises_later
  (self : ExerciseAnalyzer) (landmarks previous oldest : list PoseLandmark)
  (older : list (list PoseLandmark)) (exercise : string) :
  In exercise ["squat"; "pushup"; "lunge"] ->
  rev (frameHistory self) = previous :: oldest :: older ->
  (length previous <= trackedLandmark exercise)%nat
  \/ (length oldest <= trackedLandmark exercise)%nat ->
  snd (analyzeExercise M self landmarks exercise) = None.
Proof.
  intros Hex Hrev Hshort.
  destruct (addToHistory_newest self landmarks previous oldest older Hrev)
    as [rest Hnew].
  pose proof (detectPhaseAt_raises_on_short_history
                (trackedLandmark exercise) (addToHistory self landmarks)
                landmarks oldest previous landmarks rest Hnew Hshort) as Hph.
  destruct (analyzeExercise_cases M self landmarks exercise)
    as [[-> E] | [[-> E] | [[-> E] | [[-> E] | [Hu E]]]]]; rewrite E.
  - unfold analyzeSquat, detectSquatPhase.
    change (trackedLandmark "squat") with 23%nat in Hph. rewrite Hph.
    skip_to_raise.
  - unfold analyzePushup, detectPushupPhase.
    change (trackedLandmark "pushup") with 11%nat in Hph. rewrite Hph.
    skip_to_raise.
  - simpl in Hex. exfalso.
    destruct Hex as [E' | [E' | [E' | []]]]; discriminate E'.
  - unfold analyzeLunge, detectLungePhase.
    change (trackedLandmark "lunge") with 23%nat in Hph. rewrite Hph.
    skip_to_raise.
  - exfalso. simpl in Hex.
    destruct Hex as [<- | [<- | [<- | []]]]; discriminate Hu.
Qed.

Lemma session_phaseHistory (calls : list (list PoseLandmark * string)) :
  forall self : ExerciseAnalyzer,
    phaseHistory (fst (session M self calls)) = phaseHistory self.
Proof.
  induction calls as [| [landmarks exercise] calls IH]; intros self;
    [reflexivity|].
  cbn [session].
  rewrite (surjective_pairing (analyzeExercise M self landmarks exercise)).
  rewrite analyzeExercise_self.
  specialize (IH (addToHistory self landmarks)).
  destruct (session M (addToHistory self landmarks) calls) as [self' results].
  exact IH.
Qed.

Lemma session_last_frame (calls : list (list PoseLandmark * string)) :
  forall self : ExerciseAnalyzer,
    calls <> [] ->
    last (frameHistory (fst (session M self calls))) []
    = fst (last calls ([], "")).
Proof.
  induction calls as [| [landmarks exercise] calls IH]; intros self Hne;
    [contradiction|].
  cbn [session].
  rewrite (surjective_pairing (analyzeExercise M self landmarks exercise)).
  rewrite analyzeExercise_self.
  specialize (IH (addToHistory self landmarks)).
  destruct calls as [| call calls].
  - simpl. apply addToHistory_last.
  - destruct (session M (addToHistory self landmarks) (call :: calls))
      as [self' results].
    cbn [fst] in *. rewrite IH by discriminate. reflexivity.
Qed.

(** X11 (what a session leaves in the analyzer).  After any non-empty
    session on a new analyzer, the newest entry of the frame history is the
    frame of the last call, whether that call returned, raised or had an
    unknown exercise; and the phase history is still empty: no call ever
    writes it. *)
Theorem session_keeps_last_frame_and_no_phase
  (calls : list (list PoseLandmark * string)) :
  calls <> [] ->
  last (frameHistory (fst (session M newExerciseAnalyzer calls))) []
  = fst (last calls ([], ""))
  /\ phaseHistory (fst (session M newExerciseAnalyzer calls)) = [].
Proof.
  intros H. split.
  - now apply session_last_frame.
  - apply session_phaseHistory.
Qed.

End ShortFrames.

(** X9, witness: a squat call with a frame of three landmarks. *)
Lemma short_frame_raises_and_is_kept_witness :
  let frame := [Sample.point 0.5 0.5; Sample.point 0.5 0.6;
                Sample.point 0.5 0.7] in
  supported "squat" = true
  /\ (length frame < landmarksRead "squat")%nat
  /\ snd (analyzeExercise Sample.math newExerciseAnalyzer frame "squat") = None
  /\ last (frameHistory
             (fst (analyzeExercise Sample.math newExerciseAnalyzer frame
                     "squat"))) [] = frame.
Proof.
  cbv zeta. split; [reflexivity|]. split; [change (3 < 32)%nat; lia|].
  apply (short_frame_raises_and_is_kept Sample.math newExerciseAnalyzer
           [Sample.point 0.5 0.5; Sample.point 0.5 0.6; Sample.point 0.5 0.7]
           "squat"); [reflexivity | change (3 < 32)%nat; lia].
Defined.

(** X10, witness: an empty frame passed with an unknown exercise, then two
    well-formed squat frames: the second of them raises. *)
Lemma short_frame_in_history_raises_later_witness :
  let good := Sample.squatFrame 0 in
  let self :=
    fst (session Sample.math newExerciseAnalyzer
           [([], "warm-up"); (good, "squat")]) in
  (In "squat" ["squat"; "pushup"; "lunge"]
   /\ rev (frameHistory self) = [good; []]
   /\ well_formed good)
  /\ snd (analyzeExercise Sample.math self good "squat") = None.
Proof.
  cbv zeta. split; [split; [simpl; auto | split; reflexivity]|].
  apply (short_frame_in_history_raises_later Sample.math _
           (Sample.squatFrame 0) (Sample.squatFrame 0) [] [] "squat");
    [simpl; auto | reflexivity | right; simpl; lia].
Defined.

(** X11, witness: a session of two calls, the second with an unknown
    exercise. *)
Lemma session_keeps_last_frame_and_no_phase_witness :
  let calls :=
    [(Sample.squatFrame 0, "squat"); (Sample.collapsedFrame, "yoga")] in
  calls <> []
  /\ last (frameHistory (fst (session Sample.math newExerciseAnalyzer calls))) []
     = fst (last calls ([], ""))
  /\ phaseHistory (fst (session Sample.math newExerciseAnalyzer calls)) = [].
Proof.
  cbv zeta.
  assert (H : [(Sample.squatFrame 0, "squat"); (Sample.collapsedFrame, "yoga")]
              <> []) by discriminate.
  split; [exact H|].
  exact (session_keeps_last_frame_and_no_phase Sample.math _ H).
Defined.

(* ================================================================== *)
(** * The callers of the analyzer                                       *)
(* ================================================================== *)

Section Callers.
Variable M : MathImpl.

(** A returned assessment is scored from its own lists, or is the default
    assessment. *)
Lemma returned_score self landmarks exercise r :
  snd (analyzeExercise M self landmarks exercise) = Some r ->
  (supported exercise = true
   /\ score r = calculateFormScore (criticalErrors r) (minorIssues r)
                  (strengths r))
  \/ (supported exercise = false /\ r = getDefaultAssessment).
Proof.
  intros Hr.
  assert (Hbuilt : built_from_findings r ->
            score r = calculateFormScore (criticalErrors r) (minorIssues r)
                        (strengths r)).
  { intros (f & ph & b & ->). apply assessment_score. }
  destruct (analyzeExercise_cases M self landmarks exercise)
    as [[-> E] | [[-> E] | [[-> E] | [[-> E] | [Hu E]]]]];
    rewrite Hr in E; symmetry in E.
  - left. split; [reflexivity|]. apply Hbuilt. eapply analyzeSquat_built; eauto.
  - left. split; [reflexivity|]. apply Hbuilt. eapply analyzePushup_built; eauto.
  - left. split; [reflexivity|]. apply Hbuilt. eapply analyzePlank_built; eauto.
  - left. split; [reflexivity|]. apply Hbuilt. eapply analyzeLunge_built; eauto.
  - right. split; [exact Hu|]. now injection E as <-.
Qed.

(** The score of a returned assessment against the good-form threshold. *)
Lemma returned_good_form self landmarks exercise r :
  snd (analyzeExercise M self landmarks exercise) = Some r ->
  (70 <= score r)%Z <-> (findingsAgainst r <= 3)%nat.
Proof.
  intros Hr.
  destruct (routine_ranges M self landmarks exercise r Hr) as (Ht & _ & _).
  destruct (returned_score self landmarks exercise r Hr)
    as [[Hs ->] | [Hu ->]].
  - assert (Hn : gradedMeasures exercise = 4%nat
                 \/ gradedMeasures exercise = 3%nat).
    { unfold gradedMeasures. rewrite Hs.
      destruct (exercise =? "squat")%string; auto. }
    unfold totalFindings in Ht. unfold findingsAgainst, calculateFormScore.
    destruct Hn as [Hn | Hn]; rewrite Hn in Ht; lia.
  - unfold findingsAgainst. simpl. lia.
Qed.

Lemma detectPose_result self landmarks exercise :
  snd (PoseAnalyzer.detectPose M self landmarks exercise)
  = option_map (PoseAnalyzer.analysisResultOf landmarks)
      (snd (analyzeExercise M self landmarks exercise)).
Proof.
  unfold PoseAnalyzer.detectPose.
  destruct (analyzeExercise M self landmarks exercise). reflexivity.
Qed.

(** X12 (good form is a count of findings).  A pass of the detection loop
    over a well-formed frame hands on a result, whose warnings are the
    critical errors of the assessment.  The result reports good form
    exactly when twice the number of critical errors plus the number of
    minor issues is at most 3, whatever the exercise: good form therefore
    comes with at most one warning. *)
Theorem good_form_counts_findings
  (self : ExerciseAnalyzer) (landmarks : list PoseLandmark)
  (exercise : string) :
  history_well_formed self -> well_formed landmarks ->
  exists r,
    snd (analyzeExercise M self landmarks exercise) = Some r
    /\ snd (PoseAnalyzer.detectPose M self landmarks exercise)
       = Some (PoseAnalyzer.analysisResultOf landmarks r)
    /\ (PoseAnalyzer.isGoodForm (PoseAnalyzer.analysisResultOf landmarks r)
        = true
        <-> (findingsAgainst r <= 3)%nat)
    /\ (PoseAnalyzer.isGoodForm (PoseAnalyzer.analysisResultOf landmarks r)
        = true ->
        (length (PoseAnalyzer.warnings
                   (PoseAnalyzer.analysisResultOf landmarks r)) <= 1)%nat).
Proof.
  intros Hs Hl.
  destruct (analyzeExercise_returns M self landmarks exercise Hs Hl)
    as [[r Hr] _].
  exists r. split; [exact Hr|].
  split; [rewrite detectPose_result, Hr; reflexivity|].
  pose proof (returned_good_form self landmarks exercise r Hr) as Hg.
  unfold PoseAnalyzer.analysisResultOf.
  cbn [PoseAnalyzer.isGoodForm PoseAnalyzer.warnings].
  rewrite Z.leb_le. split; [exact Hg|].
  intros H. apply Hg in H. unfold findingsAgainst in H. lia.
Qed.

(** X13 (the overlay colour).  For a call with well-formed frames the
    overlay is drawn green exactly when the result reports good form, and
    it is drawn red only for the squat and the plank: the push-up, the
    lunge and an unknown exercise never score under 50. *)
Theorem overlay_is_green_on_good_form
  (self : ExerciseAnalyzer) (landmarks : list PoseLandmark)
  (exercise : string) :
  history_well_formed self -> well_formed landmarks ->
  exists r,
    snd (analyzeExercise M self landmarks exercise) = Some r
    /\ (PoseAnalyzer.drawColor r = "#22c55e"
        <-> PoseAnalyzer.isGoodForm
              (PoseAnalyzer.analysisResultOf landmarks r) = true)
    /\ (PoseAnalyzer.drawColor r = "#ef4444" ->
        exercise = "squat" \/ exercise = "plank").
Proof.
  intros Hs Hl.
  destruct (analyzeExercise_returns M self landmarks exercise Hs Hl)
    as [[r Hr] _].
  exists r. split; [exact Hr|].
  destruct (routine_ranges M self landmarks exercise r Hr) as (_ & _ & Hlow).
  unfold PoseAnalyzer.drawColor, PoseAnalyzer.analysisResultOf.
  cbn [PoseAnalyzer.isGoodForm]. rewrite Z.leb_le.
  split.
  - destruct (Z.ltb_spec (score r) 50); [split; [discriminate | lia]|].
    destruct (Z.ltb_spec (score r) 70); [split; [discriminate | lia]|].
    split; [lia | reflexivity].
  - destruct (Z.ltb_spec (score r) 50) as [Hred | Hok].
    + intros _. unfold lowestScore in Hlow.
      destruct (String.eqb_spec exercise "squat"); [auto|].
      destruct (String.eqb_spec exercise "plank"); [auto|].
      destruct (supported exercise); lia.
    + destruct (score r <? 70)%Z; discriminate.
Qed.

End Callers.

(** X12, witness: a plank call on a new analyzer. *)
Lemma good_form_counts_findings_witness :
  history_well_formed newExerciseAnalyzer
  /\ well_formed (Sample.plankFrame 0.4)
  /\ exists r,
       snd (analyzeExercise Sample.math newExerciseAnalyzer
              (Sample.plankFrame 0.4) "plank") = Some r
       /\ snd (PoseAnalyzer.detectPose Sample.math newExerciseAnalyzer
                 (Sample.plankFrame 0.4) "plank")
          = Some (PoseAnalyzer.analysisResultOf (Sample.plankFrame 0.4) r)
       /\ (PoseAnalyzer.isGoodForm
             (PoseAnalyzer.analysisResultOf (Sample.plankFrame 0.4) r) = true
           <-> (findingsAgainst r <= 3)%nat)
       /\ (PoseAnalyzer.isGoodForm
             (PoseAnalyzer.analysisResultOf (Sample.plankFrame 0.4) r) = true ->
           (length (PoseAnalyzer.warnings
                      (PoseAnalyzer.analysisResultOf (Sample.plankFrame 0.4) r))
            <= 1)%nat).
Proof.
  split; [constructor|]. split; [reflexivity|].
  apply (good_form_counts_findings Sample.math newExerciseAnalyzer
           (Sample.plankFrame 0.4) "plank"); [constructor | reflexivity].
Defined.

(** X13, witness: a squat call on a new analyzer. *)
Lemma overlay_is_green_on_good_form_witness :
  history_well_formed newExerciseAnalyzer
  /\ well_formed Sample.uprightFrame
  /\ exists r,
       snd (analyzeExercise Sample.math newExerciseAnalyzer
              Sample.uprightFrame "squat") = Some r
       /\ (PoseAnalyzer.drawColor r = "#22c55e"
           <-> PoseAnalyzer.isGoodForm
                 (PoseAnalyzer.analysisResultOf Sample.uprightFrame r) = true)
       /\ (PoseAnalyzer.drawColor r = "#ef4444" ->
           "squat" = "squat" \/ "squat" = "plank").
Proof.
  split; [constructor|]. split; [reflexivity|].
  apply (overlay_is_green_on_good_form Sample.math newExerciseAnalyzer
           Sample.uprightFrame "squat"); [constructor | reflexivity].
Defined.

(** ** The mock detection loop *)

Lemma set_y_returns (frame : list PoseLandmark) (v : float) :
  forall i, (i < length frame)%nat ->
  exists frame', PoseAnalyzer.set_y frame i v = Some frame'
                 /\ length frame' = length frame.
Proof.
  induction frame as [| p rest IH]; intros i Hi; [simpl in Hi; lia|].
  destruct i as [| i]; simpl.
  - eexists. split; reflexivity.
  - destruct (IH i) as (rest' & -> & Hlen); [simpl in Hi; lia|].
    eexists. split; [reflexivity|]. simpl. now rewrite Hlen.
Qed.

(** Writing the height of a landmark of a 33-landmark frame. *)
Ltac write_height :=
  match goal with
  | Hl : length ?frame = 33%nat
    |- context [PoseAnalyzer.set_y ?frame ?i ?v] =>
      let frame' := fresh "frame" in
      let E := fresh "E" in
      let Hl' := fresh "Hl" in
      destruct (set_y_returns frame v i) as (frame' & E & Hl');
      [rewrite Hl; lia |];
      rewrite E; cbn [bind]; rewrite Hl in Hl'; clear E
  end.

(** The mock generator returns a well-formed frame, for every exercise and
    whatever the host yields. *)
Lemma generateRealisticMockLandmarks_returns (H : PoseAnalyzer.MockHost)
  (exercise : string) (frameCount : nat) :
  exists frame,
    PoseAnalyzer.generateRealisticMockLandmarks H exercise frameCount
    = Some frame
    /\ well_formed frame.
Proof.
  unfold PoseAnalyzer.generateRealisticMockLandmarks, well_formed.
  cbv zeta.
  match goal with
  | |- context [map ?f (seq 0 33)] =>
      assert (Hl : length (map f (seq 0 33)) = 33%nat)
        by (rewrite length_map, length_seq; reflexivity);
      generalize dependent (map f (seq 0 33)); intros frame Hl
  end.
  destruct (exercise =? "squat")%string; [repeat write_height; eauto|].
  destruct (exercise =? "pushup")%string; [repeat write_height; eauto|].
  destruct (exercise =? "plank")%string; [repeat write_height; eauto|].
  destruct (exercise =? "lunge")%string; [repeat write_height; eauto|].
  eauto.
Qed.

Section MockLoop.
Variable M : MathImpl.
Variable hosts : nat -> PoseAnalyzer.MockHost.

(** One pass of the mock loop on a well-formed history. *)
Lemma mockDetection_returns (analyzer : ExerciseAnalyzer)
  (exercise : string) (frameCount : nat) :
  history_well_formed analyzer ->
  exists analyzer' result,
    PoseAnalyzer.mockDetection M (hosts frameCount) analyzer exercise
      frameCount
    = (analyzer', S frameCount, Some result)
    /\ history_well_formed analyzer'
    /\ length (PoseAnalyzer.landmarks result) = 33%nat.
Proof.
  intros Hs. unfold PoseAnalyzer.mockDetection. cbv zeta.
  destruct (generateRealisticMockLandmarks_returns (hosts frameCount)
              exercise (S frameCount)) as (frame & -> & Hl).
  destruct (analyzeExercise_returns M analyzer frame exercise Hs Hl)
    as [[r Hr] Hs'].
  destruct (analyzeExercise M analyzer frame exercise) as [analyzer' o].
  cbn [fst snd] in Hr, Hs'. subst o.
  exists analyzer', (PoseAnalyzer.analysisResultOf frame r).
  split; [reflexivity|]. split; [exact Hs'|]. exact Hl.
Qed.

(** X14 (the mock loop never raises).  Started on an analyzer whose history
    is well formed, the mock detection loop hands on a result at every
    pass, for every exercise identifier, from every frame count and
    whatever the host's sine, cosine and random numbers are: the generated
    frames always have 33 landmarks, so neither the writes of the
    exercise-specific heights nor the analyzer reads meet a missing
    landmark, and no pass stops the loop. *)
Theorem mock_loop_never_raises
  (exercise : string) (passes : nat) (analyzer : ExerciseAnalyzer)
  (frameCount : nat) :
  history_well_formed analyzer ->
  length (PoseAnalyzer.mockLoop M hosts analyzer exercise frameCount passes)
  = passes
  /\ Forall handedOn
       (PoseAnalyzer.mockLoop M hosts analyzer exercise frameCount passes).
Proof.
  revert analyzer frameCount.
  induction passes as [| passes IH]; intros analyzer frameCount Hs.
  - split; [reflexivity | constructor].
  - cbn [PoseAnalyzer.mockLoop].
    destruct (mockDetection_returns analyzer exercise frameCount Hs)
      as (analyzer' & result & -> & Hs' & Hl).
    destruct (IH analyzer' (S frameCount) Hs') as [Hlen Hall].
    split; [simpl; now rewrite Hlen|].
    constructor; [| exact Hall].
    exists result. split; [reflexivity | exact Hl].
Qed.

End MockLoop.

(** X14, witness: three passes of the squat loop on a new analyzer. *)
Lemma mock_loop_never_raises_witness :
  history_well_formed newExerciseAnalyzer
  /\ length (PoseAnalyzer.mockLoop Sample.math (fun _ => SampleHost.host)
               newExerciseAnalyzer "squat" 0 3) = 3%nat
  /\ Forall handedOn
       (PoseAnalyzer.mockLoop Sample.math (fun _ => SampleHost.host)
          newExerciseAnalyzer "squat" 0 3).
Proof.
  split; [constructor|].
  apply (mock_loop_never_raises Sample.math (fun _ => SampleHost.host)
           "squat" 3 newExerciseAnalyzer 0); constructor.
Defined.

(* ================================================================== *)
(** * The session store                                                 *)
(* ================================================================== *)

Lemma slice_last_mostRecent {A : Type} (n : nat) (l : list A) :
  slice_last n l = mostRecent n l.
Proof. symmetry. apply mostRecent_skipn. Qed.

Lemma mostRecent_mostRecent_snoc {A : Type} (n : nat) (l : list A) (a : A) :
  mostRecent n (mostRecent n l ++ [a]) = mostRecent n (l ++ [a]).
Proof.
  destruct n as [| n]; [reflexivity|].
  rewrite !mostRecent_snoc. f_equal.
  unfold mostRecent. rewrite rev_involutive, firstn_firstn.
  now rewrite Nat.min_l by lia.
Qed.

Lemma eqb_leibniz (a b : float) :
  (a =? b)%float = true -> is_zero a = false -> a = b.
Proof.
  intros H Hz. apply FloatAxioms.Prim2SF_inj.
  assert (Hnz : forall s, Prim2SF a <> S754_zero s).
  { intros s E.
    assert (is_zero a = true) by (apply FloatFacts.is_zero_Prim2SF; eauto).
    congruence. }
  rewrite FloatAxioms.eqb_spec in H. unfold SFeqb, SFcompare in H.
  destruct (Prim2SF a) as [s | s | | s m e];
    [now destruct (Hnz s) | | discriminate |];
    destruct (Prim2SF b) as [s' | s' | | s' m' e'];
    repeat match goal with
           | b : bool |- _ => destruct b
           end; try discriminate; try reflexivity.
  all: destruct (Z.compare_spec e e'); try discriminate; subst;
    change (PosDef.Pos.compare_cont Eq m m') with (Pos.compare m m') in H;
    destruct (Pos.compare_spec m m'); try discriminate; subst; reflexivity.
Qed.

(** ** The windows of the store *)

Lemma windows_from (calls : list Store.call) :
  forall (s : Store.PTSessionState) (fl : list Store.FormEntry)
         (sl : list string) (cl : list Store.CoachingEntry),
    Store.formHistory s = mostRecent 50 fl ->
    Store.aiSuggestions s = mostRecent 5 sl ->
    Store.coachingHistory s = mostRecent 100 cl ->
    Store.formHistory (Store.run s calls)
    = mostRecent 50 (loggedEntries fl calls)
    /\ Store.aiSuggestions (Store.run s calls)
       = mostRecent 5 (loggedSuggestions sl calls)
    /\ Store.coachingHistory (Store.run s calls)
       = mostRecent 100 (loggedCoaching cl calls).
Proof.
  induction calls as [| c calls IH]; intros s fl sl cl Hf Hs Hc;
    [simpl; auto|].
  change (Store.run s (c :: calls))
    with (Store.run (Store.apply s c) calls).
  cbn [loggedEntries loggedSuggestions loggedCoaching].
  destruct c; cbn [entryOf Store.apply]; apply IH;
    unfold Store.handleAnalysisUpdate;
    try match goal with
        | |- context [if ?c then Store.incrementReps _ else _] => destruct c
        end;
    cbn [Store.startSession Store.endSession Store.setCurrentExercise
         Store.incrementReps Store.updateFormScore Store.addAISuggestion
         Store.clearSuggestions Store.updatePreferences Store.resetSession
         Store.initialState Store.formHistory Store.aiSuggestions
         Store.coachingHistory];
    rewrite ?slice_last_mostRecent, ?Hf, ?Hs, ?Hc,
      ?mostRecent_mostRecent_snoc;
    try reflexivity.
  all: unfold Store.updateDuration; destruct (Store.startTime s) as [t |];
    [destruct (t =? 0)%Z |]; assumption.
Qed.

(** X15 (the windows of the store).  After any sequence of calls on the
    initial store, the form history is the 50 most recent of the entries
    appended since a session was last started or the store reset, the
    suggestions are the 5 most recent of those added since they were last
    cleared or the store reset, and the coaching history is the 100 most
    recent of the entries added since a session was last started or the
    store reset.  So starting a session empties the form history and the
    coaching history and keeps the suggestions, clearing the suggestions
    keeps the coaching history, and the three lists never hold more than
    50, 5 and 100 elements. *)
Theorem store_keeps_most_recent (calls : list Store.call) :
  let s := Store.run Store.initialState calls in
  Store.formHistory s = mostRecent 50 (loggedEntries [] calls)
  /\ Store.aiSuggestions s = mostRecent 5 (loggedSuggestions [] calls)
  /\ Store.coachingHistory s = mostRecent 100 (loggedCoaching [] calls)
  /\ (length (Store.formHistory s) <= 50)%nat
  /\ (length (Store.aiSuggestions s) <= 5)%nat
  /\ (length (Store.coachingHistory s) <= 100)%nat.
Proof.
  cbv zeta.
  destruct (windows_from calls Store.initialState [] [] [])
    as (Hf & Hs & Hc); try reflexivity.
  rewrite Hf, Hs, Hc, !mostRecent_length. repeat split; lia.
Qed.

(** ** The session flags *)

Lemma session_flags_from (calls : list Store.call) :
  forall s : Store.PTSessionState,
    (Store.isActive s = true <-> Store.startTime s <> None) ->
    (Store.isActive s = false -> Store.duration s = 0%Z) ->
    (Store.isActive (Store.run s calls) = true
     <-> Store.startTime (Store.run s calls) <> None)
    /\ (Store.isActive (Store.run s calls) = false ->
        Store.duration (Store.run s calls) = 0%Z).
Proof.
  induction calls as [| c calls IH]; intros s Ha Hd; [simpl; auto|].
  change (Store.run s (c :: calls))
    with (Store.run (Store.apply s c) calls).
  apply IH; destruct c; cbn [Store.apply];
    unfold Store.handleAnalysisUpdate, Store.updateDuration;
    try match goal with
        | |- context [if ?c then Store.incrementReps _ else _] => destruct c
        end;
    try (destruct (Store.startTime s) as [t |] eqn:Et;
         [destruct (t =? 0)%Z |]);
    cbn [Store.startSession Store.endSession Store.setCurrentExercise
         Store.incrementReps Store.updateFormScore Store.addAISuggestion
         Store.clearSuggestions Store.updatePreferences Store.resetSession
         Store.with_duration Store.initialState
         Store.isActive Store.startTime Store.duration];
    rewrite ?Et in *;
    try assumption;
    try (split; [discriminate | congruence]);
    try (split; [congruence | reflexivity]);
    try reflexivity; try discriminate.
  all: try (intros Hi; apply Hd; exact Hi).
  all: try (intros Hi; assert (Store.isActive s = true) by (apply Ha; discriminate); congruence).
Qed.

(** X16 (a session is active exactly while it has a start time).  After any
    sequence of calls on the initial store, the store is active exactly
    when its start time is set, and a store that is not active shows a
    duration of 0: [updateDuration] writes a duration only while a start
    time is set, and [endSession] and [resetSession] clear both. *)
Theorem active_iff_started (calls : list Store.call) :
  let s := Store.run Store.initialState calls in
  (Store.isActive s = true <-> Store.startTime s <> None)
  /\ (Store.isActive s = false -> Store.duration s = 0%Z).
Proof.
  cbv zeta. apply session_flags_from.
  - simpl. split; [discriminate | congruence].
  - reflexivity.
Qed.

(** ** The repetition count *)

Lemma totalReps_step (s : Store.PTSessionState) (c : Store.call) :
  Store.is_reset c = false ->
  (Store.totalReps s <= Store.totalReps (Store.apply s c)
   <= Store.totalReps s + 1)%nat.
Proof.
  intros Hr. destruct c; try discriminate Hr; cbn [Store.apply];
    unfold Store.handleAnalysisUpdate, Store.updateDuration;
    try match goal with
        | |- context [if ?c then Store.incrementReps _ else _] => destruct c
        end;
    try (destruct (Store.startTime s) as [t |];
         [destruct (t =? 0)%Z |]);
    cbn [Store.startSession Store.endSession Store.setCurrentExercise
         Store.incrementReps Store.updateFormScore Store.addAISuggestion
         Store.clearSuggestions Store.updatePreferences
         Store.with_duration Store.totalReps]; lia.
Qed.

(** X17 (repetitions are counted across sessions).  Over any sequence of
    calls without [resetSession], the total of repetitions never goes down
    and grows by at most one per call: starting or ending a session keeps
    the repetitions counted before it. *)
Theorem reps_survive_sessions
  (s : Store.PTSessionState) (calls : list Store.call) :
  forallb (fun c => negb (Store.is_reset c)) calls = true ->
  (Store.totalReps s <= Store.totalReps (Store.run s calls)
   <= Store.totalReps s + length calls)%nat.
Proof.
  revert s. induction calls as [| c calls IH]; intros s H; [simpl; lia|].
  simpl in H. apply andb_true_iff in H as [Hc H].
  apply negb_true_iff in Hc.
  change (Store.run s (c :: calls))
    with (Store.run (Store.apply s c) calls).
  pose proof (totalReps_step s c Hc). specialize (IH (Store.apply s c) H).
  simpl length. lia.
Qed.

(** ** The scores the application stores *)

Lemma In_Z_range (len : nat) :
  forall lo z, (lo <= z < lo + Z.of_nat len)%Z -> In z (Z_range lo len).
Proof.
  induction len as [| len IH]; intros lo z H; [lia|].
  cbn [Z_range]. destruct (Z.eq_dec lo z) as [-> | Hne]; [now left|].
  right. apply IH. lia.
Qed.

(** Adding 85 or 45 to a whole number up to 4165 is exact. *)
Lemma sums_table :
  forallb (fun k =>
             let f := of_uint63 (Uint63.of_Z k) in
             ((f + 85 =? of_uint63 (Uint63.of_Z (k + 85)))
              && (f + 45 =? of_uint63 (Uint63.of_Z (k + 45)))
              && negb (is_zero (f + 85))
              && negb (is_zero (f + 45)))%float)
    (Z_range 0 4166) = true.
Proof. vm_compute. reflexivity. Qed.

(** The rounded average of [good] scores of 85 and [n - good] scores of
    45, for up to 50 scores. *)
Lemma averages_table :
  forallb (fun n =>
             forallb (fun good =>
                        let total := (85 * good + 45 * (n - good))%Z in
                        let average :=
                          Store.Math_round
                            (of_uint63 (Uint63.of_Z total)
                             / of_uint63 (Uint63.of_Z n)) in
                        (average
                         =? of_uint63
                              (Uint63.of_Z ((2 * total + n) / (2 * n))))%float
                        && negb (is_zero average))
               (Z_range 0 (Z.to_nat (n + 1))))
    (Z_range 1 50) = true.
Proof. vm_compute. reflexivity. Qed.

Lemma add_score (k : nat) :
  (k <= 4165)%nat ->
  (of_nat k + 85)%float = of_nat (k + 85)
  /\ (of_nat k + 45)%float = of_nat (k + 45).
Proof.
  intros Hk. pose proof sums_table as T.
  rewrite forallb_forall in T.
  assert (Hin : In (Z.of_nat k) (Z_range 0 4166)) by (apply In_Z_range; lia).
  specialize (T (Z.of_nat k) Hin).
  cbv zeta in T.
  rewrite !andb_true_iff, !negb_true_iff in T.
  destruct T as [[[A B] C] D].
  unfold of_nat. rewrite !Nat2Z.inj_add.
  split; apply eqb_leibniz; assumption.
Qed.

Lemma sum_quantized (entries : list Store.FormEntry) :
  Forall Store.quantized entries ->
  forall k, (k + 85 * length entries <= 4250)%nat ->
  exists good poor,
    (good + poor = length entries)%nat
    /\ fold_left (fun sum entry => (sum + Store.entryScore entry)%float)
         entries (of_nat k)
       = of_nat (k + (85 * good + 45 * poor)).
Proof.
  induction 1 as [| entry entries Hq _ IH]; intros k Hk.
  - exists 0%nat, 0%nat. simpl. split; [lia|]. now rewrite Nat.add_0_r.
  - simpl length in Hk. cbn [fold_left].
    destruct (add_score k ltac:(lia)) as [A B].
    destruct Hq as [-> | ->]; [rewrite A | rewrite B].
    + destruct (IH (k + 85)%nat ltac:(lia)) as (good & poor & Ht & ->).
      exists (S good), poor. simpl length. split; [lia|]. f_equal. lia.
    + destruct (IH (k + 45)%nat ltac:(lia)) as (good & poor & Ht & ->).
      exists good, (S poor). simpl length. split; [lia|]. f_equal. lia.
Qed.

Lemma roundedAverage_range (total n : nat) :
  (1 <= n)%nat -> (45 * n <= total <= 85 * n)%nat ->
  (45 <= roundedAverage total n <= 85)%nat.
Proof.
  intros Hn Ht. unfold roundedAverage. split.
  - apply Nat.div_le_lower_bound; lia.
  - assert ((2 * total + n) / (2 * n) < 86)%nat; [| lia].
    apply Nat.Div0.div_lt_upper_bound. lia.
Qed.

(** The average the store shows for up to 50 entries of 85 and 45. *)
Lemma average_quantized (entries : list Store.FormEntry) :
  Forall Store.quantized entries ->
  (1 <= length entries <= 50)%nat ->
  appAverage (Store.Math_round (Store.averageScore entries)).
Proof.
  intros Hq Hn. unfold Store.averageScore.
  destruct (sum_quantized entries Hq 0 ltac:(lia))
    as (good & poor & Ht & E).
  change (of_nat 0) with 0%float in E. rewrite E. cbn [Nat.add].
  set (n := length entries) in *.
  set (total := (85 * good + 45 * poor)%nat).
  pose proof averages_table as T.
  rewrite forallb_forall in T.
  assert (Hin : In (Z.of_nat n) (Z_range 1 50)) by (apply In_Z_range; lia).
  specialize (T (Z.of_nat n) Hin).
  rewrite forallb_forall in T.
  assert (Hin' : In (Z.of_nat good) (Z_range 0 (Z.to_nat (Z.of_nat n + 1))))
    by (apply In_Z_range; lia).
  specialize (T (Z.of_nat good) Hin').
  cbv zeta in T.
  replace (85 * Z.of_nat good + 45 * (Z.of_nat n - Z.of_nat good))%Z
    with (Z.of_nat total) in T by (unfold total; lia).
  replace ((2 * Z.of_nat total + Z.of_nat n) / (2 * Z.of_nat n))%Z
    with (Z.of_nat (roundedAverage total n)) in T
    by (unfold roundedAverage; rewrite Nat2Z.inj_div; f_equal; lia).
  rewrite andb_true_iff, negb_true_iff in T. destruct T as [A B].
  exists (roundedAverage total n).
  split; [apply eqb_leibniz; assumption|].
  right. apply roundedAverage_range; unfold total; lia.
Qed.

Lemma slice_last_length {A : Type} (n : nat) (l : list A) :
  length (slice_last n l) = Nat.min n (length l).
Proof. rewrite slice_last_mostRecent. apply mostRecent_length. Qed.

Lemma slice_last_Forall {A : Type} (P : A -> Prop) (n : nat) (l : list A) :
  Forall P l -> Forall P (slice_last n l).
Proof.
  rewrite !Forall_forall. intros H a Ha. apply H.
  exact (In_slice_last n l a Ha).
Qed.

(** One update with a score of 85 or 45. *)
Lemma updateFormScore_quantized (s : Store.PTSessionState) (v : float)
  (ph : string) (issues : list string) (now : Z) :
  v = 85%float \/ v = 45%float ->
  Forall Store.quantized (Store.formHistory s) ->
  let s' := Store.updateFormScore s v ph issues now in
  Forall Store.quantized (Store.formHistory s')
  /\ appScore (Store.currentFormScore s')
  /\ appAverage (Store.averageFormScore s').
Proof.
  intros Hv Hq. cbv zeta. unfold Store.updateFormScore.
  cbn [Store.formHistory Store.currentFormScore Store.averageFormScore].
  set (entry := {| Store.entryTimestamp := now; Store.entryScore := v;
                   Store.entryPhase := ph; Store.entryIssues := issues |}).
  assert (Hq' : Forall Store.quantized
                  (slice_last 50 (Store.formHistory s ++ [entry]))).
  { apply slice_last_Forall, Forall_app. split; [exact Hq|].
    constructor; [exact Hv | constructor]. }
  assert (Hn : (1 <= length (slice_last 50 (Store.formHistory s ++ [entry]))
                <= 50)%nat).
  { rewrite slice_last_length, length_app. cbn [length]. lia. }
  split; [exact Hq'|]. split; [right; exact Hv|].
  apply average_quantized; assumption.
Qed.

Lemma app_scores_from (calls : list Store.call) :
  forallb (fun c => negb (Store.adds_free_score c)) calls = true ->
  forall s : Store.PTSessionState,
    Forall Store.quantized (Store.formHistory s) ->
    appScore (Store.currentFormScore s) ->
    appAverage (Store.averageFormScore s) ->
    Forall Store.quantized (Store.formHistory (Store.run s calls))
    /\ appScore (Store.currentFormScore (Store.run s calls))
    /\ appAverage (Store.averageFormScore (Store.run s calls)).
Proof.
  induction calls as [| c calls IH]; intros H s Hq Hc Ha; [simpl; auto|].
  simpl in H. apply andb_true_iff in H as [Hfree H].
  apply negb_true_iff in Hfree.
  change (Store.run s (c :: calls))
    with (Store.run (Store.apply s c) calls).
  assert (Hz : appAverage 0%float) by (exists 0%nat; split; [reflexivity | auto]).
  assert (Hz' : appScore 0%float) by (left; reflexivity).
  destruct c; try discriminate Hfree; cbn [Store.apply];
    try (apply (IH H); unfold Store.updateDuration;
         try (destruct (Store.startTime s) as [t |];
              [destruct (t =? 0)%Z |]);
         cbn [Store.startSession Store.endSession Store.setCurrentExercise
              Store.incrementReps Store.addAISuggestion
              Store.clearSuggestions Store.updatePreferences
              Store.resetSession Store.with_duration Store.initialState
              Store.formHistory Store.currentFormScore
              Store.averageFormScore];
         solve [assumption | constructor]).
  unfold Store.handleAnalysisUpdate.
  match goal with
  | |- context [Store.updateFormScore s ?v ?ph ?issues ?now] =>
      destruct (updateFormScore_quantized s v ph issues now) as (A & B & C);
      [destruct (PoseAnalyzer.isGoodForm result); auto | exact Hq |]
  end.
  destruct (_ && _)%bool; apply (IH H); assumption.
Qed.

(** X18 (the application stores 85 or 45, not the analyzer's score).  Over
    any sequence of calls in which form scores reach the store through
    [handleAnalysisUpdate] only, every kept entry has score 85 or 45, the
    current form score is 0, 85 or 45, and the average form score is a
    whole number that is 0 or lies between 45 and 85: the sum of the kept
    scores, their quotient by the number of entries and its rounding are
    computed in binary64 without leaving that range. *)
Theorem app_scores_are_85_or_45 (calls : list Store.call) :
  forallb (fun c => negb (Store.adds_free_score c)) calls = true ->
  let s := Store.run Store.initialState calls in
  Forall Store.quantized (Store.formHistory s)
  /\ appScore (Store.currentFormScore s)
  /\ appAverage (Store.averageFormScore s).
Proof.
  intros H. cbv zeta. apply (app_scores_from calls H).
  - constructor.
  - left. reflexivity.
  - exists 0%nat. split; [reflexivity | auto].
Qed.

(** X17, witness: a repetition counted in a first session, and a second
    session started. *)
Lemma reps_survive_sessions_witness :
  forallb (fun c => negb (Store.is_reset c))
    [Store.StartSession "squat" 1000 1000; Store.IncrementReps;
     Store.EndSession; Store.StartSession "plank" 2000 2000] = true
  /\ (Store.totalReps Store.initialState
      <= Store.totalReps
           (Store.run Store.initialState
              [Store.StartSession "squat" 1000 1000; Store.IncrementReps;
               Store.EndSession; Store.StartSession "plank" 2000 2000])
      <= Store.totalReps Store.initialState
         + length [Store.StartSession "squat" 1000 1000; Store.IncrementReps;
                   Store.EndSession; Store.StartSession "plank" 2000 2000])%nat.
Proof.
  split; [reflexivity|].
  apply (reps_survive_sessions Store.initialState
           [Store.StartSession "squat" 1000 1000; Store.IncrementReps;
            Store.EndSession; Store.StartSession "plank" 2000 2000]).
  reflexivity.
Defined.

(** X18, witness: a session with one analysis update of the default
    assessment. *)
Lemma app_scores_are_85_or_45_witness :
  forallb (fun c => negb (Store.adds_free_score c))
    [Store.StartSession "squat" 1000 1001;
     Store.HandleAnalysisUpdate
       (PoseAnalyzer.analysisResultOf [] getDefaultAssessment) 1002 0.9;
     Store.EndSession] = true
  /\ Forall Store.quantized
       (Store.formHistory
          (Store.run Store.initialState
             [Store.StartSession "squat" 1000 1001;
              Store.HandleAnalysisUpdate
                (PoseAnalyzer.analysisResultOf [] getDefaultAssessment)
                1002 0.9;
              Store.EndSession]))
  /\ appScore
       (Store.currentFormScore
          (Store.run Store.initialState
             [Store.StartSession "squat" 1000 1001;
              Store.HandleAnalysisUpdate
                (PoseAnalyzer.analysisResultOf [] getDefaultAssessment)
                1002 0.9;
              Store.EndSession]))
  /\ appAverage
       (Store.averageFormScore
          (Store.run Store.initialState
             [Store.StartSession "squat" 1000 1001;
              Store.HandleAnalysisUpdate
                (PoseAnalyzer.analysisResultOf [] getDefaultAssessment)
                1002 0.9;
              Store.EndSession])).
Proof.
  split; [reflexivity|].
  apply (app_scores_are_85_or_45
           [Store.StartSession "squat" 1000 1001;
            Store.HandleAnalysisUpdate
              (PoseAnalyzer.analysisResultOf [] getDefaultAssessment)
              1002 0.9;
            Store.EndSession]).
  reflexivity.
Defined.

(** ** From the analyzer to the store *)

Section Pipeline.
Variable M : MathImpl.

(** The issues the application logs for a returned assessment. *)
Lemma issues_of_returned self landmarks exercise r :
  snd (analyzeExercise M self landmarks exercise) = Some r ->
  let result := PoseAnalyzer.analysisResultOf landmarks r in
  PoseAnalyzer.suggestions result ++ PoseAnalyzer.warnings result <> []
  /\ (findingsAgainst r = 0%nat ->
      exists strength,
        PoseAnalyzer.suggestions result ++ PoseAnalyzer.warnings result
        = [strength]
        /\ In strength (strengths r)).
Proof.
  intros Hr. cbv zeta.
  destruct (routine_ranges M self landmarks exercise r Hr) as (Ht & _ & _).
  assert (Hn : (1 <= gradedMeasures exercise)%nat).
  { unfold gradedMeasures. destruct (exercise =? "squat")%string; [lia|].
    destruct (supported exercise); lia. }
  unfold totalFindings in Ht. unfold findingsAgainst.
  cbn [PoseAnalyzer.analysisResultOf PoseAnalyzer.suggestions
       PoseAnalyzer.warnings].
  destruct (criticalErrors r) as [| c cs]; destruct (minorIssues r) as [| m ms];
    destruct (strengths r) as [| s ss]; simpl in *; try lia;
    split; try discriminate; try (intros; lia).
  intros _. exists s. split; [reflexivity | now left].
Qed.


End Pipeline.

